(** * WAN impairment controller ([wan_manager.py]): a shallow embedding

    The script drives the kernel traffic shaper through the [tc] and [ip]
    command line tools.  Every function of the script that reads or
    changes the shaping state is embedded below as a computation in a
    state-and-exception monad over an abstract command backend:

    - the backend maps a command line (a list of words) and its own state
      to an outcome ([None]: the command exited with a non-zero status,
      [Some out]: it exited with status 0 and printed [out]) and a new
      state;
    - Python exceptions the script does not catch ([IndexError] from a
      list subscript, [KeyError] from a dict subscript) are the error
      results of the monad;
    - every command the script issues is appended to a log, so that
      statements about "what the script asks the backend to do" are
      statements about that log.

    Strings are sequences of code points; the embedding covers the code
    points 0..255 (Rocq's [ascii]).  The terminal effects of the script
    ([os.system('clear')], [print]) are left out, and the two tools are
    taken to be installed: nothing the statements below are about depends
    on that.  Of what the script prints only the status table is kept, as
    the value of [show_status]; [main] is its loop over the lines the
    operator types.

    Part I holds the definitions: the embedding of the script, the
    observations on the command log, and the backends used as inputs.
    Part II holds the lemmas and the theorems. *)

From Stdlib Require Import Ascii String.
From Equations Require Import Equations.
From stdpp Require Import gmap strings list.

Open Scope string_scope.
Open Scope list_scope.
Open Scope nat_scope.

(** * Part I: the embedding *)

(** ** Python string primitives used by the script *)

Module PyStr.

(** [str.isspace] on one code point below 256: the characters that
    [str.split()] and [str.strip()] treat as white space. *)
Definition is_space (c : ascii) : bool :=
  let n := nat_of_ascii c in
  ((9 <=? n) && (n <=? 13)) || ((28 <=? n) && (n <=? 32))
  || (n =? 133) || (n =? 160).

(** The line boundaries of [str.splitlines] below 256, apart from the
    two-character boundary CR LF, which [splitlines_go] handles. *)
Definition is_linebreak (c : ascii) : bool :=
  let n := nat_of_ascii c in
  ((10 <=? n) && (n <=? 13)) || ((28 <=? n) && (n <=? 30)) || (n =? 133).

Definition snoc (s : string) (c : ascii) : string := s +:+ String c "".

(** [s.split()]: maximal runs of non-space characters. [cur] is the word
    being read. *)
Fixpoint split_go (cur : string) (s : string) : list string :=
  match s with
  | "" => if String.eqb cur "" then [] else [cur]
  | String c s' =>
      if is_space c
      then (if String.eqb cur "" then split_go "" s' else cur :: split_go "" s')
      else split_go (snoc cur c) s'
  end.

Definition split (s : string) : list string := split_go "" s.

(** [s.splitlines()]: CR LF counts as one boundary, and a final boundary
    does not open an empty last line. *)
Fixpoint splitlines_go (cur : string) (s : string) : list string :=
  match s with
  | "" => if String.eqb cur "" then [] else [cur]
  | String c s' =>
      if is_linebreak c
      then cur :: match s' with
                  | String c' s'' =>
                      if (nat_of_ascii c =? 13) && (nat_of_ascii c' =? 10)
                      then splitlines_go "" s''
                      else splitlines_go "" s'
                  | "" => splitlines_go "" s'
                  end
      else splitlines_go (snoc cur c) s'
  end.

Definition splitlines (s : string) : list string := splitlines_go "" s.

Fixpoint lstrip (s : string) : string :=
  match s with
  | "" => ""
  | String c s' => if is_space c then lstrip s' else s
  end.

Fixpoint rstrip (s : string) : string :=
  match s with
  | "" => ""
  | String c s' =>
      let r := rstrip s' in
      if String.eqb r "" && is_space c then "" else String c r
  end.

(** [s.strip()] *)
Definition strip (s : string) : string := rstrip (lstrip s).

(** [s.startswith(p)] *)
Definition startswith (s p : string) : bool := String.prefix p s.

(** [s.endswith(p)] *)
Fixpoint endswith (s p : string) : bool :=
  String.eqb s p || match s with
                    | "" => false
                    | String _ s' => endswith s' p
                    end.

(** [needle in s] *)
Fixpoint contains (needle s : string) : bool :=
  String.prefix needle s || match s with
                            | "" => false
                            | String _ s' => contains needle s'
                            end.

(** [' '.join(l)], used when a model of the backend prints a line. *)
Fixpoint join (l : list string) : string :=
  match l with
  | [] => ""
  | [x] => x
  | x :: l' => x +:+ " " +:+ join l'
  end.

End PyStr.

(** ** Results, exceptions and the command log *)

(** The two exceptions a subscript of the script can raise. *)
Inductive exn : Set := IndexError | KeyError.

Inductive res (A : Type) : Type :=
  | Ok (a : A)
  | Raise (e : exn).

Arguments Ok {A} a.

Arguments Raise {A} e.

(** One entry per command handed to the backend.  [Ran] is a command run
    through [run_command] (the script sees its outcome), [Called] one run
    through [subprocess.call] (the script throws the outcome away). *)
Inductive event : Type :=
  | Ran (cmd : list string) (out : option string)
  | Called (cmd : list string) (out : option string).

Definition event_cmd (e : event) : list string :=
  match e with Ran c _ | Called c _ => c end.

Definition event_out (e : event) : option string :=
  match e with Ran _ o | Called _ o => o end.

Record World (St : Type) : Type := mkWorld { sys : St; log : list event }.

Arguments mkWorld {St} sys log.

Arguments sys {St} w.

Arguments log {St} w.

(** Computations of the script: they may change the backend, extend the
    log, and end in a value or in an uncaught exception. *)
Definition M (St A : Type) : Type := World St -> res A * World St.

Definition ret {St A} (a : A) : M St A := fun w => (Ok a, w).

Definition bind {St A B} (m : M St A) (k : A -> M St B) : M St B :=
  fun w => match m w with
           | (Ok a, w') => k a w'
           | (Raise e, w') => (Raise e, w')
           end.

Definition lift {St A} (r : res A) : M St A := fun w => (r, w).

Notation "'let*' x ':=' m 'in' k" := (bind m (fun x => k))
  (at level 10, x name, m at level 100, k at level 200).

Notation "m ';;' k" := (bind m (fun _ => k))
  (at level 100, k at level 200, right associativity).

Definition res_bind {A B} (r : res A) (k : A -> res B) : res B :=
  match r with
  | Ok a => k a
  | Raise e => Raise e
  end.

(** [d[k]] on a dict. *)
Definition getitem {V} (d : gmap string V) (k : string) : res V :=
  match d !! k with
  | Some v => Ok v
  | None => Raise KeyError
  end.

(** [l[i]] on a list, for an index that is not negative. *)
Definition subscript (l : list string) (i : nat) : res string :=
  match l !! i with
  | Some x => Ok x
  | None => Raise IndexError
  end.

(** [d.setdefault(k, v)], for its effect on the dict. *)
Definition setdefault (k v : string) (d : gmap string string) : gmap string string :=
  match d !! k with
  | Some _ => d
  | None => <[k := v]> d
  end.

(** Python truth of an [Optional[str]]: [None] and [''] are false. *)
Definition truthy (o : option string) : bool :=
  match o with
  | Some s => negb (String.eqb s "")
  | None => false
  end.

(** ** Constants of the script *)

Definition WAN1 : string := "ens19".

Definition WAN2 : string := "ens20".

Definition profile (bandwidth delay jitter loss : string) : gmap string string :=
  <["bandwidth" := bandwidth]> (<["delay" := delay]> (<["jitter" := jitter]> (<["loss" := loss]> ∅))).

Definition DEFAULT_PARAMS : gmap string (gmap string string) :=
  <[WAN1 := profile "100mbit" "0ms" "0ms" "0%"]>
  (<[WAN2 := profile "50mbit" "30ms" "0ms" "0%"]> ∅).

(** The dict [{'delay': d, 'jitter': j, 'loss': l}]. *)
Definition netem_dict (d j l : string) : gmap string string :=
  <["delay" := d]> (<["jitter" := j]> (<["loss" := l]> ∅)).

(** ** The state reader: parsing what the backend printed *)

(** The [while i < len(parts)] loop of [get_netem_params].  Each round
    moves [i] forward, which is the termination argument. *)
Equations? netem_loop (parts : list string) (i : nat) (params : gmap string string)
  : res (gmap string string) by wf (length parts - i) lt :=
  netem_loop parts i params with decide (i < length parts) => {
    | right _ => Ok params
    | left _ =>
        match subscript parts i with
        | Raise e => Raise e
        | Ok p =>
            if String.eqb p "delay" then
              match subscript parts (i + 1) with
              | Raise e => Raise e
              | Ok d =>
                  let params := <["delay" := d]> params in
                  if decide (i + 2 < length parts) then
                    match subscript parts (i + 2) with
                    | Raise e => Raise e
                    | Ok j =>
                        if PyStr.endswith j "ms" && negb (PyStr.startswith j "loss")
                        then netem_loop parts (i + 3) (<["jitter" := j]> params)
                        else netem_loop parts (i + 2) params
                    end
                  else netem_loop parts (i + 2) params
              end
            else if String.eqb p "loss" then
              match subscript parts (i + 1) with
              | Raise e => Raise e
              | Ok l => netem_loop parts (i + 2) (<["loss" := l]> params)
              end
            else netem_loop parts (i + 1) params
        end }.
Proof. all: lia. Qed.

(** The three [setdefault] calls after the loop. *)
Definition fill_defaults (params : gmap string string) : gmap string string :=
  setdefault "loss" "0%" (setdefault "jitter" "0ms" (setdefault "delay" "0ms" params)).

(** The [for line in output.splitlines()] loop of [get_netem_params]: the
    first line that mentions [netem] decides the result. *)
Fixpoint netem_params_of_lines (lines : list string) : res (gmap string string) :=
  match lines with
  | [] => Ok (netem_dict "0ms" "0ms" "0%")
  | line :: rest =>
      if PyStr.contains "netem" line then
        match netem_loop (PyStr.split line) 0 ∅ with
        | Ok params => Ok (fill_defaults params)
        | Raise e => Raise e
        end
      else netem_params_of_lines rest
  end.

(** What [get_netem_params] does with the value [run_command] gave it. *)
Definition netem_params_of_output (output : option string) : res (gmap string string) :=
  match output with
  | Some out =>
      if truthy output then netem_params_of_lines (PyStr.splitlines out)
      else Ok (netem_dict "0ms" "0ms" "0%")
  | None => Ok (netem_dict "0ms" "0ms" "0%")
  end.

(** The [for i in range(len(parts))] loop of [get_htb_rate] over the
    indices still to visit: [Some r] is the [return] inside the loop (a
    value, or the exception of the subscript), [None] is a loop that ran
    to its end. *)
Fixpoint rate_scan (parts : list string) (range : list nat) : option (res string) :=
  match range with
  | [] => None
  | i :: range' =>
      match subscript parts i with
      | Raise e => Some (Raise e)
      | Ok p =>
          if String.eqb p "rate" then Some (subscript parts (i + 1))
          else rate_scan parts range'
      end
  end.

Fixpoint htb_rate_of_lines (lines : list string) : res string :=
  match lines with
  | [] => Ok "no limit"
  | line :: rest =>
      if PyStr.contains "class htb 1:10" line then
        let parts := PyStr.split line in
        match rate_scan parts (seq 0 (length parts)) with
        | Some r => r
        | None => htb_rate_of_lines rest
        end
      else htb_rate_of_lines rest
  end.

Definition htb_rate_of_output (output : option string) : res string :=
  match output with
  | Some out =>
      if truthy output then htb_rate_of_lines (PyStr.splitlines out)
      else Ok "no limit"
  | None => Ok "no limit"
  end.

Definition status_of_output (output : option string) : string :=
  match output with
  | Some out =>
      if truthy output then
        if PyStr.contains "state UP" out then "UP"
        else if PyStr.contains "state DOWN" out then "DOWN"
        else "UNKNOWN"
      else "UNKNOWN"
  | None => "UNKNOWN"
  end.

(** ** The controller over an abstract backend *)

Section Controller.

Context {St : Type}.

(** The shaping backend: [tc] and [ip] as one transition function. *)
Variable backend : list string -> St -> option string * St.

(** [run_command]: the command goes to the backend; a non-zero exit is
    caught and becomes [None], otherwise the output comes back stripped. *)
Definition run_command (cmd : list string) : M St (option string) :=
  fun w =>
    let (out, s') := backend cmd (sys w) in
    (Ok (PyStr.strip <$> out), mkWorld s' (log w ++ [Ran cmd out])).

(** [subprocess.call(cmd, stderr=DEVNULL)] with its return code unused. *)
Definition subprocess_call (cmd : list string) : M St unit :=
  fun w =>
    let (out, s') := backend cmd (sys w) in
    (Ok tt, mkWorld s' (log w ++ [Called cmd out])).

Definition get_netem_params (interface : string) : M St (gmap string string) :=
  let* output := run_command ["tc"; "qdisc"; "show"; "dev"; interface] in
  lift (netem_params_of_output output).

Definition get_htb_rate (interface : string) : M St string :=
  let* output := run_command ["tc"; "class"; "show"; "dev"; interface] in
  lift (htb_rate_of_output output).

Definition get_interface_status (interface : string) : M St string :=
  let* output := run_command ["ip"; "link"; "show"; interface] in
  ret (status_of_output output).

Definition setup_qdiscs (interface bandwidth delay jitter loss : string) : M St unit :=
  subprocess_call ["tc"; "qdisc"; "del"; "dev"; interface; "root"] ;;
  run_command ["tc"; "qdisc"; "add"; "dev"; interface; "root"; "handle"; "1:";
               "htb"; "default"; "10"] ;;
  run_command ["tc"; "class"; "add"; "dev"; interface; "parent"; "1:";
               "classid"; "1:10"; "htb"; "rate"; bandwidth] ;;
  run_command ["tc"; "qdisc"; "add"; "dev"; interface; "parent"; "1:10";
               "handle"; "10:"; "netem"; "delay"; delay; jitter; "loss"; loss] ;;
  ret tt.

(** [DEFAULT_PARAMS[interface][key]] *)
Definition default_param (interface key : string) : res string :=
  res_bind (getitem DEFAULT_PARAMS interface) (fun profile => getitem profile key).

(** [arg or current[key]]: the dict is only read when [arg] is false. *)
Definition or_current (arg : option string) (current : gmap string string)
    (key : string) : res string :=
  match arg with
  | Some a => if truthy arg then Ok a else getitem current key
  | None => getitem current key
  end.

Definition set_netem (interface : string) (delay jitter loss : option string) : M St unit :=
  let* current := get_netem_params interface in
  let* delay := lift (or_current delay current "delay") in
  let* jitter := lift (or_current jitter current "jitter") in
  let* loss := lift (or_current loss current "loss") in
  let cmd := ["tc"; "qdisc"; "change"; "dev"; interface; "handle"; "10:"; "netem"]
             ++ ["delay"; delay; jitter; "loss"; loss] in
  let* changed := run_command cmd in
  if truthy changed then ret tt
  else
    let* current_rate := get_htb_rate interface in
    let* bandwidth :=
      (if String.eqb current_rate "no limit"
       then lift (default_param interface "bandwidth")
       else ret current_rate) in
    setup_qdiscs interface bandwidth delay jitter loss.

Definition set_htb_rate (interface rate : string) : M St unit :=
  let* changed := run_command ["tc"; "class"; "change"; "dev"; interface; "parent"; "1:";
                               "classid"; "1:10"; "htb"; "rate"; rate] in
  if truthy changed then ret tt
  else
    let* current_netem := get_netem_params interface in
    let* delay := lift (getitem current_netem "delay") in
    let* jitter := lift (getitem current_netem "jitter") in
    let* loss := lift (getitem current_netem "loss") in
    setup_qdiscs interface rate delay jitter loss.

Definition set_interface_status (interface state : string) : M St unit :=
  run_command ["ip"; "link"; "set"; interface; state] ;; ret tt.

Definition toggle_latency_wan1 : M St unit :=
  let* current := get_netem_params WAN1 in
  let* cur_delay := lift (getitem current "delay") in
  let new_delay := if String.eqb cur_delay "0ms" then "200ms" else "0ms" in
  let* jitter := lift (default_param WAN1 "jitter") in
  let* loss := lift (default_param WAN1 "loss") in
  set_netem WAN1 (Some new_delay) (Some jitter) (Some loss).

Definition toggle_packet_loss_wan2 : M St unit :=
  let* current := get_netem_params WAN2 in
  let* cur_loss := lift (getitem current "loss") in
  let new_loss := if String.eqb cur_loss "0%" then "5%" else "0%" in
  let* delay := lift (default_param WAN2 "delay") in
  let* jitter := lift (getitem current "jitter") in
  set_netem WAN2 (Some delay) (Some jitter) (Some new_loss).

Definition toggle_jitter_wan2 : M St unit :=
  let* current := get_netem_params WAN2 in
  let* cur_jitter := lift (getitem current "jitter") in
  let new_jitter := if String.eqb cur_jitter "1ms" then "10ms" else "1ms" in
  let* delay := lift (default_param WAN2 "delay") in
  let* loss := lift (getitem current "loss") in
  set_netem WAN2 (Some delay) (Some new_jitter) (Some loss).

Definition toggle_bandwidth_wan1 : M St unit :=
  let* current_rate := get_htb_rate WAN1 in
  let new_rate := if String.eqb current_rate "100mbit" then "10mbit" else "100mbit" in
  set_htb_rate WAN1 new_rate.

Definition toggle_interface_status_wan2 : M St unit :=
  let* current_status := get_interface_status WAN2 in
  let new_state := if String.eqb current_status "UP" then "down" else "up" in
  set_interface_status WAN2 new_state.

(** [for interface in [WAN1, WAN2]: body(interface)] *)
Fixpoint for_each (interfaces : list string) (body : string -> M St unit) : M St unit :=
  match interfaces with
  | [] => ret tt
  | interface :: rest => body interface ;; for_each rest body
  end.

Definition restore_defaults : M St unit :=
  for_each [WAN1; WAN2] (fun interface =>
    let* profile := lift (getitem DEFAULT_PARAMS interface) in
    let* bandwidth := lift (getitem profile "bandwidth") in
    let* delay := lift (getitem profile "delay") in
    let* jitter := lift (getitem profile "jitter") in
    let* loss := lift (getitem profile "loss") in
    setup_qdiscs interface bandwidth delay jitter loss ;;
    set_interface_status interface "up").

Definition clean_up : M St unit :=
  for_each [WAN1; WAN2] (fun interface =>
    subprocess_call ["tc"; "qdisc"; "del"; "dev"; interface; "root"] ;;
    set_interface_status interface "up").

End Controller.

(** ** What a log says the script asked for *)

(** The commands of the script, by name. *)
Abbreviation qdisc_show i := ["tc"; "qdisc"; "show"; "dev"; i] (only parsing).

Abbreviation class_show i := ["tc"; "class"; "show"; "dev"; i] (only parsing).

Abbreviation qdisc_del i := ["tc"; "qdisc"; "del"; "dev"; i; "root"] (only parsing).

Abbreviation root_add i :=
  ["tc"; "qdisc"; "add"; "dev"; i; "root"; "handle"; "1:"; "htb"; "default"; "10"]
  (only parsing).

Abbreviation class_add i b :=
  ["tc"; "class"; "add"; "dev"; i; "parent"; "1:"; "classid"; "1:10"; "htb"; "rate"; b]
  (only parsing).

Abbreviation class_change i b :=
  ["tc"; "class"; "change"; "dev"; i; "parent"; "1:"; "classid"; "1:10"; "htb"; "rate"; b]
  (only parsing).

Abbreviation netem_add i d j l :=
  ["tc"; "qdisc"; "add"; "dev"; i; "parent"; "1:10"; "handle"; "10:"; "netem";
   "delay"; d; j; "loss"; l] (only parsing).

Abbreviation netem_change i d j l :=
  ["tc"; "qdisc"; "change"; "dev"; i; "handle"; "10:"; "netem"; "delay"; d; j; "loss"; l]
  (only parsing).

(** The events a computation added to the log. *)
Definition new_events {St} (w w' : World St) : list event :=
  drop (length (log w)) (log w').

(** A set-link-state command: [ip link set <interface> <state>]. *)
Definition is_set_link (e : event) : bool :=
  match event_cmd e with
  | ["ip"; "link"; "set"; _; _] => true
  | _ => false
  end.

(** The emulation rule a command writes: [(interface, delay, jitter, loss)]
    for the in-place change and for the rule the rebuild attaches. *)
Definition netem_write (e : event) : option (string * string * string * string) :=
  match event_cmd e with
  | [a1; a2; a3; a4; i; a5; a6; a7; a8; d; j; a9; l] =>
      if decide ([a1; a2; a3; a4; a5; a6; a7; a8; a9]
                 = ["tc"; "qdisc"; "change"; "dev"; "handle"; "10:"; "netem"; "delay"; "loss"])
      then Some (i, d, j, l) else None
  | [a1; a2; a3; a4; i; a5; a6; a7; a8; a9; a10; d; j; a11; l] =>
      if decide ([a1; a2; a3; a4; a5; a6; a7; a8; a9; a10; a11]
                 = ["tc"; "qdisc"; "add"; "dev"; "parent"; "1:10"; "handle"; "10:";
                    "netem"; "delay"; "loss"])
      then Some (i, d, j, l) else None
  | _ => None
  end.

(** The rate a command writes: [(interface, rate)] for the in-place class
    change and for the class the rebuild creates. *)
Definition rate_write (e : event) : option (string * string) :=
  match event_cmd e with
  | [a1; a2; a3; a4; i; a5; a6; a7; a8; a9; a10; r] =>
      if bool_decide ([a1; a2; a4; a5; a6; a7; a8; a9; a10]
                      = ["tc"; "class"; "dev"; "parent"; "1:"; "classid"; "1:10"; "htb"; "rate"])
         && (bool_decide (a3 = "change") || bool_decide (a3 = "add"))
      then Some (i, r) else None
  | _ => None
  end.

(** The rate of the class a rebuild creates. *)
Definition rebuild_rate (e : event) : option (string * string) :=
  match event_cmd e with
  | [a1; a2; a3; a4; i; a5; a6; a7; a8; a9; a10; r] =>
      if decide ([a1; a2; a3; a4; a5; a6; a7; a8; a9; a10]
                 = ["tc"; "class"; "add"; "dev"; "parent"; "1:"; "classid"; "1:10"; "htb"; "rate"])
      then Some (i, r) else None
  | _ => None
  end.

(** A rebuild starts by deleting the hierarchy of the interface. *)
Definition is_rebuild_start (e : event) : bool :=
  match e with
  | Called [a1; a2; a3; a4; _; a5] _ =>
      bool_decide ([a1; a2; a3; a4; a5] = ["tc"; "qdisc"; "del"; "dev"; "root"])
  | _ => false
  end.

Definition netem_writes (evs : list event) := omap netem_write evs.

Definition rate_writes (evs : list event) := omap rate_write evs.

Definition rebuild_rates (evs : list event) := omap rebuild_rate evs.

Definition rebuild_starts (evs : list event) : list event :=
  filter (fun e => is_rebuild_start e = true) evs.


(** ** The parsing loops as scans of the words ahead, and the shape of words *)

(** A token is taken as jitter when it ends in [ms] and does not start
    with [loss]: the test of [get_netem_params]. *)
Definition jitter_shaped (j : string) : bool :=
  PyStr.endswith j "ms" && negb (PyStr.startswith j "loss").

(** [netem_loop] at index [i] only looks at [parts[i:]].  The same loop
    over that suffix, by structural recursion, for proofs. *)
Fixpoint netem_scan (rest : list string) (params : gmap string string)
  : res (gmap string string) :=
  match rest with
  | [] => Ok params
  | p :: tl =>
      if String.eqb p "delay" then
        match tl with
        | [] => Raise IndexError
        | d :: tl2 =>
            match tl2 with
            | j :: tl3 =>
                if jitter_shaped j
                then netem_scan tl3 (<["jitter" := j]> (<["delay" := d]> params))
                else netem_scan tl2 (<["delay" := d]> params)
            | [] => netem_scan tl2 (<["delay" := d]> params)
            end
        end
      else if String.eqb p "loss" then
        match tl with
        | [] => Raise IndexError
        | l :: tl2 => netem_scan tl2 (<["loss" := l]> params)
        end
      else netem_scan tl params
  end.

(** [rate_scan] over the indices from [k] on only looks at [parts[k:]]. *)
Fixpoint rate_scan_suffix (rest : list string) : option (res string) :=
  match rest with
  | [] => None
  | p :: tl =>
      if String.eqb p "rate"
      then Some (match tl with [] => Raise IndexError | r :: _ => Ok r end)
      else rate_scan_suffix tl
  end.

Definition not_netem_keyword (t : string) : Prop := t <> "delay" /\ t <> "loss".

(** A word of [str.split()]: not empty and free of white space. *)
Definition is_token (t : string) : bool :=
  negb (String.eqb t "") && forallb (fun c => negb (PyStr.is_space c)) (list_ascii_of_string t).

Definition no_space (s : string) : bool :=
  forallb (fun c => negb (PyStr.is_space c)) (list_ascii_of_string s).

Definition no_linebreak (s : string) : bool :=
  forallb (fun c => negb (PyStr.is_linebreak c)) (list_ascii_of_string s).

(** The dict holds no key besides the three parameters. *)
Definition netem_keys_only (p : gmap string string) : Prop :=
  forall k, k <> "delay" -> k <> "jitter" -> k <> "loss" -> p !! k = None.

(** A dict read from the backend: exactly the three parameters, each a
    single word, the jitter of the shape the parser accepts. *)
Definition params_wf (p : gmap string string) : Prop :=
  exists d j l, p = netem_dict d j l /\
    is_token d = true /\ is_token j = true /\ jitter_shaped j = true /\ is_token l = true.

(** The time units the shaper prints after a number. *)
Definition time_units : list string := ["ms"; "us"; "s"].

Definition duration_shaped (t : string) : bool :=
  existsb (PyStr.endswith t) time_units.

(** ** What a mutator does with the outcome of a rebuild *)



(** ** What the frame properties need from the shaping backend *)

Section ShapingLaws.

Context {St : Type} (backend : list string -> St -> option string * St).

(** The state a command leaves behind. *)
Definition exec (cmd : list string) (s : St) : St := snd (backend cmd s).

(** What the two readers of the script return in a given backend state. *)
Definition read_rate (s : St) (i : string) : res string :=
  fst (get_htb_rate backend i (mkWorld s [])).

Definition read_netem (s : St) (i : string) : res (gmap string string) :=
  fst (get_netem_params backend i (mkWorld s [])).

(** The state after the commands of [setup_qdiscs]. *)
Definition rebuilt (i b d j l : string) (s : St) : St :=
  exec (netem_add i d j l) (exec (class_add i b) (exec (root_add i) (exec (qdisc_del i) s))).

(** A shaping backend, as far as the script relies on it:
    - listing commands change nothing;
    - commands on the emulation rule leave the rate that is read alone,
      and the class change leaves the parameters that are read alone;
    - a rate, or a parameter triple, that the backend has printed is read
      back after a rebuild that was given it. *)
Record shaping_laws : Prop := {
  qdisc_show_pure : forall i s, exec (qdisc_show i) s = s;
  class_show_pure : forall i s, exec (class_show i) s = s;
  netem_change_keeps_rate :
    forall i d j l s, read_rate (exec (netem_change i d j l) s) i = read_rate s i;
  class_change_keeps_netem :
    forall i b s, read_netem (exec (class_change i b) s) i = read_netem s i;
  rebuild_sets_rate :
    forall i b d j l s0 s,
      read_rate s0 i = Ok b -> b <> "no limit" ->
      read_rate (rebuilt i b d j l s) i = Ok b;
  rebuild_sets_netem :
    forall i b d j l s0 s,
      read_netem s0 i = Ok (netem_dict d j l) ->
      read_netem (rebuilt i b d j l s) i = Ok (netem_dict d j l)
}.

End ShapingLaws.

(** ** Backends used as concrete inputs *)

(** A backend without state: its answer is a function of the command. *)
Definition scripted (table : list string -> option string)
  : list string -> unit -> option string * unit :=
  fun cmd s => (table cmd, s).

(** Every command exits with a non-zero status. *)
Definition failing : list string -> unit -> option string * unit :=
  scripted (fun _ => None).

(** The start of a run on a backend without state: nothing logged yet. *)
Definition w0 : World unit := mkWorld tt [].

(** A link listing that reports the state [UP]. *)
Definition link_show_up : list string -> option string :=
  fun cmd =>
    match cmd with
    | ["ip"; "link"; "show"; _] =>
        Some "3: ens20: <BROADCAST,MULTICAST,UP,LOWER_UP> mtu 1500 qdisc htb state UP mode DEFAULT"
    | _ => Some ""
    end.

(** A qdisc listing with an emulation rule of the given jitter; every
    other command prints nothing. *)
Definition netem_listing (jitter : string) : list string -> option string :=
  fun cmd =>
    match cmd with
    | ["tc"; "qdisc"; "show"; "dev"; _] =>
        Some ("qdisc netem 10: parent 1:10 limit 1000 delay 30ms " +:+ jitter +:+ " loss 2%")
    | _ => Some ""
    end.

(** A class listing that shows the given rate. *)
Definition class_listing (rate : string) : list string -> option string :=
  fun cmd =>
    match cmd with
    | ["tc"; "class"; "show"; "dev"; _] =>
        Some ("class htb 1:10 root leaf 10: prio 0 rate " +:+ rate +:+ " ceil " +:+ rate
              +:+ " burst 1600b cburst 1600b")
    | _ => Some ""
    end.


(** A listing cut short after a keyword. *)
Definition truncated_listing : list string -> option string :=
  fun cmd =>
    match cmd with
    | ["tc"; "qdisc"; "show"; "dev"; _] => Some "qdisc netem 10: parent 1:10 limit 1000 delay"
    | ["tc"; "class"; "show"; "dev"; _] => Some "class htb 1:10 root leaf 10: prio 0 rate"
    | _ => None
    end.

(** ** A reference shaping backend *)

(** The tools themselves are not part of the script.  This is a small
    executable model of what [tc] and [ip] keep per interface: a root
    rate-limiting node, its class [1:10] with a rate, the emulation rule
    under the class, and the administrative link state.  It prints its
    listings in the layout of the tools, with the values it was given.
    It serves as a concrete input and shows that [shaping_laws] can be
    met. *)
Module Ref.

Record dev : Type := mkDev {
  root : bool;
  cls : option string;
  netem : option (string * string * string);
  up : bool
}.

Definition state : Type := string -> dev.

Definition fresh : state := fun _ => mkDev false None None true.

Definition upd (i : string) (d : dev) (s : state) : state :=
  fun k => if String.eqb k i then d else s k.

Inductive command : Type :=
  | QdiscShow (i : string)
  | ClassShow (i : string)
  | QdiscDel (i : string)
  | RootAdd (i : string)
  | ClassAdd (i b : string)
  | ClassChange (i b : string)
  | NetemAdd (i d j l : string)
  | NetemChange (i d j l : string)
  | LinkShow (i : string)
  | LinkSet (i st : string)
  | Unknown.

Definition words_are (l1 l2 : list string) : bool := bool_decide (l1 = l2).

(** Reading a command line. *)
Definition parse (cmd : list string) : command :=
  match cmd with
  | [a1; a2; a3; i] =>
      if words_are [a1; a2; a3] ["ip"; "link"; "show"] then LinkShow i else Unknown
  | [a1; a2; a3; a4; i] =>
      if words_are [a1; a2; a3; a4] ["tc"; "qdisc"; "show"; "dev"] then QdiscShow i
      else if words_are [a1; a2; a3; a4] ["tc"; "class"; "show"; "dev"] then ClassShow i
      else if words_are [a1; a2; a3] ["ip"; "link"; "set"] then LinkSet a4 i
      else Unknown
  | [a1; a2; a3; a4; i; a5] =>
      if words_are [a1; a2; a3; a4; a5] ["tc"; "qdisc"; "del"; "dev"; "root"] then QdiscDel i
      else Unknown
  | [a1; a2; a3; a4; i; a5; a6; a7; a8; a9; a10] =>
      if words_are [a1; a2; a3; a4; a5; a6; a7; a8; a9; a10]
           ["tc"; "qdisc"; "add"; "dev"; "root"; "handle"; "1:"; "htb"; "default"; "10"]
      then RootAdd i else Unknown
  | [a1; a2; a3; a4; i; a5; a6; a7; a8; a9; a10; b] =>
      if words_are [a1; a2; a4; a5; a6; a7; a8; a9; a10]
           ["tc"; "class"; "dev"; "parent"; "1:"; "classid"; "1:10"; "htb"; "rate"]
      then (if String.eqb a3 "add" then ClassAdd i b
            else if String.eqb a3 "change" then ClassChange i b else Unknown)
      else Unknown
  | [a1; a2; a3; a4; i; a5; a6; a7; a8; d; j; a9; l] =>
      if words_are [a1; a2; a3; a4; a5; a6; a7; a8; a9]
           ["tc"; "qdisc"; "change"; "dev"; "handle"; "10:"; "netem"; "delay"; "loss"]
      then NetemChange i d j l else Unknown
  | [a1; a2; a3; a4; i; a5; a6; a7; a8; a9; a10; d; j; a11; l] =>
      if words_are [a1; a2; a3; a4; a5; a6; a7; a8; a9; a10; a11]
           ["tc"; "qdisc"; "add"; "dev"; "parent"; "1:10"; "handle"; "10:"; "netem";
            "delay"; "loss"]
      then NetemAdd i d j l else Unknown
  | _ => Unknown
  end.

Definition htb_words : list string :=
  ["qdisc"; "htb"; "1:"; "root"; "refcnt"; "2"; "r2q"; "10"; "default"; "0x10";
   "direct_packets_stat"; "0"; "direct_qlen"; "1000"].

Definition netem_words (d j l : string) : list string :=
  ["qdisc"; "netem"; "10:"; "parent"; "1:10"; "limit"; "1000"; "delay"; d; j; "loss"; l].

Definition class_words (b : string) : list string :=
  ["class"; "htb"; "1:10"; "root"; "leaf"; "10:"; "prio"; "0"; "rate"; b; "ceil"; b;
   "burst"; "1600b"; "cburst"; "1600b"].

Definition newline : string := String "010" "".

Definition qdisc_text (v : dev) : string :=
  if root v then
    match netem v with
    | Some (d, j, l) => PyStr.join htb_words +:+ newline +:+ PyStr.join (netem_words d j l)
    | None => PyStr.join htb_words
    end
  else "qdisc noqueue 0: root refcnt 2".

Definition class_text (v : dev) : string :=
  match cls v with
  | Some b => PyStr.join (class_words b)
  | None => ""
  end.

Definition link_text (i : string) (v : dev) : string :=
  "2: " +:+ i +:+ ": <BROADCAST,MULTICAST> mtu 1500 qdisc htb state "
  +:+ (if up v then "UP" else "DOWN") +:+ " mode DEFAULT group default qlen 1000".

Definition is_some {A} (o : option A) : bool :=
  match o with Some _ => true | None => false end.

(** One command: its outcome and the next state.  A refused command
    changes nothing. *)
Definition step (c : command) (s : state) : option string * state :=
  match c with
  | QdiscShow i => (Some (qdisc_text (s i)), s)
  | ClassShow i => (Some (class_text (s i)), s)
  | LinkShow i => (Some (link_text i (s i)), s)
  | QdiscDel i =>
      if root (s i) then (Some "", upd i (mkDev false None None (up (s i))) s)
      else (None, s)
  | RootAdd i =>
      if root (s i) then (None, s)
      else (Some "", upd i (mkDev true None None (up (s i))) s)
  | ClassAdd i b =>
      if root (s i) && negb (is_some (cls (s i)))
      then (Some "", upd i (mkDev true (Some b) (netem (s i)) (up (s i))) s)
      else (None, s)
  | ClassChange i b =>
      if is_some (cls (s i))
      then (Some "", upd i (mkDev (root (s i)) (Some b) (netem (s i)) (up (s i))) s)
      else (None, s)
  | NetemAdd i d j l =>
      if is_some (cls (s i)) && negb (is_some (netem (s i)))
      then (Some "", upd i (mkDev (root (s i)) (cls (s i)) (Some (d, j, l)) (up (s i))) s)
      else (None, s)
  | NetemChange i d j l =>
      if is_some (netem (s i))
      then (Some "", upd i (mkDev (root (s i)) (cls (s i)) (Some (d, j, l)) (up (s i))) s)
      else (None, s)
  | LinkSet i st =>
      if String.eqb st "up"
      then (Some "", upd i (mkDev (root (s i)) (cls (s i)) (netem (s i)) true) s)
      else if String.eqb st "down"
      then (Some "", upd i (mkDev (root (s i)) (cls (s i)) (netem (s i)) false) s)
      else (None, s)
  | Unknown => (None, s)
  end.

Definition backend (cmd : list string) (s : state) : option string * state :=
  step (parse cmd) s.

End Ref.

(** The secondary interface after a rebuild with its default profile. *)
Definition shaped_world : World Ref.state :=
  snd (setup_qdiscs Ref.backend WAN2 "50mbit" "30ms" "0ms" "0%" (mkWorld Ref.fresh [])).

(** ** Statements of the specification the script does not meet, as worded there *)

(** C1 as the specification words it: a jitter outside the two constants
    is handled like the low constant and goes to the high one. *)
Definition jitter_toggle_as_specified : Prop :=
  forall St (backend : list string -> St -> option string * St)
         (w w1 : World St) (cur : gmap string string) (j0 : string),
    get_netem_params backend WAN2 w = (Ok cur, w1) ->
    cur !! "jitter" = Some j0 ->
    let target := if String.eqb j0 "10ms" then "1ms" else "10ms" in
    let rw := toggle_jitter_wan2 backend w in
    Forall (fun x => x.1.2 = target) (netem_writes (new_events w (snd rw))).

(** C2 as the specification words it: a rate outside the two constants
    goes to the reduced rate. *)
Definition bandwidth_toggle_as_specified : Prop :=
  forall St (backend : list string -> St -> option string * St)
         (w w1 : World St) (rate : string),
    get_htb_rate backend WAN1 w = (Ok rate, w1) ->
    let target := if String.eqb rate "10mbit" then "100mbit" else "10mbit" in
    let rw := toggle_bandwidth_wan1 backend w in
    Forall (fun x => x.2 = target) (rate_writes (new_events w (snd rw))).

(** C6 as the specification words it: any token that ends in a time unit
    is taken as jitter. *)
Definition jitter_rule_as_specified : Prop :=
  forall (out : string) (before rest pre post : list string) (line d t : string)
         (p : gmap string string),
    PyStr.splitlines out = before ++ line :: rest ->
    Forall (fun l => PyStr.contains "netem" l = false) before ->
    PyStr.contains "netem" line = true ->
    PyStr.split line = pre ++ "delay" :: d :: t :: post ->
    Forall not_netem_keyword pre ->
    Forall (fun x => x <> "delay") (t :: post) ->
    netem_params_of_output (Some out) = Ok p ->
    p !! "jitter" = Some (if duration_shaped t && negb (PyStr.startswith t "loss")
                          then t else "0ms").


(** ** The status table and the menu loop *)

(** [' ' * n] *)
Fixpoint spaces (n : nat) : string :=
  match n with
  | 0 => ""
  | S n' => String " " (spaces n')
  end.

(** [s.ljust(width)]: padded on the right with spaces, never cut. *)
Definition ljust (s : string) (width : nat) : string :=
  s +:+ spaces (width - String.length s).

(** One printed line of the table: [" ".join(str(v).ljust(width) for v in row)]. *)
Definition table_line (width : nat) (row : list string) : string :=
  PyStr.join (map (fun v => ljust v width) row).

Section Presentation.

Context {St : Type}.

Variable backend : list string -> St -> option string * St.

(** [show_status]: the six reads in the order of the source, then the
    table.  The value is the list of the lines it prints. *)
Definition show_status : M St (list string) :=
  let* status_wan1 := get_interface_status backend WAN1 in
  let* status_wan2 := get_interface_status backend WAN2 in
  let* bandwidth_wan1 := get_htb_rate backend WAN1 in
  let* bandwidth_wan2 := get_htb_rate backend WAN2 in
  let* netem_wan1 := get_netem_params backend WAN1 in
  let* netem_wan2 := get_netem_params backend WAN2 in
  let width := 15 in
  let headers := ["Values"; "WAN1"; "WAN2"] in
  let* loss1 := lift (getitem netem_wan1 "loss") in
  let* loss2 := lift (getitem netem_wan2 "loss") in
  let* delay1 := lift (getitem netem_wan1 "delay") in
  let* delay2 := lift (getitem netem_wan2 "delay") in
  let* jitter1 := lift (getitem netem_wan1 "jitter") in
  let* jitter2 := lift (getitem netem_wan2 "jitter") in
  let rows := [["Status"; status_wan1; status_wan2];
               ["Bandwidth"; bandwidth_wan1; bandwidth_wan2];
               ["Packet loss"; loss1; loss2];
               ["Latency"; delay1; delay2];
               ["Jitter"; jitter1; jitter2]] in
  ret (table_line width headers :: map (table_line width) rows).

(** The [actions] dict of [main]: the function behind a menu choice. *)
Definition actions (choice : string) : option (M St unit) :=
  if String.eqb choice "1" then Some (toggle_latency_wan1 backend)
  else if String.eqb choice "2" then Some (toggle_packet_loss_wan2 backend)
  else if String.eqb choice "3" then Some (toggle_jitter_wan2 backend)
  else if String.eqb choice "4" then Some (toggle_bandwidth_wan1 backend)
  else if String.eqb choice "5" then Some (toggle_interface_status_wan2 backend)
  else if String.eqb choice "6" then Some (restore_defaults backend)
  else if String.eqb choice "7" then Some (clean_up backend)
  else if String.eqb choice "8" then Some (show_status ;; ret tt)
  else None.

End Presentation.

(** How a run of [main] ends: the privilege check fails ([sys.exit(1)]),
    the operator chooses [0], an exception leaves the loop uncaught, or
    the input ends ([input] raises [EOFError]). *)
Inductive session_end : Type :=
  | NotRoot
  | Exited
  | Crashed (e : exn)
  | InputExhausted.

Section MenuLoop.

Context {St : Type}.

Variable backend : list string -> St -> option string * St.

(** The [while True] loop of [main] over the lines the operator types.
    What [main] prints is left out; the commands it has the backend run
    are in the log. *)
Fixpoint main_loop (inputs : list string) (w : World St) : session_end * World St :=
  match inputs with
  | [] => (InputExhausted, w)
  | line :: rest =>
      let choice := PyStr.strip line in
      if String.eqb choice "0" then (Exited, w)
      else
        match actions backend choice with
        | Some action =>
            match action w with
            | (Raise e, w1) => (Crashed e, w1)
            | (Ok _, w1) =>
                if negb (String.eqb choice "8") then
                  match show_status backend w1 with
                  | (Raise e, w2) => (Crashed e, w2)
                  | (Ok _, w2) => main_loop rest w2
                  end
                else main_loop rest w1
            end
        | None => main_loop rest w
        end
  end.

(** [main]: the check [os.geteuid() != 0], then the loop. *)
Definition main (euid : nat) (inputs : list string) (w : World St) : session_end * World St :=
  if negb (euid =? 0) then (NotRoot, w) else main_loop inputs w.

End MenuLoop.

(** The interface a command addresses: the word after [dev] in a [tc]
    command, the word after [show] or [set] in an [ip link] command. *)
Definition event_interface (e : event) : option string :=
  match event_cmd e with
  | a1 :: a2 :: a3 :: a4 :: rest =>
      if String.eqb a1 "tc" then
        (if String.eqb a4 "dev" then head rest else None)
      else if String.eqb a1 "ip" then Some a4
      else None
  | _ => None
  end.

(** A query: a [show] command of [tc] or [ip]. *)
Definition is_query (e : event) : bool :=
  match e with
  | Ran (_ :: _ :: a3 :: _) _ => String.eqb a3 "show"
  | _ => false
  end.

(** Two qdisc listings with the same emulation line; the second goes on
    with a line cut short after [delay]. *)
Definition text_one_rule : string :=
  "qdisc htb 1: root refcnt 2" +:+ String "010"
    "qdisc netem 10: parent 1:10 limit 1000 delay 30ms loss 2%".

Definition text_two_rules : string :=
  "qdisc htb 1: root refcnt 2" +:+ String "010"
    ("qdisc netem 10: parent 1:10 limit 1000 delay 30ms loss 2%" +:+ String "010"
     "qdisc netem 20: parent 1:20 limit 1000 delay").

Definition listing_one_rule : list string -> option string :=
  fun cmd =>
    match cmd with
    | ["tc"; "qdisc"; "show"; "dev"; _] => Some text_one_rule
    | _ => None
    end.

Definition listing_two_rules : list string -> option string :=
  fun cmd =>
    match cmd with
    | ["tc"; "qdisc"; "show"; "dev"; _] => Some text_two_rules
    | _ => None
    end.

(** A class listing without the class [1:10]: a class [1:10] line that
    shows no rate, then the class [1:100]. *)
Definition text_other_class : string :=
  "class htb 1:10 root prio 0" +:+ String "010"
    "class htb 1:100 root prio 0 rate 1Gbit ceil 1Gbit burst 1375b cburst 1375b".

Definition listing_other_class : list string -> option string :=
  fun cmd =>
    match cmd with
    | ["tc"; "class"; "show"; "dev"; _] => Some text_other_class
    | _ => None
    end.

(** A text that begins and ends with a character that is not white
    space: stripping a text around it cannot cut into it. *)
Definition starts_solid (n : string) : bool :=
  match n with
  | "" => false
  | String c _ => negb (PyStr.is_space c)
  end.

Fixpoint ends_solid (n : string) : bool :=
  match n with
  | "" => false
  | String c "" => negb (PyStr.is_space c)
  | String _ n' => ends_solid n'
  end.

(** The value [arg or current] of [set_netem], once [current] is known. *)
Definition or_value (arg : option string) (current : string) : string :=
  match arg with
  | Some a => if truthy arg then a else current
  | None => current
  end.

(** The class change exits with status 0 and prints nothing, as the tool
    does on success; nothing else is listed. *)
Definition silent_success : list string -> option string :=
  fun cmd =>
    match cmd with
    | "tc" :: "class" :: "change" :: _ => Some ""
    | _ => None
    end.

(** Every command a computation issues satisfies [P]. *)
Definition emits {St A} (P : event -> Prop) (m : M St A) : Prop :=
  forall w r w', m w = (r, w') ->
    exists evs, log w' = log w ++ evs /\ Forall P evs.

(** A computation that returns a value in [Q], or raises [IndexError]
    with a query as the last command it issued; nothing else. *)
Definition returns {St A} (Q : A -> Prop) (m : M St A) : Prop :=
  forall w r w', m w = (r, w') ->
    exists evs, log w' = log w ++ evs /\
      match r with
      | Ok a => Q a
      | Raise e => e = IndexError /\ exists x, last evs = Some x /\ is_query x = true
      end.

(** The command addresses the interface [i]. *)
Definition on_interface (i : string) (e : event) : Prop := event_interface e = Some i.

(** The command addresses one of the two managed interfaces. *)
Definition on_managed (e : event) : Prop := on_interface WAN1 e \/ on_interface WAN2 e.

(** The commands of [show_status], in the order it issues them. *)
Definition status_queries : list (list string) :=
  [["ip"; "link"; "show"; WAN1]; ["ip"; "link"; "show"; WAN2];
   ["tc"; "class"; "show"; "dev"; WAN1]; ["tc"; "class"; "show"; "dev"; WAN2];
   ["tc"; "qdisc"; "show"; "dev"; WAN1]; ["tc"; "qdisc"; "show"; "dev"; WAN2]].

(** The commands of a rebuild of [interface]. *)
Definition rebuild_commands (interface bandwidth delay jitter loss : string)
    : list (list string) :=
  [["tc"; "qdisc"; "del"; "dev"; interface; "root"];
   ["tc"; "qdisc"; "add"; "dev"; interface; "root"; "handle"; "1:"; "htb"; "default"; "10"];
   ["tc"; "class"; "add"; "dev"; interface; "parent"; "1:"; "classid"; "1:10"; "htb";
    "rate"; bandwidth];
   ["tc"; "qdisc"; "add"; "dev"; interface; "parent"; "1:10"; "handle"; "10:"; "netem";
    "delay"; delay; jitter; "loss"; loss]].

(** ** The shape of a run of a mutating operation *)

(** An in-place change: a [tc ... change] command run through
    [run_command]. *)
Definition is_change (e : event) : bool :=
  match e with
  | Ran (a1 :: _ :: a3 :: _) _ => String.eqb a1 "tc" && String.eqb a3 "change"
  | _ => false
  end.

(** The command reported nothing: [if not run_command(cmd)] holds, the
    command failed or printed nothing but white space. *)
Definition silent (e : event) : bool := negb (truthy (PyStr.strip <$> event_out e)).

(** The four commands of one rebuild of [interface], each with some
    outcome. *)
Definition is_rebuild (interface : string) (evs : list event) : Prop :=
  exists b d j l o1 o2 o3 o4,
    evs = [Called ["tc"; "qdisc"; "del"; "dev"; interface; "root"] o1;
           Ran ["tc"; "qdisc"; "add"; "dev"; interface; "root"; "handle"; "1:"; "htb";
                "default"; "10"] o2;
           Ran ["tc"; "class"; "add"; "dev"; interface; "parent"; "1:"; "classid"; "1:10";
                "htb"; "rate"; b] o3;
           Ran ["tc"; "qdisc"; "add"; "dev"; interface; "parent"; "1:10"; "handle"; "10:";
                "netem"; "delay"; d; j; "loss"; l] o4].

(** What a mutating operation issues, and how it ends.  After some
    queries it issues the in-place change, once.  If the change reports
    something the operation returns.  If it reports nothing, the operation
    queries again and runs one rebuild, then returns whatever the rebuild's
    commands answered.  The only other way out is an exception, right
    after a query: before the change, or between the change and the
    rebuild. *)
Definition fallback_trace (interface : string) (r : res unit) (evs : list event) : Prop :=
  exists reads1, Forall (fun e => is_query e = true) reads1 /\
    (((exists e, r = Raise e) /\ reads1 <> [] /\ evs = reads1) \/
     exists c, is_change c = true /\
       ((silent c = false /\ r = Ok tt /\ evs = reads1 ++ [c]) \/
        (silent c = true /\
         exists reads2, Forall (fun e => is_query e = true) reads2 /\
           (((exists e, r = Raise e) /\ reads2 <> [] /\ evs = reads1 ++ c :: reads2) \/
            (r = Ok tt /\
             exists rb, is_rebuild interface rb /\ evs = reads1 ++ c :: reads2 ++ rb))))).




(** * Part II: lemmas and theorems *)

(** ** The primitives on sample inputs *)

Example split_ex :
  PyStr.split "  qdisc netem 10:  delay 30ms " = ["qdisc"; "netem"; "10:"; "delay"; "30ms"].
Proof. reflexivity. Qed.

Example splitlines_ex :
  PyStr.splitlines ("a" +:+ String "013" (String "010" (String "010" ("b" +:+ String "010" ""))))
  = ["a"; ""; "b"].
Proof. reflexivity. Qed.

Example strip_ex : PyStr.strip (String "010" " ab c  ") = "ab c".
Proof. reflexivity. Qed.

Example endswith_ex : PyStr.endswith "10ms" "ms" = true /\ PyStr.endswith "1s" "ms" = false.
Proof. split; reflexivity. Qed.

(** ** The parsing loop on sample inputs *)

Example netem_loop_ex :
  netem_loop ["qdisc"; "netem"; "10:"; "delay"; "30ms"; "5ms"; "loss"; "2%"] 0 ∅
  = Ok (netem_dict "30ms" "5ms" "2%").
Proof. vm_compute. reflexivity. Qed.

Example netem_loop_dangling :
  netem_loop ["qdisc"; "netem"; "10:"; "delay"] 0 ∅ = Raise IndexError.
Proof. vm_compute. reflexivity. Qed.

(** ** Link status toggle *)

(** C7.  The link toggle of the secondary interface reads the status once
    and then issues exactly one set-link-state command: [down] when the
    status read is [UP], [up] for every other status ([DOWN], [UNKNOWN]). *)
Theorem toggle_interface_status_wan2_spec :
  forall St (backend : list string -> St -> option string * St)
         (w w1 : World St) (status : string),
    get_interface_status backend WAN2 w = (Ok status, w1) ->
    exists out w',
      toggle_interface_status_wan2 backend w = (Ok tt, w') /\
      new_events w1 w' =
        [Ran ["ip"; "link"; "set"; WAN2; if String.eqb status "UP" then "down" else "up"] out] /\
      filter (fun e => is_set_link e = true) (new_events w w') = new_events w1 w'.
Proof.
  intros St backend [s l] w1 status Hget.
  unfold toggle_interface_status_wan2, set_interface_status, bind.
  rewrite Hget.
  unfold get_interface_status, bind, run_command, ret in Hget. simpl in Hget.
  destruct (backend ["ip"; "link"; "show"; WAN2] s) as [o s1] eqn:Hb.
  injection Hget as Hst Hw1. subst w1. simpl.
  unfold run_command, ret. simpl.
  destruct (backend ["ip"; "link"; "set"; WAN2; _] s1) as [o2 s2] eqn:Hb2.
  exists o2. eexists. split; [reflexivity|].
  unfold new_events. simpl.
  rewrite <- app_assoc. rewrite !drop_app_length.
  rewrite (app_assoc l [_] [_]). rewrite drop_app_length.
  split; reflexivity.
Qed.

Lemma toggle_interface_status_wan2_witness :
  exists out w',
    toggle_interface_status_wan2 (scripted link_show_up) w0 = (Ok tt, w') /\
    new_events (snd (get_interface_status (scripted link_show_up) WAN2 w0)) w' =
      [Ran ["ip"; "link"; "set"; WAN2; if String.eqb "UP" "UP" then "down" else "up"] out] /\
    filter (fun e => is_set_link e = true) (new_events w0 w')
      = new_events (snd (get_interface_status (scripted link_show_up) WAN2 w0)) w'.
Proof.
  apply (toggle_interface_status_wan2_spec unit (scripted link_show_up) w0).
  vm_compute. reflexivity.
Defined.

(** ** The parsing loop, read as a scan of the words still ahead *)

Lemma drop_cons_lookup (parts : list string) (i : nat) (x : string) :
  parts !! i = Some x -> drop i parts = x :: drop (S i) parts.
Proof.
  revert i. induction parts as [|y parts IH]; intros [|i] H; simpl in *; try discriminate.
  - injection H as ->. rewrite drop_0. reflexivity.
  - apply IH. exact H.
Qed.

Lemma netem_loop_scan (parts : list string) (i : nat) (params : gmap string string) :
  netem_loop parts i params = netem_scan (drop i parts) params.
Proof.
  funelim (netem_loop parts i params).
  - destruct (lookup_lt_is_Some_2 parts i l) as [p Hp].
    rewrite (drop_cons_lookup _ _ _ Hp).
    unfold subscript. rewrite Hp. simpl.
    destruct (String.eqb p "delay") eqn:Hd.
    + destruct (parts !! (i + 1)) as [d|] eqn:Hd1.
      * replace (i + 1) with (S i) in Hd1 by lia.
        rewrite (drop_cons_lookup _ _ _ Hd1).
        destruct (decide (i + 2 < length parts)) as [Hlt|Hge].
        -- destruct (lookup_lt_is_Some_2 parts (i + 2) Hlt) as [j Hj].
           rewrite Hj.
           replace (i + 2) with (S (S i)) in Hj by lia.
           rewrite (drop_cons_lookup _ _ _ Hj).
           fold (jitter_shaped j).
           destruct (jitter_shaped j).
           ++ rewrite (H p d Hlt j). f_equal.
              replace (i + 3) with (S (S (S i))) by lia. reflexivity.
           ++ rewrite (H0 p d Hlt j). f_equal.
              replace (i + 2) with (S (S i)) by lia.
              apply drop_cons_lookup. exact Hj.
        -- rewrite (H1 p d Hge).
           replace (i + 2) with (S (S i)) by lia.
           rewrite (drop_ge parts (S (S i))) by lia. reflexivity.
      * apply lookup_ge_None in Hd1.
        rewrite (drop_ge parts (S i)) by lia. reflexivity.
    + destruct (String.eqb p "loss") eqn:Hl.
      * destruct (parts !! (i + 1)) as [v|] eqn:Hl1.
        -- replace (i + 1) with (S i) in Hl1 by lia.
           rewrite (drop_cons_lookup _ _ _ Hl1).
           rewrite (H2 p v). f_equal. replace (i + 2) with (S (S i)) by lia. reflexivity.
        -- apply lookup_ge_None in Hl1.
           rewrite (drop_ge parts (S i)) by lia. reflexivity.
      * rewrite (H3 p). f_equal. replace (i + 1) with (S i) by lia. reflexivity.
  - rewrite drop_ge by lia. reflexivity.
Qed.

Lemma netem_loop_from_start (parts : list string) :
  netem_loop parts 0 ∅ = netem_scan parts ∅.
Proof. rewrite netem_loop_scan, drop_0. reflexivity. Qed.

(** ** Shape of what the parser returns *)

Lemma netem_scan_invariant (I : gmap string string -> Prop) (T : string -> Prop) :
  (forall p d, T d -> I p -> I (<["delay" := d]> p)) ->
  (forall p j, T j -> jitter_shaped j = true -> I p -> I (<["jitter" := j]> p)) ->
  (forall p l, T l -> I p -> I (<["loss" := l]> p)) ->
  forall rest params r,
    Forall T rest -> I params -> netem_scan rest params = Ok r -> I r.
Proof.
  intros Hd Hj Hl rest.
  assert (Hgen : forall n rest, length rest <= n -> forall params r,
             Forall T rest -> I params -> netem_scan rest params = Ok r -> I r).
  { clear rest. induction n as [|n IH]; intros rest Hlen params r HT HI Hscan.
    - destruct rest; simpl in *; [|lia]. congruence.
    - destruct rest as [|p tl]; simpl in Hscan; [congruence|].
      simpl in Hlen. apply Forall_cons in HT as [_ HTtl].
      destruct (String.eqb p "delay").
      + destruct tl as [|d tl2]; [discriminate|].
        apply Forall_cons in HTtl as [HTd HT2]. simpl in Hlen.
        destruct tl2 as [|j tl3].
        * simpl in Hscan. injection Hscan as <-. auto.
        * pose proof HT2 as HT2'. apply Forall_cons in HT2' as [HTj HT3]. simpl in Hlen.
          destruct (jitter_shaped j) eqn:Hsh.
          -- apply (IH tl3 ltac:(lia) _ _ HT3 (Hj _ _ HTj Hsh (Hd _ _ HTd HI)) Hscan).
          -- apply (IH (j :: tl3) ltac:(simpl; lia) _ _ HT2 (Hd _ _ HTd HI) Hscan).
      + destruct (String.eqb p "loss").
        * destruct tl as [|l tl2]; [discriminate|].
          apply Forall_cons in HTtl as [HTl HT2]. simpl in Hlen.
          apply (IH tl2 ltac:(lia) _ _ HT2 (Hl _ _ HTl HI) Hscan).
        * apply (IH tl ltac:(lia) _ _ HTtl HI Hscan). }
  intros params r. apply (Hgen (length rest)). lia.
Qed.

Lemma lookup_setdefault (k v k' : string) (d : gmap string string) :
  setdefault k v d !! k' = if decide (k = k') then Some (default v (d !! k)) else d !! k'.
Proof.
  unfold setdefault. destruct (d !! k) as [x|] eqn:E; simpl.
  - destruct (decide (k = k')) as [<- | ]; [exact E | reflexivity].
  - rewrite lookup_insert. reflexivity.
Qed.

Lemma fill_defaults_dict (p : gmap string string) :
  netem_keys_only p ->
  fill_defaults p = netem_dict (default "0ms" (p !! "delay"))
                               (default "0ms" (p !! "jitter"))
                               (default "0%" (p !! "loss")).
Proof.
  intros Hk. apply map_eq. intros k.
  unfold fill_defaults, netem_dict.
  rewrite !lookup_setdefault, !lookup_insert, lookup_empty.
  rewrite (decide_False (P := "jitter" = "loss")) by discriminate.
  rewrite (decide_False (P := "delay" = "loss")) by discriminate.
  rewrite (decide_False (P := "delay" = "jitter")) by discriminate.
  destruct (decide ("delay" = k)) as [<- | Hd].
  - rewrite (decide_False (P := "loss" = "delay")) by discriminate.
    rewrite (decide_False (P := "jitter" = "delay")) by discriminate.
    destruct (p !! "delay"); reflexivity.
  - destruct (decide ("jitter" = k)) as [<- | Hj].
    + rewrite (decide_False (P := "loss" = "jitter")) by discriminate.
      destruct (p !! "jitter"); reflexivity.
    + destruct (decide ("loss" = k)) as [<- | Hl].
      * destruct (p !! "loss"); reflexivity.
      * apply Hk; congruence.
Qed.

Lemma netem_keys_only_insert (k v : string) (p : gmap string string) :
  k = "delay" \/ k = "jitter" \/ k = "loss" ->
  netem_keys_only p -> netem_keys_only (<[k := v]> p).
Proof.
  intros Hk Hp k' H1 H2 H3. rewrite lookup_insert_ne; [auto|].
  intros ->. destruct Hk as [-> | [-> | ->]]; congruence.
Qed.

Lemma list_ascii_of_string_app (s1 s2 : string) :
  list_ascii_of_string (s1 +:+ s2) = list_ascii_of_string s1 ++ list_ascii_of_string s2.
Proof. induction s1 as [|c s1 IH]; simpl; [reflexivity | rewrite IH; reflexivity]. Qed.

Lemma no_space_snoc (cur : string) (c : ascii) :
  no_space cur = true -> PyStr.is_space c = false -> no_space (PyStr.snoc cur c) = true.
Proof.
  unfold no_space, PyStr.snoc. intros Hc Hs.
  rewrite list_ascii_of_string_app, forallb_app, Hc. simpl. rewrite Hs. reflexivity.
Qed.

Lemma split_go_tokens (s cur : string) :
  no_space cur = true -> Forall (fun t => is_token t = true) (PyStr.split_go cur s).
Proof.
  revert cur. induction s as [|c s IH]; intros cur Hcur; simpl.
  - destruct (String.eqb cur "") eqn:E; [constructor|].
    constructor; [|constructor]. unfold is_token. rewrite E. exact Hcur.
  - destruct (PyStr.is_space c) eqn:Hs.
    + destruct (String.eqb cur "") eqn:E; [apply IH; reflexivity|].
      constructor; [|apply IH; reflexivity]. unfold is_token. rewrite E. exact Hcur.
    + apply IH. apply no_space_snoc; assumption.
Qed.

(** Every word [str.split()] returns is a token. *)
Lemma split_tokens (s : string) : Forall (fun t => is_token t = true) (PyStr.split s).
Proof. apply split_go_tokens. reflexivity. Qed.

Lemma params_wf_zero : params_wf (netem_dict "0ms" "0ms" "0%").
Proof. exists "0ms", "0ms", "0%". repeat split. Qed.

Lemma netem_scan_wf (parts : list string) (r : gmap string string) :
  Forall (fun t => is_token t = true) parts ->
  netem_scan parts ∅ = Ok r -> params_wf (fill_defaults r).
Proof.
  intros Htok Hscan.
  set (I := fun p : gmap string string =>
         netem_keys_only p /\
         (forall d, p !! "delay" = Some d -> is_token d = true) /\
         (forall j, p !! "jitter" = Some j -> is_token j = true /\ jitter_shaped j = true) /\
         (forall l, p !! "loss" = Some l -> is_token l = true)).
  assert (HI : I r).
  { apply (netem_scan_invariant I (fun t => is_token t = true)) with (rest := parts) (params := ∅);
      try assumption.
    - intros p d Hd (Hk & H1 & H2 & H3). split; [|split; [|split]].
      + apply netem_keys_only_insert; auto.
      + intros d'. rewrite lookup_insert_eq. congruence.
      + intros j. rewrite lookup_insert_ne by discriminate. apply H2.
      + intros l. rewrite lookup_insert_ne by discriminate. apply H3.
    - intros p j Hj Hsh (Hk & H1 & H2 & H3). split; [|split; [|split]].
      + apply netem_keys_only_insert; auto.
      + intros d. rewrite lookup_insert_ne by discriminate. apply H1.
      + intros j'. rewrite lookup_insert_eq. intros [= <-]. auto.
      + intros l. rewrite lookup_insert_ne by discriminate. apply H3.
    - intros p l Hl (Hk & H1 & H2 & H3). split; [|split; [|split]].
      + apply netem_keys_only_insert; auto.
      + intros d. rewrite lookup_insert_ne by discriminate. apply H1.
      + intros j. rewrite lookup_insert_ne by discriminate. apply H2.
      + intros l'. rewrite lookup_insert_eq. congruence.
    - split; [|split; [|split]].
      + intros k _ _ _. apply lookup_empty.
      + intros d. rewrite lookup_empty. discriminate.
      + intros j. rewrite lookup_empty. discriminate.
      + intros l. rewrite lookup_empty. discriminate. }
  destruct HI as (Hk & H1 & H2 & H3).
  rewrite (fill_defaults_dict _ Hk).
  eexists _, _, _. split; [reflexivity|].
  repeat split.
  - destruct (r !! "delay") as [d|]; simpl; auto.
  - destruct (r !! "jitter") as [j|] eqn:E; simpl; [apply (H2 j); reflexivity | reflexivity].
  - destruct (r !! "jitter") as [j|] eqn:E; simpl; [apply (H2 j); reflexivity | reflexivity].
  - destruct (r !! "loss") as [l|]; simpl; auto.
Qed.

Lemma netem_params_of_lines_wf (lines : list string) (p : gmap string string) :
  netem_params_of_lines lines = Ok p -> params_wf p.
Proof.
  induction lines as [|line rest IH]; simpl.
  - intros [= <-]. apply params_wf_zero.
  - destruct (PyStr.contains "netem" line); [|exact IH].
    rewrite netem_loop_from_start.
    destruct (netem_scan (PyStr.split line) ∅) as [r|e] eqn:E; [|discriminate].
    intros [= <-]. apply (netem_scan_wf (PyStr.split line)); [apply split_tokens | exact E].
Qed.

(** Whenever the reader returns, it returns the full triple. *)
Lemma netem_params_of_output_wf (o : option string) (p : gmap string string) :
  netem_params_of_output o = Ok p -> params_wf p.
Proof.
  unfold netem_params_of_output. destruct o as [out|].
  - destruct (truthy (Some out)).
    + apply netem_params_of_lines_wf.
    + intros [= <-]. apply params_wf_zero.
  - intros [= <-]. apply params_wf_zero.
Qed.

(** ** Inversion of the monadic steps *)

Section Inversion.

Context {St : Type} (backend : list string -> St -> option string * St).

Lemma bind_inv {A B} (m : M St A) (k : A -> M St B) w r w' :
  bind m k w = (r, w') ->
  (exists a w1, m w = (Ok a, w1) /\ k a w1 = (r, w')) \/
  (exists e, m w = (Raise e, w') /\ r = Raise e).
Proof.
  unfold bind. destruct (m w) as [[a|e] w1]; intros H.
  - left. eauto.
  - right. injection H as <- <-. eauto.
Qed.

Lemma run_command_inv cmd w r w' :
  run_command backend cmd w = (r, w') ->
  exists o, backend cmd (sys w) = (o, sys w') /\ r = Ok (PyStr.strip <$> o) /\
            log w' = log w ++ [Ran cmd o].
Proof.
  unfold run_command. destruct (backend cmd (sys w)) as [o s'].
  intros [= <- <-]. exists o. auto.
Qed.

Lemma subprocess_call_inv cmd w r w' :
  subprocess_call backend cmd w = (r, w') ->
  exists o, backend cmd (sys w) = (o, sys w') /\ r = Ok tt /\
            log w' = log w ++ [Called cmd o].
Proof.
  unfold subprocess_call. destruct (backend cmd (sys w)) as [o s'].
  intros [= <- <-]. exists o. auto.
Qed.

Lemma ret_inv {A} (a : A) (w : World St) r w' : ret a w = (r, w') -> r = Ok a /\ w' = w.
Proof. intros [= <- <-]. auto. Qed.

Lemma lift_inv {A} (x : res A) (w : World St) r w' : lift x w = (r, w') -> x = r /\ w' = w.
Proof. intros [= <- <-]. auto. Qed.

End Inversion.

Ltac minv1 :=
  match goal with
  | H : bind _ _ _ = (_, _) |- _ =>
      apply bind_inv in H; destruct H as [(? & ? & ? & H) | (? & H & ?)]
  | H : run_command _ _ _ = (_, _) |- _ =>
      apply run_command_inv in H; destruct H as (? & ? & ? & ?)
  | H : subprocess_call _ _ _ = (_, _) |- _ =>
      apply subprocess_call_inv in H; destruct H as (? & ? & ? & ?)
  | H : ret _ _ = (_, _) |- _ => apply ret_inv in H; destruct H as [? ?]; subst
  | H : lift _ _ = (_, _) |- _ => apply lift_inv in H; destruct H as [? ?]; subst
  | H : (if ?b then _ else _) _ = (_, _) |- _ => destruct b eqn:?
  | H : Ok ?a = Ok ?b |- _ => injection H as H; first [subst b | subst a | idtac]
  | H : Ok _ = Raise _ |- _ => discriminate H
  | H : Raise _ = Ok _ |- _ => discriminate H
  | H : getitem (netem_dict _ _ _) _ = _ |- _ => vm_compute in H
  | H : default_param _ _ = _ |- _ => vm_compute in H
  end.

Ltac minv := repeat minv1.

Lemma new_events_ext {St} (w w' : World St) (evs : list event) :
  log w' = log w ++ evs -> new_events w w' = evs.
Proof. unfold new_events. intros ->. apply drop_app_length. Qed.

(** Rewrites [new_events w w'] to the explicit list the hypotheses on the
    logs give. *)
Ltac events :=
  match goal with
  | |- context [new_events ?w ?w'] =>
      let H := fresh in
      eassert (H : new_events w w' = _)
        by (apply new_events_ext;
            repeat (match goal with
                    | Hl : log ?x = _ |- context [log ?x] => rewrite Hl
                    end);
            rewrite <- ?app_assoc; reflexivity);
      rewrite !H; clear H
  end.

Lemma is_token_nonempty (t : string) : is_token t = true -> truthy (Some t) = true.
Proof. unfold is_token, truthy. destruct (String.eqb t ""); simpl; congruence. Qed.

Lemma get_netem_params_inv {St} (backend : list string -> St -> option string * St) i w r w1 :
  get_netem_params backend i w = (r, w1) ->
  exists o, backend ["tc"; "qdisc"; "show"; "dev"; i] (sys w) = (o, sys w1) /\
            log w1 = log w ++ [Ran ["tc"; "qdisc"; "show"; "dev"; i] o] /\
            netem_params_of_output (PyStr.strip <$> o) = r.
Proof. unfold get_netem_params. intros H. minv; eauto. Qed.

Lemma get_htb_rate_inv {St} (backend : list string -> St -> option string * St) i w r w1 :
  get_htb_rate backend i w = (r, w1) ->
  exists o, backend ["tc"; "class"; "show"; "dev"; i] (sys w) = (o, sys w1) /\
            log w1 = log w ++ [Ran ["tc"; "class"; "show"; "dev"; i] o] /\
            htb_rate_of_output (PyStr.strip <$> o) = r.
Proof. unfold get_htb_rate. intros H. minv; eauto. Qed.

(** ** Jitter toggle *)

(** C1 (as amended).  When the jitter read is [1ms] the toggle writes
    [10ms]; for every other jitter read, [10ms] included, it writes [1ms].
    Every emulation rule the toggle writes (the in-place change and, on
    the fallback, the rule of the rebuild) has delay [30ms], that jitter
    and the loss read; a toggle that returns has written at least one. *)
Theorem toggle_jitter_wan2_spec :
  forall St (backend : list string -> St -> option string * St)
         (w w1 : World St) (cur : gmap string string),
    get_netem_params backend WAN2 w = (Ok cur, w1) ->
    exists j0 l0,
      cur !! "jitter" = Some j0 /\ cur !! "loss" = Some l0 /\
      let target := if String.eqb j0 "1ms" then "10ms" else "1ms" in
      let rw := toggle_jitter_wan2 backend w in
      Forall (fun x => x = (WAN2, "30ms", target, l0)) (netem_writes (new_events w (snd rw))) /\
      (fst rw = Ok tt -> netem_writes (new_events w (snd rw)) <> []).
Proof.
  intros St backend w w1 cur Hget.
  destruct (toggle_jitter_wan2 backend w) as [r w'] eqn:Hrun.
  unfold toggle_jitter_wan2 in Hrun.
  apply bind_inv in Hrun. rewrite Hget in Hrun.
  destruct Hrun as [(a & w1' & [= <- <-] & Hrun) | (? & [=] & _)].
  destruct (get_netem_params_inv _ _ _ _ _ Hget) as (o & Hb & Hlog & Hparse).
  destruct (netem_params_of_output_wf _ _ Hparse) as (d & j & lo & -> & Hd & Hj & Hsh & Hl).
  clear Hget.
  exists j, lo. split; [reflexivity|]. split; [reflexivity|].
  cbv zeta. simpl fst. simpl snd.
  minv.
  set (target := if String.eqb j "1ms" then "10ms" else "1ms") in *.
  assert (Ht : truthy (Some target) = true)
    by (subst target; destruct (String.eqb j "1ms"); reflexivity).
  unfold set_netem, or_current in Hrun.
  rewrite Ht, (is_token_nonempty _ Hl) in Hrun.
  change (truthy (Some "30ms")) with true in Hrun. cbv iota in Hrun.
  apply bind_inv in Hrun.
  destruct Hrun as [(cur2 & w2 & Hget2 & Hrun) | (e & Hget2 & ->)];
    apply get_netem_params_inv in Hget2; destruct Hget2 as (o2 & Hb2 & Hlog2 & Hparse2).
  2:{ events. split; [|discriminate]. vm_compute. constructor. }
  unfold setup_qdiscs, get_htb_rate in Hrun.
  minv; events; (split; [vm_compute; repeat constructor | try discriminate; intros _; vm_compute; discriminate]).
Qed.

Lemma toggle_jitter_wan2_witness :
  exists j0 l0,
    netem_dict "30ms" "1ms" "2%" !! "jitter" = Some j0 /\
    netem_dict "30ms" "1ms" "2%" !! "loss" = Some l0 /\
    let target := if String.eqb j0 "1ms" then "10ms" else "1ms" in
    let rw := toggle_jitter_wan2 (scripted (netem_listing "1ms")) w0 in
    Forall (fun x => x = (WAN2, "30ms", target, l0)) (netem_writes (new_events w0 (snd rw))) /\
    (fst rw = Ok tt -> netem_writes (new_events w0 (snd rw)) <> []).
Proof.
  apply (toggle_jitter_wan2_spec unit (scripted (netem_listing "1ms")) w0
           (snd (get_netem_params (scripted (netem_listing "1ms")) WAN2 w0))).
  vm_compute. reflexivity.
Defined.

(** With jitter [5ms] in place the toggle writes [1ms], twice (the change
    prints nothing, so the rebuild runs as well). *)
Example toggle_jitter_unrecognised :
  fst (get_netem_params (scripted (netem_listing "5ms")) WAN2 w0)
    = Ok (netem_dict "30ms" "5ms" "2%") /\
  netem_writes (new_events w0 (snd (toggle_jitter_wan2 (scripted (netem_listing "5ms")) w0)))
    = [(WAN2, "30ms", "1ms", "2%"); (WAN2, "30ms", "1ms", "2%")].
Proof. split; vm_compute; reflexivity. Qed.

Lemma jitter_toggle_counterexample : ~ jitter_toggle_as_specified.
Proof.
  intros H.
  specialize (H unit (scripted (netem_listing "5ms")) w0
                (snd (get_netem_params (scripted (netem_listing "5ms")) WAN2 w0))
                (netem_dict "30ms" "5ms" "2%") "5ms").
  specialize (H ltac:(vm_compute; reflexivity) ltac:(reflexivity)).
  cbv zeta in H.
  destruct toggle_jitter_unrecognised as [_ Hw]. rewrite Hw in H.
  apply Forall_cons in H as [H _]. vm_compute in H. discriminate H.
Qed.

(** ** Bandwidth toggle *)

(** C2 (as amended).  When the rate read is [100mbit] the toggle writes
    [10mbit]; for every other rate read ([10mbit], the "no limit"
    sentinel, anything else) it writes the full rate [100mbit].  The
    in-place class change is always issued with that rate, and the class
    of a rebuild, if one follows, gets the same rate. *)
Theorem toggle_bandwidth_wan1_spec :
  forall St (backend : list string -> St -> option string * St)
         (w w1 : World St) (rate : string),
    get_htb_rate backend WAN1 w = (Ok rate, w1) ->
    let target := if String.eqb rate "100mbit" then "10mbit" else "100mbit" in
    let rw := toggle_bandwidth_wan1 backend w in
    exists rest,
      rate_writes (new_events w (snd rw)) = (WAN1, target) :: rest /\
      Forall (fun x => x = (WAN1, target)) rest.
Proof.
  intros St backend w w1 rate Hget target rw. subst rw.
  destruct (toggle_bandwidth_wan1 backend w) as [r w'] eqn:Hrun.
  unfold toggle_bandwidth_wan1 in Hrun.
  apply bind_inv in Hrun. rewrite Hget in Hrun.
  destruct Hrun as [(a & w1' & [= <- <-] & Hrun) | (? & [=] & _)].
  apply get_htb_rate_inv in Hget. destruct Hget as (o & Hb & Hlog & Hparse).
  fold target in Hrun. simpl snd.
  unfold set_htb_rate in Hrun.
  apply bind_inv in Hrun.
  destruct Hrun as [(ch & w2 & Hch & Hrun) | (e & Hch & ->)];
    apply run_command_inv in Hch; destruct Hch as (o2 & Hb2 & Hr2 & Hlog2); [|discriminate].
  destruct (truthy ch) eqn:Htr.
  - minv. events. eexists. split; [vm_compute; reflexivity | constructor].
  - apply bind_inv in Hrun.
    destruct Hrun as [(cur & w3 & Hget3 & Hrun) | (e & Hget3 & ->)];
      apply get_netem_params_inv in Hget3; destruct Hget3 as (o3 & Hb3 & Hlog3 & Hparse3).
    2:{ events. eexists. split; [vm_compute; reflexivity | constructor]. }
    destruct (netem_params_of_output_wf _ _ Hparse3) as (d & j & lo & -> & _).
    unfold setup_qdiscs in Hrun.
    minv; events; eexists; (split; [vm_compute; reflexivity | repeat constructor]).
Qed.

Lemma toggle_bandwidth_wan1_witness :
  let target := if String.eqb "100mbit" "100mbit" then "10mbit" else "100mbit" in
  let rw := toggle_bandwidth_wan1 (scripted (class_listing "100mbit")) w0 in
  exists rest,
    rate_writes (new_events w0 (snd rw)) = (WAN1, target) :: rest /\
    Forall (fun x => x = (WAN1, target)) rest.
Proof.
  apply (toggle_bandwidth_wan1_spec unit (scripted (class_listing "100mbit")) w0
           (snd (get_htb_rate (scripted (class_listing "100mbit")) WAN1 w0)) "100mbit").
  vm_compute. reflexivity.
Defined.

(** With no class in place the rate read is the sentinel, and the toggle
    asks for the full rate: in the change and in the rebuild. *)
Example toggle_bandwidth_unrecognised :
  fst (get_htb_rate failing WAN1 w0) = Ok "no limit" /\
  rate_writes (new_events w0 (snd (toggle_bandwidth_wan1 failing w0)))
    = [(WAN1, "100mbit"); (WAN1, "100mbit")].
Proof. split; vm_compute; reflexivity. Qed.

Lemma bandwidth_toggle_counterexample : ~ bandwidth_toggle_as_specified.
Proof.
  intros H.
  specialize (H unit failing w0 (snd (get_htb_rate failing WAN1 w0)) "no limit").
  specialize (H ltac:(vm_compute; reflexivity)).
  cbv zeta in H.
  destruct toggle_bandwidth_unrecognised as [_ Hw]. rewrite Hw in H.
  apply Forall_cons in H as [H _]. vm_compute in H. discriminate H.
Qed.

(** ** Facts about substring search *)

Lemma prefix_nil (s : string) : String.prefix "" s = true.
Proof. destruct s; reflexivity. Qed.


Lemma contains_empty (n : string) : PyStr.contains n "" = true -> n = "".
Proof. destruct n; simpl; [reflexivity | discriminate]. Qed.


Lemma contains_step (n : string) (c : ascii) (s : string) :
  PyStr.contains n (String c s) = String.prefix n (String c s) || PyStr.contains n s.
Proof. reflexivity. Qed.

Lemma contains_cons (n : string) (c : ascii) (s : string) :
  PyStr.contains n s = true -> PyStr.contains n (String c s) = true.
Proof. intros H. rewrite contains_step, H. apply orb_true_r. Qed.



Lemma contains_lstrip (n s : string) :
  PyStr.contains n (PyStr.lstrip s) = true -> PyStr.contains n s = true.
Proof.
  induction s as [|c s IH]; [auto|].
  simpl PyStr.lstrip. destruct (PyStr.is_space c); [|auto].
  intros H. apply contains_cons. auto.
Qed.

Lemma prefix_rstrip (n s : string) :
  String.prefix n (PyStr.rstrip s) = true -> String.prefix n s = true.
Proof.
  revert n. induction s as [|c s IH]; intros n; [auto|].
  simpl PyStr.rstrip.
  destruct (String.eqb (PyStr.rstrip s) "" && PyStr.is_space c).
  - destruct n; [reflexivity | discriminate].
  - destruct n as [|c' n]; [reflexivity|]. simpl.
    destruct (Ascii.ascii_dec c' c); [apply IH | discriminate].
Qed.

Lemma contains_rstrip (n s : string) :
  PyStr.contains n (PyStr.rstrip s) = true -> PyStr.contains n s = true.
Proof.
  induction s as [|c s IH]; [auto|].
  intros H. rewrite contains_step.
  pose proof (prefix_rstrip n (String c s)) as Hp.
  simpl PyStr.rstrip in H, Hp.
  destruct (String.eqb (PyStr.rstrip s) "" && PyStr.is_space c).
  - apply contains_empty in H. subst n. reflexivity.
  - rewrite contains_step in H. apply orb_true_iff in H as [H|H].
    + rewrite (Hp H). reflexivity.
    + rewrite (IH H). apply orb_true_r.
Qed.

(** What the stripped output contains, the output contains. *)
Lemma contains_strip (n s : string) :
  PyStr.contains n (PyStr.strip s) = true -> PyStr.contains n s = true.
Proof. intros H. apply contains_lstrip, contains_rstrip, H. Qed.

Lemma append_snoc (cur : string) (c : ascii) (s : string) :
  PyStr.snoc cur c +:+ s = cur +:+ String c s.
Proof.
  unfold PyStr.snoc. induction cur as [|c' cur IH]; [reflexivity|].
  change (String c' ((cur +:+ String c "") +:+ s) = String c' (cur +:+ String c s)).
  rewrite IH. reflexivity.
Qed.

Lemma append_empty_r (s : string) : s +:+ "" = s.
Proof.
  induction s as [|c s IH]; [reflexivity|].
  change (String c (s +:+ "") = String c s). rewrite IH. reflexivity.
Qed.



(** ** Readers: defaults on failure *)






(** ** Readers: the subscript one past a keyword *)

Lemma rate_scan_suffix_eq (parts : list string) (n k : nat) :
  k + n = length parts ->
  rate_scan parts (seq k n) = rate_scan_suffix (drop k parts).
Proof.
  revert k. induction n as [|n IH]; intros k Hk; simpl.
  - rewrite drop_ge by lia. reflexivity.
  - destruct (lookup_lt_is_Some_2 parts k ltac:(lia)) as [p Hp].
    rewrite (drop_cons_lookup _ _ _ Hp). unfold subscript at 1. rewrite Hp. simpl.
    destruct (String.eqb p "rate").
    + f_equal. unfold subscript. replace (k + 1) with (S k) by lia.
      destruct (parts !! S k) as [r|] eqn:Hr.
      * rewrite (drop_cons_lookup _ _ _ Hr). reflexivity.
      * apply lookup_ge_None in Hr. rewrite drop_ge by lia. reflexivity.
    + apply IH. lia.
Qed.

Lemma rate_scan_from_start (parts : list string) :
  rate_scan parts (seq 0 (length parts)) = rate_scan_suffix parts.
Proof. rewrite (rate_scan_suffix_eq parts (length parts) 0) by lia. rewrite drop_0. reflexivity. Qed.

Lemma netem_scan_skip (pre rest : list string) (params : gmap string string) :
  Forall not_netem_keyword pre ->
  netem_scan (pre ++ rest) params = netem_scan rest params.
Proof.
  induction pre as [|t pre IH]; intros H; [reflexivity|].
  apply Forall_cons in H as [[Hd Hl] Hpre]. simpl.
  destruct (String.eqb_spec t "delay"); [contradiction|].
  destruct (String.eqb_spec t "loss"); [contradiction|].
  apply IH. exact Hpre.
Qed.

Lemma rate_scan_suffix_skip (pre rest : list string) :
  Forall (fun t => t <> "rate") pre ->
  rate_scan_suffix (pre ++ rest) = rate_scan_suffix rest.
Proof.
  induction pre as [|t pre IH]; intros H; [reflexivity|].
  apply Forall_cons in H as [Ht Hpre]. simpl.
  destruct (String.eqb_spec t "rate"); [contradiction|].
  apply IH. exact Hpre.
Qed.

Lemma netem_params_of_lines_skip (before rest : list string) :
  Forall (fun l => PyStr.contains "netem" l = false) before ->
  netem_params_of_lines (before ++ rest) = netem_params_of_lines rest.
Proof.
  induction before as [|l before IH]; intros H; [reflexivity|].
  apply Forall_cons in H as [Hl Hb]. simpl. rewrite Hl. apply IH. exact Hb.
Qed.

Lemma htb_rate_of_lines_skip (before rest : list string) :
  Forall (fun l => PyStr.contains "class htb 1:10" l = false) before ->
  htb_rate_of_lines (before ++ rest) = htb_rate_of_lines rest.
Proof.
  induction before as [|l before IH]; intros H; [reflexivity|].
  apply Forall_cons in H as [Hl Hb]. simpl. rewrite Hl. apply IH. exact Hb.
Qed.

Lemma splitlines_nonempty_truthy (s : string) (l : list string) :
  PyStr.splitlines s = l -> l <> [] -> truthy (Some s) = true.
Proof. destruct s; [intros <- H; contradiction H; reflexivity | reflexivity]. Qed.

(** C10.  The readers subscript [parts[i+1]] without a bounds check.  When
    the first line that mentions [netem] ends in the word [delay] or
    [loss] (no such word before it), [get_netem_params] raises
    [IndexError]; when the first line that mentions [class htb 1:10] ends
    in the word [rate] (no such word before it), [get_htb_rate] raises
    [IndexError].  No default is returned in either case. *)
Theorem readers_index_error :
  forall St (backend : list string -> St -> option string * St)
         (w : World St) (interface out : string)
         (before rest pre : list string) (line : string),
    PyStr.splitlines (PyStr.strip out) = before ++ line :: rest ->
    (forall kw,
       fst (backend ["tc"; "qdisc"; "show"; "dev"; interface] (sys w)) = Some out ->
       Forall (fun l => PyStr.contains "netem" l = false) before ->
       PyStr.contains "netem" line = true ->
       kw = "delay" \/ kw = "loss" ->
       Forall not_netem_keyword pre ->
       PyStr.split line = pre ++ [kw] ->
       fst (get_netem_params backend interface w) = Raise IndexError) /\
    (fst (backend ["tc"; "class"; "show"; "dev"; interface] (sys w)) = Some out ->
     Forall (fun l => PyStr.contains "class htb 1:10" l = false) before ->
     PyStr.contains "class htb 1:10" line = true ->
     Forall (fun t => t <> "rate") pre ->
     PyStr.split line = pre ++ ["rate"] ->
     fst (get_htb_rate backend interface w) = Raise IndexError).
Proof.
  intros St backend w interface out before rest pre line Hlines.
  assert (Htr : truthy (Some (PyStr.strip out)) = true).
  { apply (splitlines_nonempty_truthy _ _ Hlines). destruct before; discriminate. }
  split.
  - intros kw Hout Hbefore Hline Hkw Hpre Hsplit.
    unfold get_netem_params, bind, run_command, lift.
    destruct (backend _ (sys w)) as [o s']. simpl in Hout. subst o.
    cbn [fst fmap option_fmap option_map].
    unfold netem_params_of_output. rewrite Htr, Hlines.
    rewrite (netem_params_of_lines_skip _ _ Hbefore). simpl. rewrite Hline.
    rewrite netem_loop_from_start, Hsplit, (netem_scan_skip _ _ _ Hpre).
    destruct Hkw as [-> | ->]; reflexivity.
  - intros Hout Hbefore Hline Hpre Hsplit.
    unfold get_htb_rate, bind, run_command, lift.
    destruct (backend _ (sys w)) as [o s']. simpl in Hout. subst o.
    cbn [fst fmap option_fmap option_map].
    unfold htb_rate_of_output. rewrite Htr, Hlines.
    rewrite (htb_rate_of_lines_skip _ _ Hbefore). simpl. rewrite Hline.
    rewrite rate_scan_from_start, Hsplit, (rate_scan_suffix_skip _ _ Hpre).
    reflexivity.
Qed.

Lemma readers_index_error_witness :
  fst (get_netem_params (scripted truncated_listing) WAN1 w0) = Raise IndexError /\
  fst (get_htb_rate (scripted truncated_listing) WAN1 w0) = Raise IndexError.
Proof.
  split.
  - apply (proj1 (readers_index_error unit (scripted truncated_listing) w0 WAN1
                    "qdisc netem 10: parent 1:10 limit 1000 delay" [] []
                    ["qdisc"; "netem"; "10:"; "parent"; "1:10"; "limit"; "1000"]
                    "qdisc netem 10: parent 1:10 limit 1000 delay" eq_refl) "delay");
      try reflexivity; [constructor | tauto | repeat (constructor; [split; discriminate|]); constructor].
  - apply (proj2 (readers_index_error unit (scripted truncated_listing) w0 WAN1
                    "class htb 1:10 root leaf 10: prio 0 rate" [] []
                    ["class"; "htb"; "1:10"; "root"; "leaf"; "10:"; "prio"; "0"]
                    "class htb 1:10 root leaf 10: prio 0 rate" eq_refl));
      try reflexivity; [constructor | repeat (constructor; [discriminate|]); constructor].
Defined.

(** ** Impairment reader: the triple, and where it is not returned *)

(** Whenever [get_netem_params] returns, the dict has exactly the keys
    [delay], [jitter] and [loss]. *)
Lemma get_netem_params_full_triple {St} (backend : list string -> St -> option string * St)
    (interface : string) (w w' : World St) (p : gmap string string) :
  get_netem_params backend interface w = (Ok p, w') ->
  exists d j l, p = netem_dict d j l.
Proof.
  intros H. apply get_netem_params_inv in H. destruct H as (o & _ & _ & Hp).
  destruct (netem_params_of_output_wf _ _ Hp) as (d & j & l & -> & _).
  eauto.
Qed.

(** C5 (the code departs from it).  On a listing whose emulation line
    ends in the word [delay], [get_netem_params] returns no triple at all:
    the subscript [parts[i+1]] raises [IndexError], although the listing
    query itself succeeded.  The same happens after a final [loss]. *)
Theorem get_netem_params_not_total :
  get_netem_params (scripted truncated_listing) WAN1 w0
    = (Raise IndexError,
       mkWorld tt [Ran ["tc"; "qdisc"; "show"; "dev"; WAN1]
                       (Some "qdisc netem 10: parent 1:10 limit 1000 delay")]) /\
  netem_params_of_output (Some "qdisc netem 10: parent 1:10 limit 1000 delay 30ms loss")
    = Raise IndexError.
Proof. split; vm_compute; reflexivity. Qed.

(** ** Which token becomes the jitter *)

Lemma netem_scan_kept (k : string) (rest : list string) (params r : gmap string string) :
  k <> "loss" ->
  Forall (fun t => t <> "delay") rest ->
  netem_scan rest params = Ok r -> r !! k = params !! k.
Proof.
  intros Hk.
  assert (Hgen : forall n rest params, length rest <= n ->
             Forall (fun t => t <> "delay") rest ->
             netem_scan rest params = Ok r -> r !! k = params !! k).
  { clear rest params. induction n as [|n IH]; intros rest params Hlen Hnd Hscan.
    - destruct rest; simpl in *; [|lia]. congruence.
    - destruct rest as [|p tl]; simpl in Hscan; [congruence|].
      simpl in Hlen. apply Forall_cons in Hnd as [Hp Htl].
      destruct (String.eqb_spec p "delay"); [contradiction|].
      destruct (String.eqb p "loss").
      + destruct tl as [|l tl2]; [discriminate|].
        apply Forall_cons in Htl as [_ Htl2]. simpl in Hlen.
        rewrite (IH tl2 _ ltac:(lia) Htl2 Hscan).
        apply lookup_insert_ne. congruence.
      + apply (IH tl _ ltac:(lia) Htl Hscan). }
  apply (Hgen (length rest)). lia.
Qed.

(** The words right after [delay]: the value, then the candidate [t]. *)
Lemma netem_scan_after_delay (pre post : list string) (d t : string)
    (r : gmap string string) :
  Forall not_netem_keyword pre ->
  Forall (fun x => x <> "delay") (t :: post) ->
  netem_scan (pre ++ "delay" :: d :: t :: post) ∅ = Ok r ->
  fill_defaults r !! "delay" = Some d /\
  fill_defaults r !! "jitter" = Some (if jitter_shaped t then t else "0ms").
Proof.
  intros Hpre Hpost Hscan.
  rewrite (netem_scan_skip _ _ _ Hpre) in Hscan. simpl in Hscan.
  unfold fill_defaults. rewrite !lookup_setdefault.
  rewrite (decide_False (P := "loss" = "delay")) by discriminate.
  rewrite (decide_False (P := "jitter" = "delay")) by discriminate.
  rewrite (decide_False (P := "loss" = "jitter")) by discriminate.
  rewrite (decide_True (P := "delay" = "delay")) by reflexivity.
  rewrite (decide_True (P := "jitter" = "jitter")) by reflexivity.
  rewrite (decide_False (P := "delay" = "jitter")) by discriminate.
  destruct (jitter_shaped t).
  - apply Forall_cons in Hpost as [_ Hpost].
    rewrite (netem_scan_kept "delay" _ _ _ ltac:(discriminate) Hpost Hscan).
    rewrite (netem_scan_kept "jitter" _ _ _ ltac:(discriminate) Hpost Hscan).
    rewrite lookup_insert_eq, lookup_insert_ne, lookup_insert_eq by discriminate.
    split; reflexivity.
  - rewrite (netem_scan_kept "delay" _ _ _ ltac:(discriminate) Hpost Hscan).
    rewrite (netem_scan_kept "jitter" _ _ _ ltac:(discriminate) Hpost Hscan).
    rewrite lookup_insert_eq, lookup_insert_ne, lookup_empty by discriminate.
    split; reflexivity.
Qed.

(** C6 (as amended).  The token after the delay value becomes the jitter
    exactly when it ends in [ms] and does not start with [loss]; any
    other token there, one that ends in another time unit included,
    leaves the jitter at its zero default.  (Stated for the first line
    that mentions [netem], with one [delay] keyword.) *)
Theorem jitter_token_rule :
  forall (out : string) (before rest pre post : list string) (line d t : string)
         (p : gmap string string),
    PyStr.splitlines out = before ++ line :: rest ->
    Forall (fun l => PyStr.contains "netem" l = false) before ->
    PyStr.contains "netem" line = true ->
    PyStr.split line = pre ++ "delay" :: d :: t :: post ->
    Forall not_netem_keyword pre ->
    Forall (fun x => x <> "delay") (t :: post) ->
    netem_params_of_output (Some out) = Ok p ->
    p !! "delay" = Some d /\
    p !! "jitter" = Some (if PyStr.endswith t "ms" && negb (PyStr.startswith t "loss")
                          then t else "0ms").
Proof.
  intros out before rest pre post line d t p Hlines Hbefore Hline Hsplit Hpre Hpost Hp.
  assert (Htr : truthy (Some out) = true).
  { apply (splitlines_nonempty_truthy _ _ Hlines). destruct before; discriminate. }
  unfold netem_params_of_output in Hp. rewrite Htr, Hlines in Hp.
  rewrite (netem_params_of_lines_skip _ _ Hbefore) in Hp. simpl in Hp.
  rewrite Hline, netem_loop_from_start, Hsplit in Hp.
  destruct (netem_scan (pre ++ "delay" :: d :: t :: post) ∅) as [r|e] eqn:Hscan; [|discriminate].
  injection Hp as <-.
  apply (netem_scan_after_delay pre post d t r Hpre Hpost Hscan).
Qed.

Lemma jitter_token_rule_witness :
  netem_dict "30ms" "5ms" "2%" !! "delay" = Some "30ms" /\
  netem_dict "30ms" "5ms" "2%" !! "jitter"
    = Some (if PyStr.endswith "5ms" "ms" && negb (PyStr.startswith "5ms" "loss")
            then "5ms" else "0ms").
Proof.
  apply (jitter_token_rule
           "qdisc netem 10: parent 1:10 limit 1000 delay 30ms 5ms loss 2%" [] []
           ["qdisc"; "netem"; "10:"; "parent"; "1:10"; "limit"; "1000"] ["loss"; "2%"]
           "qdisc netem 10: parent 1:10 limit 1000 delay 30ms 5ms loss 2%" "30ms" "5ms").
  - reflexivity.
  - constructor.
  - reflexivity.
  - reflexivity.
  - repeat (constructor; [split; discriminate|]). constructor.
  - repeat (constructor; [discriminate|]). constructor.
  - vm_compute. reflexivity.
Defined.

(** A jitter of one second is printed as [1s] and read back as [0ms]. *)
Example jitter_in_seconds_dropped :
  netem_params_of_output (Some "qdisc netem 10: parent 1:10 limit 1000 delay 2s 1s loss 2%")
  = Ok (netem_dict "2s" "0ms" "2%").
Proof. vm_compute. reflexivity. Qed.

Lemma jitter_rule_counterexample : ~ jitter_rule_as_specified.
Proof.
  intros H.
  specialize (H "qdisc netem 10: parent 1:10 limit 1000 delay 2s 1s loss 2%" [] []
                ["qdisc"; "netem"; "10:"; "parent"; "1:10"; "limit"; "1000"] ["loss"; "2%"]
                "qdisc netem 10: parent 1:10 limit 1000 delay 2s 1s loss 2%" "2s" "1s"
                (netem_dict "2s" "0ms" "2%")).
  assert (Hj : netem_dict "2s" "0ms" "2%" !! "jitter" = Some "1s").
  { apply H.
    - reflexivity.
    - constructor.
    - reflexivity.
    - reflexivity.
    - repeat (constructor; [split; discriminate|]). constructor.
    - repeat (constructor; [discriminate|]). constructor.
    - exact jitter_in_seconds_dropped. }
  vm_compute in Hj. discriminate Hj.
Qed.

(** ** Mutators: what becomes of a failed rebuild *)

Section Rebuild.

Context {St : Type} (backend : list string -> St -> option string * St).










(** The rebuild issues its four commands and returns, whatever they answer. *)
Lemma setup_qdiscs_runs i b d j l (w : World St) :
  exists o1 o2 o3 o4 w',
    setup_qdiscs backend i b d j l w = (Ok tt, w') /\
    log w' = log w ++
      [Called ["tc"; "qdisc"; "del"; "dev"; i; "root"] o1;
       Ran ["tc"; "qdisc"; "add"; "dev"; i; "root"; "handle"; "1:"; "htb"; "default"; "10"] o2;
       Ran ["tc"; "class"; "add"; "dev"; i; "parent"; "1:"; "classid"; "1:10"; "htb"; "rate"; b] o3;
       Ran ["tc"; "qdisc"; "add"; "dev"; i; "parent"; "1:10"; "handle"; "10:"; "netem";
            "delay"; d; j; "loss"; l] o4].
Proof.
  destruct (setup_qdiscs backend i b d j l w) as [r w'] eqn:Hrun.
  unfold setup_qdiscs in Hrun. minv.
  do 5 eexists. split; [reflexivity|].
  repeat (match goal with Hl : log ?x = _ |- context [log ?x] => rewrite Hl end).
  rewrite <- !app_assoc. reflexivity.
Qed.





End Rebuild.



(** ** Facts about a backend and its readers *)

Section ShapingFacts.

Context {St : Type} (backend : list string -> St -> option string * St).

Lemma read_rate_world (w : World St) (i : string) :
  fst (get_htb_rate backend i w) = read_rate backend (sys w) i.
Proof.
  unfold read_rate, get_htb_rate, bind, run_command, lift. simpl.
  destruct (backend _ (sys w)). reflexivity.
Qed.

Lemma read_netem_world (w : World St) (i : string) :
  fst (get_netem_params backend i w) = read_netem backend (sys w) i.
Proof.
  unfold read_netem, get_netem_params, bind, run_command, lift. simpl.
  destruct (backend _ (sys w)). reflexivity.
Qed.

Lemma backend_exec (cmd : list string) (s s' : St) (o : option string) :
  backend cmd s = (o, s') -> s' = exec backend cmd s.
Proof. unfold exec. intros ->. reflexivity. Qed.

Lemma read_rate_answer (s s' : St) (i : string) (o : option string) :
  backend ["tc"; "class"; "show"; "dev"; i] s = (o, s') ->
  htb_rate_of_output (PyStr.strip <$> o) = read_rate backend s i.
Proof.
  intros H. unfold read_rate, get_htb_rate, bind, run_command, lift. simpl.
  rewrite H. reflexivity.
Qed.

Lemma read_netem_answer (s s' : St) (i : string) (o : option string) :
  backend ["tc"; "qdisc"; "show"; "dev"; i] s = (o, s') ->
  netem_params_of_output (PyStr.strip <$> o) = read_netem backend s i.
Proof.
  intros H. unfold read_netem, get_netem_params, bind, run_command, lift. simpl.
  rewrite H. reflexivity.
Qed.

End ShapingFacts.

(** ** Rate preserved under an impairment change *)

Lemma setup_qdiscs_state {St} (backend : list string -> St -> option string * St)
    i b d j l (w : World St) :
  sys (snd (setup_qdiscs backend i b d j l w)) = rebuilt backend i b d j l (sys w).
Proof.
  unfold setup_qdiscs, rebuilt, exec, bind, run_command, subprocess_call, ret.
  destruct w as [s lg]. cbn [sys log].
  repeat (match goal with |- context [backend ?c ?s] =>
            destruct (backend c s) as [? ?] eqn:? end; cbn [sys log fst snd]).
  reflexivity.
Qed.

(** One [bind] of a run: the first step returned, or it raised. *)
Tactic Notation "step_bind" hyp(H) "as" ident(a) ident(w) ident(Hm) :=
  apply bind_inv in H;
  let e := fresh "e" in
  destruct H as [(a & w & Hm & H) | (e & Hm & ->)].

(** C3.  On a shaping backend, [set_netem] leaves the rate that is read
    unchanged whenever a rate limit is in place; and each class a rebuild
    of [set_netem] creates gets the rate read at that moment, or, when
    that is the "no limit" sentinel, the bandwidth of the interface's
    default profile. *)
Theorem set_netem_keeps_rate :
  forall St (backend : list string -> St -> option string * St),
    shaping_laws backend ->
    forall (i : string) (d j l : option string) (w : World St) (r bw : string),
      fst (get_htb_rate backend i w) = Ok r ->
      (r = "no limit" -> default_param i "bandwidth" = Ok bw) ->
      let rw := set_netem backend i d j l w in
      rebuild_rates (new_events w (snd rw))
        = map (fun _ => (i, if String.eqb r "no limit" then bw else r))
              (rebuild_starts (new_events w (snd rw))) /\
      (r <> "no limit" -> fst (get_htb_rate backend i (snd rw)) = Ok r).
Proof.
  intros St backend L i d j l w r bw Hr Hbw rw. subst rw.
  rewrite read_rate_world in Hr.
  destruct (set_netem backend i d j l w) as [r0 w'] eqn:Hrun.
  cbn [fst snd]. rewrite read_rate_world.
  unfold set_netem in Hrun.
  step_bind Hrun as cur wa Hm;
    apply get_netem_params_inv in Hm; destruct Hm as (o1 & Hb1 & Hl1 & Hp1);
    apply backend_exec in Hb1; rewrite (qdisc_show_pure _ L) in Hb1.
  2:{ events. split; [reflexivity|]. intros _. rewrite Hb1. exact Hr. }
  step_bind Hrun as d' wb Hm; apply lift_inv in Hm; destruct Hm as [Hd ->].
  2:{ events. split; [reflexivity|]. intros _. rewrite Hb1. exact Hr. }
  step_bind Hrun as j' wb Hm; apply lift_inv in Hm; destruct Hm as [Hj ->].
  2:{ events. split; [reflexivity|]. intros _. rewrite Hb1. exact Hr. }
  step_bind Hrun as l' wb Hm; apply lift_inv in Hm; destruct Hm as [Hlo ->].
  2:{ events. split; [reflexivity|]. intros _. rewrite Hb1. exact Hr. }
  step_bind Hrun as changed wc Hm;
    apply run_command_inv in Hm; destruct Hm as (o2 & Hb2 & Ho2 & Hl2); [|discriminate].
  apply backend_exec in Hb2. rewrite Hb1 in Hb2.
  assert (Hr2 : read_rate backend (sys wc) i = Ok r).
  { rewrite Hb2. simpl app. rewrite (netem_change_keeps_rate _ L). exact Hr. }
  destruct (truthy changed).
  { apply ret_inv in Hrun. destruct Hrun as [-> ->]. events.
    split; [vm_compute; reflexivity|]. intros _. exact Hr2. }
  step_bind Hrun as rate wd Hm;
    apply get_htb_rate_inv in Hm; destruct Hm as (o3 & Hb3 & Hl3 & Hp3);
    rewrite (read_rate_answer _ _ _ _ _ Hb3), Hr2 in Hp3;
    apply backend_exec in Hb3; rewrite (class_show_pure _ L) in Hb3; [|discriminate].
  injection Hp3 as <-.
  assert (Hfin : forall b, setup_qdiscs backend i b d' j' l' wd = (r0, w') ->
            rebuild_rates (new_events w w') = [(i, b)] /\
            length (rebuild_starts (new_events w w')) = 1 /\
            exists s, sys w' = rebuilt backend i b d' j' l' s).
  { intros b Hs.
    pose proof (setup_qdiscs_state backend i b d' j' l' wd) as Hst.
    destruct (setup_qdiscs_runs backend i b d' j' l' wd) as (q1 & q2 & q3 & q4 & we & Hq & Hlq).
    rewrite Hs in Hq. injection Hq as -> <-. rewrite Hs in Hst. cbn [snd] in Hst.
    events. split; [vm_compute; reflexivity|]. split; [vm_compute; reflexivity|].
    eexists. exact Hst. }
  destruct (String.eqb_spec r "no limit") as [Hno | Hlim].
  - step_bind Hrun as b we Hm; apply lift_inv in Hm; destruct Hm as [Hdef ->];
      rewrite (Hbw Hno) in Hdef; [|discriminate].
    injection Hdef as <-.
    destruct (Hfin _ Hrun) as (Hrates & Hlen & _).
    split; [|contradiction].
    rewrite Hrates. destruct (rebuild_starts (new_events w w')) as [|x [|y t]]; try discriminate.
    reflexivity.
  - step_bind Hrun as b we Hm; apply ret_inv in Hm; destruct Hm as [Hret ->]; [|discriminate].
    injection Hret as <-.
    destruct (Hfin _ Hrun) as (Hrates & Hlen & s' & Hsys).
    split.
    + rewrite Hrates. destruct (rebuild_starts (new_events w w')) as [|x [|y t]]; try discriminate.
      reflexivity.
    + intros _. rewrite Hsys. apply (rebuild_sets_rate _ L) with (s0 := sys w); assumption.
Qed.

(** ** Impairment preserved under a rate change *)

(** C4.  On a shaping backend, [set_htb_rate] leaves the parameters that
    are read unchanged, for every interface and every new rate; the only
    emulation rule it writes is the one of the rebuild, and it carries
    the delay, jitter and loss read at that moment. *)
Theorem set_htb_rate_keeps_netem :
  forall St (backend : list string -> St -> option string * St),
    shaping_laws backend ->
    forall (i rate : string) (w : World St) (p : gmap string string),
      fst (get_netem_params backend i w) = Ok p ->
      let rw := set_htb_rate backend i rate w in
      exists d j l,
        p = netem_dict d j l /\
        netem_writes (new_events w (snd rw))
          = map (fun _ => (i, d, j, l)) (rebuild_starts (new_events w (snd rw))) /\
        fst (get_netem_params backend i (snd rw)) = Ok p.
Proof.
  intros St backend L i rate w p Hp rw. subst rw.
  rewrite read_netem_world in Hp.
  assert (Hwf : exists d j l, p = netem_dict d j l).
  { unfold read_netem in Hp.
    destruct (get_netem_params backend i (mkWorld (sys w) [])) as [x y] eqn:E.
    simpl in Hp. subst x. apply (get_netem_params_full_triple _ _ _ _ _ E). }
  destruct Hwf as (d & j & l & ->). exists d, j, l. split; [reflexivity|].
  destruct (set_htb_rate backend i rate w) as [r0 w'] eqn:Hrun.
  cbn [fst snd]. rewrite read_netem_world.
  unfold set_htb_rate in Hrun.
  step_bind Hrun as changed wa Hm;
    apply run_command_inv in Hm; destruct Hm as (o1 & Hb1 & Ho1 & Hl1); [|discriminate].
  apply backend_exec in Hb1.
  assert (Hn1 : read_netem backend (sys wa) i = Ok (netem_dict d j l)).
  { rewrite Hb1, (class_change_keeps_netem _ L). exact Hp. }
  destruct (truthy changed).
  { apply ret_inv in Hrun. destruct Hrun as [-> ->]. events.
    split; [vm_compute; reflexivity | exact Hn1]. }
  step_bind Hrun as cur wb Hm;
    apply get_netem_params_inv in Hm; destruct Hm as (o2 & Hb2 & Hl2 & Hp2);
    rewrite (read_netem_answer _ _ _ _ _ Hb2), Hn1 in Hp2;
    apply backend_exec in Hb2; rewrite (qdisc_show_pure _ L) in Hb2; [|discriminate].
  injection Hp2 as <-.
  step_bind Hrun as d' wc Hm; apply lift_inv in Hm; destruct Hm as [Hd ->];
    vm_compute in Hd; [|discriminate]. injection Hd as <-.
  step_bind Hrun as j' wc Hm; apply lift_inv in Hm; destruct Hm as [Hj ->];
    vm_compute in Hj; [|discriminate]. injection Hj as <-.
  step_bind Hrun as l' wc Hm; apply lift_inv in Hm; destruct Hm as [Hlo ->];
    vm_compute in Hlo; [|discriminate]. injection Hlo as <-.
  pose proof (setup_qdiscs_state backend i rate d j l wb) as Hst.
  destruct (setup_qdiscs_runs backend i rate d j l wb) as (q1 & q2 & q3 & q4 & we & Hq & Hlq).
  rewrite Hrun in Hq. injection Hq as -> <-. rewrite Hrun in Hst. cbn [snd] in Hst.
  events. split; [vm_compute; reflexivity|].
  rewrite Hst. apply (rebuild_sets_netem _ L) with (s0 := sys w). exact Hp.
Qed.

(** ** The reference backend at work *)

(** The reference backend at work: impairment set on a fresh interface,
    read back, and the rate changed after that. *)
Example ref_backend_session :
  let w1 := snd (set_netem Ref.backend WAN2 (Some "30ms") (Some "5ms") (Some "2%")
                   (mkWorld Ref.fresh [])) in
  let w2 := snd (set_htb_rate Ref.backend WAN2 "10mbit" w1) in
  fst (get_netem_params Ref.backend WAN2 w1) = Ok (netem_dict "30ms" "5ms" "2%") /\
  fst (get_htb_rate Ref.backend WAN2 w1) = Ok "50mbit" /\
  fst (get_netem_params Ref.backend WAN2 w2) = Ok (netem_dict "30ms" "5ms" "2%") /\
  fst (get_htb_rate Ref.backend WAN2 w2) = Ok "10mbit" /\
  fst (get_htb_rate Ref.backend WAN1 w2) = Ok "no limit".
Proof. vm_compute. repeat split. Qed.

(** ** The reference backend is a shaping backend *)

Lemma is_linebreak_space (c : ascii) : PyStr.is_linebreak c = true -> PyStr.is_space c = true.
Proof. destruct c as [[] [] [] [] [] [] [] []]; vm_compute; congruence. Qed.

Lemma no_space_cons (c : ascii) (t : string) :
  no_space (String c t) = true <-> PyStr.is_space c = false /\ no_space t = true.
Proof.
  unfold no_space. simpl. rewrite andb_true_iff, negb_true_iff. reflexivity.
Qed.

Lemma split_go_app (t s cur : string) :
  no_space t = true -> PyStr.split_go cur (t +:+ s) = PyStr.split_go (cur +:+ t) s.
Proof.
  revert cur. induction t as [|c t IH]; intros cur Ht.
  - rewrite append_empty_r. reflexivity.
  - apply no_space_cons in Ht as [Hc Ht].
    change (String c t +:+ s) with (String c (t +:+ s)).
    cbn [PyStr.split_go]. rewrite Hc, (IH _ Ht), append_snoc. reflexivity.
Qed.

Lemma is_token_inv (t : string) :
  is_token t = true -> t <> "" /\ no_space t = true.
Proof.
  unfold is_token. rewrite andb_true_iff, negb_true_iff. intros [H1 H2].
  split; [|exact H2]. intros ->. discriminate.
Qed.

Lemma eqb_nonempty (t : string) : t <> "" -> String.eqb t "" = false.
Proof. intros H. destruct (String.eqb_spec t ""); congruence. Qed.

(** Splitting a line of single-spaced words gives the words back. *)
Lemma split_join (toks : list string) :
  Forall (fun t => is_token t = true) toks -> PyStr.split (PyStr.join toks) = toks.
Proof.
  unfold PyStr.split. induction toks as [|t rest IH]; intros H; [reflexivity|].
  apply Forall_cons in H as [Ht Hrest]. apply is_token_inv in Ht as [Hne Hns].
  destruct rest as [|t2 rest].
  - change (PyStr.join [t]) with t. rewrite <- (append_empty_r t) at 1.
    rewrite (split_go_app _ _ _ Hns). change ("" +:+ t) with t.
    simpl. rewrite (eqb_nonempty _ Hne). reflexivity.
  - change (PyStr.join (t :: t2 :: rest)) with (t +:+ String " " (PyStr.join (t2 :: rest))).
    rewrite (split_go_app _ _ _ Hns). change ("" +:+ t) with t.
    cbn [PyStr.split_go]. change (PyStr.is_space " ") with true. cbv iota.
    rewrite (eqb_nonempty _ Hne). f_equal. apply IH. exact Hrest.
Qed.

Lemma append_nonempty_r (a b : string) : b <> "" -> a +:+ b <> "".
Proof. destruct a; [auto | discriminate]. Qed.

Lemma join_nonempty (toks : list string) :
  Forall (fun t => is_token t = true) toks -> toks <> [] -> PyStr.join toks <> "".
Proof.
  destruct toks as [|t rest]; [congruence|]. intros H _.
  apply Forall_cons in H as [Ht _]. apply is_token_inv in Ht as [Hne _].
  destruct rest; [exact Hne|].
  change (PyStr.join (t :: s :: rest)) with (t +:+ String " " (PyStr.join (s :: rest))).
  apply append_nonempty_r. discriminate.
Qed.

Lemma rstrip_no_space (t : string) : no_space t = true -> PyStr.rstrip t = t.
Proof.
  induction t as [|c t IH]; intros H; [reflexivity|].
  apply no_space_cons in H as [Hc Ht]. simpl. rewrite (IH Ht), Hc, andb_false_r. reflexivity.
Qed.

Lemma rstrip_app (a b : string) :
  PyStr.rstrip b = b -> b <> "" -> PyStr.rstrip (a +:+ b) = a +:+ b.
Proof.
  intros Hb Hne. induction a as [|c a IH]; [exact Hb|].
  change (String c a +:+ b) with (String c (a +:+ b)).
  cbn [PyStr.rstrip]. rewrite IH.
  rewrite (eqb_nonempty _ (append_nonempty_r a b Hne)). reflexivity.
Qed.

Lemma rstrip_join (toks : list string) :
  Forall (fun t => is_token t = true) toks -> PyStr.rstrip (PyStr.join toks) = PyStr.join toks.
Proof.
  induction toks as [|t rest IH]; intros H; [reflexivity|].
  pose proof H as Hall.
  apply Forall_cons in H as [Ht Hrest]. apply is_token_inv in Ht as [Hne Hns].
  destruct rest as [|t2 rest]; [apply rstrip_no_space; exact Hns|].
  change (PyStr.join (t :: t2 :: rest)) with (t +:+ " " +:+ PyStr.join (t2 :: rest)).
  assert (Hj : PyStr.join (t2 :: rest) <> "") by (apply join_nonempty; [exact Hrest | discriminate]).
  apply rstrip_app; [|apply append_nonempty_r; exact Hj].
  apply rstrip_app; [apply IH; exact Hrest | exact Hj].
Qed.

Lemma lstrip_join (toks : list string) :
  Forall (fun t => is_token t = true) toks -> PyStr.lstrip (PyStr.join toks) = PyStr.join toks.
Proof.
  destruct toks as [|t rest]; intros H; [reflexivity|].
  apply Forall_cons in H as [Ht _]. apply is_token_inv in Ht as [Hne Hns].
  destruct t as [|c t]; [congruence|]. apply no_space_cons in Hns as [Hc _].
  destruct rest as [|t2 rest].
  - simpl. rewrite Hc. reflexivity.
  - change (PyStr.join (String c t :: t2 :: rest))
      with (String c (t +:+ String " " (PyStr.join (t2 :: rest)))).
    cbn [PyStr.lstrip]. rewrite Hc. reflexivity.
Qed.

(** A line of single-spaced words has no white space to strip. *)
Lemma strip_join (toks : list string) :
  Forall (fun t => is_token t = true) toks -> PyStr.strip (PyStr.join toks) = PyStr.join toks.
Proof. intros H. unfold PyStr.strip. rewrite (lstrip_join _ H). apply rstrip_join, H. Qed.

Lemma no_linebreak_cons (c : ascii) (t : string) :
  no_linebreak (String c t) = true <-> PyStr.is_linebreak c = false /\ no_linebreak t = true.
Proof. unfold no_linebreak. simpl. rewrite andb_true_iff, negb_true_iff. reflexivity. Qed.

Lemma no_linebreak_app (a b : string) :
  no_linebreak a = true -> no_linebreak b = true -> no_linebreak (a +:+ b) = true.
Proof.
  unfold no_linebreak. intros Ha Hb.
  rewrite list_ascii_of_string_app, forallb_app, Ha, Hb. reflexivity.
Qed.

Lemma no_space_no_linebreak (t : string) : no_space t = true -> no_linebreak t = true.
Proof.
  induction t as [|c t IH]; intros H; [reflexivity|].
  apply no_space_cons in H as [Hc Ht]. apply no_linebreak_cons. split; [|auto].
  destruct (PyStr.is_linebreak c) eqn:E; [|reflexivity].
  apply is_linebreak_space in E. congruence.
Qed.

Lemma no_linebreak_join (toks : list string) :
  Forall (fun t => is_token t = true) toks -> no_linebreak (PyStr.join toks) = true.
Proof.
  induction toks as [|t rest IH]; intros H; [reflexivity|].
  apply Forall_cons in H as [Ht Hrest]. apply is_token_inv in Ht as [_ Hns].
  destruct rest as [|t2 rest]; [apply no_space_no_linebreak; exact Hns|].
  change (PyStr.join (t :: t2 :: rest)) with (t +:+ String " " (PyStr.join (t2 :: rest))).
  apply no_linebreak_app; [apply no_space_no_linebreak; exact Hns|].
  apply no_linebreak_cons. split; [reflexivity | apply IH; exact Hrest].
Qed.

Lemma splitlines_go_no_linebreak (s cur : string) :
  no_linebreak s = true ->
  PyStr.splitlines_go cur s = if String.eqb (cur +:+ s) "" then [] else [cur +:+ s].
Proof.
  revert cur. induction s as [|c s IH]; intros cur H.
  - rewrite append_empty_r. reflexivity.
  - apply no_linebreak_cons in H as [Hc Hs].
    cbn [PyStr.splitlines_go]. rewrite Hc, (IH _ Hs), append_snoc. reflexivity.
Qed.

Lemma splitlines_go_newline (a b cur : string) :
  no_linebreak a = true ->
  PyStr.splitlines_go cur (a +:+ Ref.newline +:+ b) = (cur +:+ a) :: PyStr.splitlines_go "" b.
Proof.
  revert cur. induction a as [|c a IH]; intros cur H.
  - rewrite append_empty_r. change ("" +:+ Ref.newline +:+ b) with (String "010" b).
    cbn [PyStr.splitlines_go]. change (PyStr.is_linebreak "010") with true. cbv iota.
    destruct b; reflexivity.
  - apply no_linebreak_cons in H as [Hc Ha].
    change (String c a +:+ Ref.newline +:+ b) with (String c (a +:+ Ref.newline +:+ b)).
    cbn [PyStr.splitlines_go]. rewrite Hc, (IH _ Ha), append_snoc. reflexivity.
Qed.

Lemma rate_scan_suffix_in (rest : list string) (b : string) :
  rate_scan_suffix rest = Some (Ok b) -> In b rest.
Proof.
  induction rest as [|p tl IH]; simpl; [discriminate|].
  destruct (String.eqb p "rate").
  - destruct tl as [|x tl']; [discriminate|]. intros [= ->]. right. left. reflexivity.
  - intros H. right. apply IH, H.
Qed.

Lemma htb_rate_of_lines_token (lines : list string) (b : string) :
  htb_rate_of_lines lines = Ok b -> b = "no limit" \/ is_token b = true.
Proof.
  induction lines as [|line rest IH]; simpl.
  - intros [= <-]. left. reflexivity.
  - destruct (PyStr.contains "class htb 1:10" line); [|exact IH].
    rewrite rate_scan_from_start.
    destruct (rate_scan_suffix (PyStr.split line)) as [r|] eqn:E; [|exact IH].
    intros ->. right. apply rate_scan_suffix_in in E.
    pose proof (split_tokens line) as Ht. rewrite Forall_forall in Ht.
    apply Ht. apply list_elem_of_In. exact E.
Qed.

(** A rate the reader returns is the sentinel or a single word. *)
Lemma htb_rate_of_output_token (o : option string) (b : string) :
  htb_rate_of_output o = Ok b -> b = "no limit" \/ is_token b = true.
Proof.
  unfold htb_rate_of_output. destruct o as [out|]; [|intros [= <-]; auto].
  destruct (truthy (Some out)); [apply htb_rate_of_lines_token | intros [= <-]; auto].
Qed.

Lemma truthy_nonempty (s : string) : s <> "" -> truthy (Some s) = true.
Proof. intros H. unfold truthy. rewrite (eqb_nonempty _ H). reflexivity. Qed.

Lemma class_words_tokens (b : string) :
  is_token b = true -> Forall (fun t => is_token t = true) (Ref.class_words b).
Proof. intros H. unfold Ref.class_words. repeat (constructor; [first [exact H | reflexivity]|]). constructor. Qed.

Lemma netem_words_tokens (d j l : string) :
  is_token d = true -> is_token j = true -> is_token l = true ->
  Forall (fun t => is_token t = true) (Ref.netem_words d j l).
Proof.
  intros Hd Hj Hl. unfold Ref.netem_words.
  repeat (constructor; [first [exact Hd | exact Hj | exact Hl | reflexivity]|]). constructor.
Qed.

(** The class listing of the reference backend reads back as its rate. *)
Lemma class_text_read (b : string) :
  is_token b = true ->
  htb_rate_of_output (Some (PyStr.strip (PyStr.join (Ref.class_words b)))) = Ok b.
Proof.
  intros Hb. pose proof (class_words_tokens b Hb) as Htok.
  rewrite (strip_join _ Htok). unfold htb_rate_of_output.
  rewrite truthy_nonempty by (apply join_nonempty; [exact Htok | discriminate]).
  unfold PyStr.splitlines.
  rewrite (splitlines_go_no_linebreak _ _ (no_linebreak_join _ Htok)).
  change ("" +:+ PyStr.join (Ref.class_words b)) with (PyStr.join (Ref.class_words b)).
  rewrite eqb_nonempty by (apply join_nonempty; [exact Htok | discriminate]).
  cbn [htb_rate_of_lines].
  replace (PyStr.contains "class htb 1:10" (PyStr.join (Ref.class_words b))) with true
    by reflexivity.
  rewrite rate_scan_from_start, (split_join _ Htok). reflexivity.
Qed.

(** The qdisc listing of the reference backend reads back as its rule. *)
Lemma netem_text_read (d j l : string) :
  is_token d = true -> is_token j = true -> jitter_shaped j = true -> is_token l = true ->
  netem_params_of_output
    (Some (PyStr.strip (PyStr.join Ref.htb_words +:+ Ref.newline
                        +:+ PyStr.join (Ref.netem_words d j l))))
  = Ok (netem_dict d j l).
Proof.
  intros Hd Hj Hsh Hl. pose proof (netem_words_tokens d j l Hd Hj Hl) as Htok.
  assert (Hne : PyStr.join (Ref.netem_words d j l) <> "")
    by (apply join_nonempty; [exact Htok | discriminate]).
  assert (Hstrip : PyStr.strip (PyStr.join Ref.htb_words +:+ Ref.newline
                                +:+ PyStr.join (Ref.netem_words d j l))
                   = PyStr.join Ref.htb_words +:+ Ref.newline
                     +:+ PyStr.join (Ref.netem_words d j l)).
  { unfold PyStr.strip.
    replace (PyStr.lstrip (PyStr.join Ref.htb_words +:+ Ref.newline
                           +:+ PyStr.join (Ref.netem_words d j l)))
      with (PyStr.join Ref.htb_words +:+ Ref.newline +:+ PyStr.join (Ref.netem_words d j l))
      by reflexivity.
    apply rstrip_app; [|apply append_nonempty_r; exact Hne].
    apply rstrip_app; [apply rstrip_join; exact Htok | exact Hne]. }
  rewrite Hstrip. unfold netem_params_of_output.
  rewrite truthy_nonempty by (apply append_nonempty_r, append_nonempty_r; exact Hne).
  unfold PyStr.splitlines.
  rewrite splitlines_go_newline by reflexivity.
  rewrite (splitlines_go_no_linebreak _ _ (no_linebreak_join _ Htok)).
  change ("" +:+ PyStr.join (Ref.netem_words d j l)) with (PyStr.join (Ref.netem_words d j l)).
  rewrite (eqb_nonempty _ Hne).
  cbn [netem_params_of_lines].
  replace (PyStr.contains "netem" ("" +:+ PyStr.join Ref.htb_words)) with false by reflexivity.
  replace (PyStr.contains "netem" (PyStr.join (Ref.netem_words d j l))) with true by reflexivity.
  rewrite netem_loop_from_start, (split_join _ Htok).
  unfold Ref.netem_words. cbn [netem_scan String.eqb Ascii.eqb Bool.eqb].
  rewrite Hsh. vm_compute. reflexivity.
Qed.

Lemma upd_same (i : string) (v : Ref.dev) (s : Ref.state) : Ref.upd i v s i = v.
Proof. unfold Ref.upd. rewrite String.eqb_refl. reflexivity. Qed.

Lemma ref_read_rate (s : Ref.state) (i : string) :
  read_rate Ref.backend s i = htb_rate_of_output (Some (PyStr.strip (Ref.class_text (s i)))).
Proof. reflexivity. Qed.

Lemma ref_read_netem (s : Ref.state) (i : string) :
  read_netem Ref.backend s i
  = netem_params_of_output (Some (PyStr.strip (Ref.qdisc_text (s i)))).
Proof. reflexivity. Qed.

Lemma ref_rebuilt (i b d j l : string) (s : Ref.state) :
  rebuilt Ref.backend i b d j l s i
  = Ref.mkDev true (Some b) (Some (d, j, l)) (Ref.up (s i)).
Proof.
  unfold rebuilt, exec, Ref.backend.
  change (Ref.parse ["tc"; "qdisc"; "del"; "dev"; i; "root"]) with (Ref.QdiscDel i).
  change (Ref.parse ["tc"; "qdisc"; "add"; "dev"; i; "root"; "handle"; "1:"; "htb";
                     "default"; "10"]) with (Ref.RootAdd i).
  change (Ref.parse ["tc"; "class"; "add"; "dev"; i; "parent"; "1:"; "classid"; "1:10";
                     "htb"; "rate"; b]) with (Ref.ClassAdd i b).
  change (Ref.parse ["tc"; "qdisc"; "add"; "dev"; i; "parent"; "1:10"; "handle"; "10:";
                     "netem"; "delay"; d; j; "loss"; l]) with (Ref.NetemAdd i d j l).
  cbn [Ref.step].
  destruct (Ref.root (s i)) eqn:Hroot; cbn [snd];
    rewrite ?upd_same, ?Hroot; cbn [snd Ref.root Ref.cls Ref.netem Ref.up Ref.is_some negb andb];
    rewrite ?upd_same; cbn [snd Ref.root Ref.cls Ref.netem Ref.up Ref.is_some negb andb];
    rewrite ?upd_same; cbn [snd Ref.root Ref.cls Ref.netem Ref.up Ref.is_some negb andb];
    rewrite ?upd_same; reflexivity.
Qed.

Lemma netem_dict_inj (d j l d' j' l' : string) :
  netem_dict d j l = netem_dict d' j' l' -> d = d' /\ j = j' /\ l = l'.
Proof.
  intros H.
  assert (H1 := f_equal (fun m => m !! "delay") H).
  assert (H2 := f_equal (fun m => m !! "jitter") H).
  assert (H3 := f_equal (fun m => m !! "loss") H).
  vm_compute in H1, H2, H3. repeat split; congruence.
Qed.

(** The reference backend is a shaping backend. *)
Lemma ref_shaping_laws : shaping_laws Ref.backend.
Proof.
  constructor.
  - reflexivity.
  - reflexivity.
  - intros i d j l s. rewrite !ref_read_rate. do 3 f_equal.
    unfold exec, Ref.backend.
    change (Ref.parse ["tc"; "qdisc"; "change"; "dev"; i; "handle"; "10:"; "netem";
                       "delay"; d; j; "loss"; l]) with (Ref.NetemChange i d j l).
    cbn [Ref.step]. destruct (Ref.is_some (Ref.netem (s i))); cbn [snd];
      rewrite ?upd_same; reflexivity.
  - intros i b s. rewrite !ref_read_netem. do 3 f_equal.
    unfold exec, Ref.backend.
    change (Ref.parse ["tc"; "class"; "change"; "dev"; i; "parent"; "1:"; "classid"; "1:10";
                       "htb"; "rate"; b]) with (Ref.ClassChange i b).
    cbn [Ref.step]. destruct (Ref.is_some (Ref.cls (s i))); cbn [snd];
      rewrite ?upd_same; reflexivity.
  - intros i b d j l s0 s Hread Hlim.
    rewrite ref_read_rate in Hread.
    destruct (htb_rate_of_output_token _ _ Hread) as [? | Htok]; [contradiction|].
    rewrite ref_read_rate, ref_rebuilt. apply class_text_read. exact Htok.
  - intros i b d j l s0 s Hread.
    rewrite ref_read_netem in Hread.
    destruct (netem_params_of_output_wf _ _ Hread) as (d' & j' & l' & Heq & Hd & Hj & Hsh & Hl).
    apply netem_dict_inj in Heq as (-> & -> & ->).
    rewrite ref_read_netem, ref_rebuilt. apply netem_text_read; assumption.
Qed.

Lemma set_netem_keeps_rate_witness :
  let rw := set_netem Ref.backend WAN2 (Some "100ms") (Some "5ms") (Some "1%") shaped_world in
  rebuild_rates (new_events shaped_world (snd rw))
    = map (fun _ => (WAN2, if String.eqb "50mbit" "no limit" then "50mbit" else "50mbit"))
          (rebuild_starts (new_events shaped_world (snd rw))) /\
  ("50mbit" <> "no limit" -> fst (get_htb_rate Ref.backend WAN2 (snd rw)) = Ok "50mbit").
Proof.
  apply (set_netem_keeps_rate Ref.state Ref.backend ref_shaping_laws WAN2
           (Some "100ms") (Some "5ms") (Some "1%") shaped_world "50mbit" "50mbit").
  - vm_compute. reflexivity.
  - intros H. discriminate H.
Defined.

Lemma set_htb_rate_keeps_netem_witness :
  let rw := set_htb_rate Ref.backend WAN2 "10mbit" shaped_world in
  exists d j l,
    netem_dict "30ms" "0ms" "0%" = netem_dict d j l /\
    netem_writes (new_events shaped_world (snd rw))
      = map (fun _ => (WAN2, d, j, l)) (rebuild_starts (new_events shaped_world (snd rw))) /\
    fst (get_netem_params Ref.backend WAN2 (snd rw)) = Ok (netem_dict "30ms" "0ms" "0%").
Proof.
  apply (set_htb_rate_keeps_netem Ref.state Ref.backend ref_shaping_laws WAN2 "10mbit"
           shaped_world (netem_dict "30ms" "0ms" "0%")).
  vm_compute. reflexivity.
Defined.

(** The default profiles give the bandwidth the rebuild falls back to. *)
Example default_bandwidths :
  default_param WAN1 "bandwidth" = Ok "100mbit" /\
  default_param WAN2 "bandwidth" = Ok "50mbit" /\
  default_param "eth0" "bandwidth" = Raise KeyError.
Proof. repeat split. Qed.

(** On a fresh primary interface the change fails, no rate is in place,
    and the rebuild creates the class with the default bandwidth. *)
Example set_netem_falls_back_to_default :
  let rw := set_netem Ref.backend WAN1 (Some "200ms") (Some "0ms") (Some "0%")
              (mkWorld Ref.fresh []) in
  fst (get_htb_rate Ref.backend WAN1 (mkWorld Ref.fresh [])) = Ok "no limit" /\
  rebuild_rates (log (snd rw)) = [(WAN1, "100mbit")] /\
  fst (get_htb_rate Ref.backend WAN1 (snd rw)) = Ok "100mbit".
Proof. vm_compute. repeat split. Qed.

(** ** More on the impairment reader *)

(** X1.  Whenever [get_netem_params] returns, the dict is exactly the
    three parameters, each a single non-empty word without white space,
    and the jitter ends in [ms]. *)
Theorem get_netem_params_returns_words :
  forall St (backend : list string -> St -> option string * St)
         (interface : string) (w w' : World St) (p : gmap string string),
    get_netem_params backend interface w = (Ok p, w') ->
    exists d j l,
      p = netem_dict d j l /\
      is_token d = true /\ is_token j = true /\ is_token l = true /\
      PyStr.endswith j "ms" = true /\ PyStr.startswith j "loss" = false.
Proof.
  intros St backend interface w w' p H.
  apply get_netem_params_inv in H. destruct H as (o & _ & _ & Hp).
  destruct (netem_params_of_output_wf _ _ Hp) as (d & j & l & -> & Hd & Hj & Hsh & Hl).
  exists d, j, l. unfold jitter_shaped in Hsh.
  apply andb_true_iff in Hsh as [H1 H2]. apply negb_true_iff in H2. auto 10.
Qed.

Lemma get_netem_params_returns_words_witness :
  exists d j l,
    netem_dict "30ms" "5ms" "2%" = netem_dict d j l /\
    is_token d = true /\ is_token j = true /\ is_token l = true /\
    PyStr.endswith j "ms" = true /\ PyStr.startswith j "loss" = false.
Proof.
  apply (get_netem_params_returns_words unit (scripted (netem_listing "5ms")) WAN2 w0
           (snd (get_netem_params (scripted (netem_listing "5ms")) WAN2 w0))).
  vm_compute. reflexivity.
Defined.

Lemma netem_scan_raises (rest : list string) (params : gmap string string) (e : exn) :
  netem_scan rest params = Raise e ->
  e = IndexError /\ (last rest = Some "delay" \/ last rest = Some "loss").
Proof.
  assert (Hgen : forall n rest params, length rest <= n ->
             netem_scan rest params = Raise e ->
             e = IndexError /\ (last rest = Some "delay" \/ last rest = Some "loss")).
  { clear rest params. induction n as [|n IH]; intros rest params Hlen Hscan.
    - destruct rest; simpl in *; [discriminate | lia].
    - destruct rest as [|p tl]; simpl in Hscan; [discriminate|].
      simpl in Hlen.
      destruct (String.eqb_spec p "delay") as [-> | Hnd].
      + destruct tl as [|d tl2]; [injection Hscan as <-; auto|].
        simpl in Hlen. destruct tl2 as [|j tl3]; [simpl in Hscan; discriminate|].
        simpl in Hlen.
        destruct (jitter_shaped j).
        * destruct tl3 as [|x tl4]; [simpl in Hscan; discriminate|].
          destruct (IH (x :: tl4) _ ltac:(simpl in *; lia) Hscan) as [He Hl].
          split; [exact He|]. exact Hl.
        * destruct (IH (j :: tl3) _ ltac:(simpl in *; lia) Hscan) as [He Hl].
          split; [exact He|]. exact Hl.
      + destruct (String.eqb_spec p "loss") as [-> | Hnl].
        * destruct tl as [|l tl2]; [injection Hscan as <-; auto|].
          simpl in Hlen. destruct tl2 as [|x tl3]; [simpl in Hscan; discriminate|].
          destruct (IH (x :: tl3) _ ltac:(simpl in *; lia) Hscan) as [He Hl].
          split; [exact He|]. exact Hl.
        * destruct tl as [|x tl2]; [simpl in Hscan; discriminate|].
          destruct (IH (x :: tl2) _ ltac:(simpl in *; lia) Hscan) as [He Hl].
          split; [exact He|]. exact Hl. }
  apply (Hgen (length rest)). lia.
Qed.

Lemma netem_params_of_lines_raises (lines : list string) (e : exn) :
  netem_params_of_lines lines = Raise e ->
  e = IndexError /\
  exists line, In line lines /\ PyStr.contains "netem" line = true /\
    (last (PyStr.split line) = Some "delay" \/ last (PyStr.split line) = Some "loss").
Proof.
  induction lines as [|line rest IH]; simpl; [discriminate|].
  destruct (PyStr.contains "netem" line) eqn:Hc.
  - rewrite netem_loop_from_start.
    destruct (netem_scan (PyStr.split line) ∅) as [r|e'] eqn:E; [discriminate|].
    intros [= ->]. destruct (netem_scan_raises _ _ _ E) as [-> Hl].
    split; [reflexivity|]. exists line. auto.
  - intros H. destruct (IH H) as (He & l & Hin & Hl). split; [exact He|].
    exists l. auto.
Qed.

(** X2.  [get_netem_params] raises nothing but [IndexError], and only
    when the listing was printed and one of its lines mentions [netem]
    and ends in the word [delay] or [loss]. *)
Theorem get_netem_params_raises_only_dangling :
  forall St (backend : list string -> St -> option string * St)
         (interface : string) (w w' : World St) (e : exn),
    get_netem_params backend interface w = (Raise e, w') ->
    e = IndexError /\
    exists out line,
      fst (backend ["tc"; "qdisc"; "show"; "dev"; interface] (sys w)) = Some out /\
      In line (PyStr.splitlines (PyStr.strip out)) /\
      PyStr.contains "netem" line = true /\
      (last (PyStr.split line) = Some "delay" \/ last (PyStr.split line) = Some "loss").
Proof.
  intros St backend interface w w' e H.
  apply get_netem_params_inv in H. destruct H as (o & Hb & _ & Hp).
  unfold netem_params_of_output in Hp.
  destruct o as [out|]; [|discriminate]. simpl in Hp.
  destruct (negb (String.eqb (PyStr.strip out) "")); [|discriminate].
  destruct (netem_params_of_lines_raises _ _ Hp) as (He & line & Hin & Hc & Hl).
  split; [exact He|]. exists out, line. rewrite Hb. auto.
Qed.

Lemma get_netem_params_raises_only_dangling_witness :
  IndexError = IndexError /\
  exists out line,
    fst (scripted truncated_listing ["tc"; "qdisc"; "show"; "dev"; WAN1] (sys w0)) = Some out /\
    In line (PyStr.splitlines (PyStr.strip out)) /\
    PyStr.contains "netem" line = true /\
    (last (PyStr.split line) = Some "delay" \/ last (PyStr.split line) = Some "loss").
Proof.
  apply (get_netem_params_raises_only_dangling unit (scripted truncated_listing) WAN1 w0
           (snd (get_netem_params (scripted truncated_listing) WAN1 w0))).
  vm_compute. reflexivity.
Defined.

(** X3.  Only the first line that mentions [netem] is read: two listings
    that agree up to and including that line give the same result,
    whatever follows it. *)
Theorem get_netem_params_first_line_only :
  forall St (backend1 backend2 : list string -> St -> option string * St)
         (interface out1 out2 : string) (w1 w2 : World St)
         (before rest1 rest2 : list string) (line : string),
    fst (backend1 ["tc"; "qdisc"; "show"; "dev"; interface] (sys w1)) = Some out1 ->
    fst (backend2 ["tc"; "qdisc"; "show"; "dev"; interface] (sys w2)) = Some out2 ->
    PyStr.splitlines (PyStr.strip out1) = before ++ line :: rest1 ->
    PyStr.splitlines (PyStr.strip out2) = before ++ line :: rest2 ->
    Forall (fun l => PyStr.contains "netem" l = false) before ->
    PyStr.contains "netem" line = true ->
    fst (get_netem_params backend1 interface w1) = fst (get_netem_params backend2 interface w2).
Proof.
  intros St b1 b2 interface out1 out2 w1 w2 before rest1 rest2 line
         Ho1 Ho2 Hl1 Hl2 Hbefore Hline.
  unfold get_netem_params, bind, run_command, lift.
  destruct (b1 _ (sys w1)) as [o1 s1]. destruct (b2 _ (sys w2)) as [o2 s2].
  simpl in Ho1, Ho2. subst o1 o2. cbn [fst fmap option_fmap option_map].
  unfold netem_params_of_output.
  rewrite (splitlines_nonempty_truthy _ _ Hl1) by (destruct before; discriminate).
  rewrite (splitlines_nonempty_truthy _ _ Hl2) by (destruct before; discriminate).
  rewrite Hl1, Hl2, !(netem_params_of_lines_skip _ _ Hbefore).
  simpl. rewrite Hline. reflexivity.
Qed.

Lemma get_netem_params_first_line_only_witness :
  fst (get_netem_params (scripted listing_one_rule) WAN1 w0)
  = fst (get_netem_params (scripted listing_two_rules) WAN1 w0).
Proof.
  apply (get_netem_params_first_line_only unit (scripted listing_one_rule)
           (scripted listing_two_rules) WAN1 text_one_rule text_two_rules w0 w0
           ["qdisc htb 1: root refcnt 2"] [] ["qdisc netem 20: parent 1:20 limit 1000 delay"]
           "qdisc netem 10: parent 1:10 limit 1000 delay 30ms loss 2%");
    try reflexivity.
  repeat constructor.
Defined.

(** ** More on the rate reader *)

Lemma rate_scan_suffix_none (parts : list string) :
  Forall (fun t => t <> "rate") parts -> rate_scan_suffix parts = None.
Proof.
  intros H. rewrite <- (app_nil_r parts). rewrite (rate_scan_suffix_skip _ _ H). reflexivity.
Qed.

Lemma htb_rate_of_lines_skip_unrated (before rest : list string) :
  Forall (fun l => PyStr.contains "class htb 1:10" l = false \/
                   Forall (fun t => t <> "rate") (PyStr.split l)) before ->
  htb_rate_of_lines (before ++ rest) = htb_rate_of_lines rest.
Proof.
  induction before as [|l before IH]; intros H; [reflexivity|].
  apply Forall_cons in H as [Hl Hb]. simpl.
  destruct (PyStr.contains "class htb 1:10" l) eqn:Hc.
  - destruct Hl as [Hl | Hl]; [discriminate|].
    rewrite rate_scan_from_start, (rate_scan_suffix_none _ Hl). apply IH, Hb.
  - apply IH, Hb.
Qed.

(** X4.  [get_htb_rate] returns the word after the first word [rate] of
    the first line that contains the text [class htb 1:10] and has a word
    [rate]; lines before it that lack the text or the word are passed
    over.  The text is searched as a substring, so the line of a class
    [1:100] qualifies as well. *)
Theorem get_htb_rate_first_rate :
  forall St (backend : list string -> St -> option string * St)
         (interface out : string) (w : World St)
         (before rest pre post : list string) (line r : string),
    fst (backend ["tc"; "class"; "show"; "dev"; interface] (sys w)) = Some out ->
    PyStr.splitlines (PyStr.strip out) = before ++ line :: rest ->
    Forall (fun l => PyStr.contains "class htb 1:10" l = false \/
                     Forall (fun t => t <> "rate") (PyStr.split l)) before ->
    PyStr.contains "class htb 1:10" line = true ->
    PyStr.split line = pre ++ "rate" :: r :: post ->
    Forall (fun t => t <> "rate") pre ->
    fst (get_htb_rate backend interface w) = Ok r.
Proof.
  intros St backend interface out w before rest pre post line r
         Hout Hlines Hbefore Hline Hsplit Hpre.
  unfold get_htb_rate, bind, run_command, lift.
  destruct (backend _ (sys w)) as [o s']. simpl in Hout. subst o.
  cbn [fst fmap option_fmap option_map].
  unfold htb_rate_of_output.
  rewrite (splitlines_nonempty_truthy _ _ Hlines) by (destruct before; discriminate).
  rewrite Hlines, (htb_rate_of_lines_skip_unrated _ _ Hbefore). simpl. rewrite Hline.
  rewrite rate_scan_from_start, Hsplit, (rate_scan_suffix_skip _ _ Hpre). reflexivity.
Qed.

Lemma get_htb_rate_first_rate_witness :
  fst (get_htb_rate (scripted listing_other_class) WAN1 w0) = Ok "1Gbit".
Proof.
  apply (get_htb_rate_first_rate unit (scripted listing_other_class) WAN1 text_other_class w0
           ["class htb 1:10 root prio 0"] []
           ["class"; "htb"; "1:100"; "root"; "prio"; "0"]
           ["ceil"; "1Gbit"; "burst"; "1375b"; "cburst"; "1375b"]
           "class htb 1:100 root prio 0 rate 1Gbit ceil 1Gbit burst 1375b cburst 1375b" "1Gbit");
    try reflexivity.
  - constructor; [|constructor]. right.
    change (PyStr.split "class htb 1:10 root prio 0")
      with ["class"; "htb"; "1:10"; "root"; "prio"; "0"].
    repeat (constructor; [discriminate|]). constructor.
  - repeat (constructor; [discriminate|]). constructor.
Defined.

Lemma rate_scan_suffix_raises (rest : list string) (e : exn) :
  rate_scan_suffix rest = Some (Raise e) -> e = IndexError /\ last rest = Some "rate".
Proof.
  induction rest as [|p tl IH]; simpl; [discriminate|].
  destruct (String.eqb_spec p "rate") as [-> | Hp].
  - destruct tl as [|x tl']; [|discriminate]. intros [= <-]. auto.
  - intros H. destruct (IH H) as [He Hl]. split; [exact He|].
    destruct tl; [discriminate|]. exact Hl.
Qed.

Lemma htb_rate_of_lines_raises (lines : list string) (e : exn) :
  htb_rate_of_lines lines = Raise e ->
  e = IndexError /\
  exists line, In line lines /\ PyStr.contains "class htb 1:10" line = true /\
               last (PyStr.split line) = Some "rate".
Proof.
  induction lines as [|line rest IH]; simpl; [discriminate|].
  destruct (PyStr.contains "class htb 1:10" line) eqn:Hc.
  - rewrite rate_scan_from_start.
    destruct (rate_scan_suffix (PyStr.split line)) as [r|] eqn:E.
    + intros ->. destruct (rate_scan_suffix_raises _ _ E) as [-> Hl].
      split; [reflexivity|]. exists line. auto.
    + intros H. destruct (IH H) as (He & l & Hin & Hl). split; [exact He|]. exists l. auto.
  - intros H. destruct (IH H) as (He & l & Hin & Hl). split; [exact He|]. exists l. auto.
Qed.

(** X5.  What [get_htb_rate] gives: the sentinel [no limit] or a single
    non-empty word without white space when it returns; when it raises,
    [IndexError] and nothing else, and then some line of the listing
    contains [class htb 1:10] and ends in the word [rate]. *)
Theorem get_htb_rate_result :
  forall St (backend : list string -> St -> option string * St)
         (interface : string) (w w' : World St) (r : res string),
    get_htb_rate backend interface w = (r, w') ->
    (exists b, r = Ok b /\ (b = "no limit" \/ is_token b = true)) \/
    (r = Raise IndexError /\
     exists out line,
       fst (backend ["tc"; "class"; "show"; "dev"; interface] (sys w)) = Some out /\
       In line (PyStr.splitlines (PyStr.strip out)) /\
       PyStr.contains "class htb 1:10" line = true /\
       last (PyStr.split line) = Some "rate").
Proof.
  intros St backend interface w w' r H.
  apply get_htb_rate_inv in H. destruct H as (o & Hb & _ & Hp).
  destruct r as [b|e].
  - left. exists b. split; [reflexivity|]. apply (htb_rate_of_output_token _ _ Hp).
  - right. unfold htb_rate_of_output in Hp.
    destruct o as [out|]; [|discriminate]. simpl in Hp.
    destruct (negb (String.eqb (PyStr.strip out) "")); [|discriminate].
    destruct (htb_rate_of_lines_raises _ _ Hp) as (-> & line & Hin & Hc & Hl).
    split; [reflexivity|]. exists out, line. rewrite Hb. auto.
Qed.

Lemma get_htb_rate_result_witness :
  (exists b, fst (get_htb_rate (scripted (class_listing "50mbit")) WAN2 w0) = Ok b /\
             (b = "no limit" \/ is_token b = true)) \/
  (fst (get_htb_rate (scripted (class_listing "50mbit")) WAN2 w0) = Raise IndexError /\
   exists out line,
     fst (scripted (class_listing "50mbit") ["tc"; "class"; "show"; "dev"; WAN2] (sys w0))
       = Some out /\
     In line (PyStr.splitlines (PyStr.strip out)) /\
     PyStr.contains "class htb 1:10" line = true /\
     last (PyStr.split line) = Some "rate").
Proof.
  apply (get_htb_rate_result unit (scripted (class_listing "50mbit")) WAN2 w0
           (snd (get_htb_rate (scripted (class_listing "50mbit")) WAN2 w0))).
  vm_compute. reflexivity.
Defined.

(** ** More on the link status reader *)

Lemma prefix_contains (n s : string) : String.prefix n s = true -> PyStr.contains n s = true.
Proof. intros H. destruct s; simpl in *; rewrite H; reflexivity. Qed.

Lemma prefix_empty_r (n : string) : String.prefix n "" = true -> n = "".
Proof. destruct n; [reflexivity | discriminate]. Qed.

Lemma contains_lstrip_conv (n s : string) :
  starts_solid n = true -> PyStr.contains n s = true -> PyStr.contains n (PyStr.lstrip s) = true.
Proof.
  intros Hn. induction s as [|c s IH]; [auto|].
  simpl PyStr.lstrip. destruct (PyStr.is_space c) eqn:Hc; [|auto].
  rewrite contains_step. intros H. apply orb_true_iff in H as [H|H]; [|auto].
  destruct n as [|c0 n]; [discriminate|]. simpl in H, Hn.
  destruct (Ascii.ascii_dec c0 c) as [->|]; [|discriminate].
  rewrite Hc in Hn. discriminate.
Qed.

Lemma prefix_rstrip_conv (n s : string) :
  ends_solid n = true -> String.prefix n s = true -> String.prefix n (PyStr.rstrip s) = true.
Proof.
  revert n. induction s as [|c s IH]; intros n Hn H.
  - apply prefix_empty_r in H. subst n. discriminate.
  - destruct n as [|c' n]; [discriminate|]. simpl in H.
    destruct (Ascii.ascii_dec c' c) as [->|]; [|discriminate].
    simpl PyStr.rstrip. destruct n as [|c2 n2].
    + simpl in Hn. apply negb_true_iff in Hn. rewrite Hn, andb_false_r.
      simpl. destruct (Ascii.ascii_dec c c); [apply prefix_nil | congruence].
    + assert (Hn' : ends_solid (String c2 n2) = true) by exact Hn.
      pose proof (IH _ Hn' H) as Hp.
      destruct (String.eqb_spec (PyStr.rstrip s) "") as [E|E].
      * rewrite E in Hp. discriminate.
      * simpl. destruct (Ascii.ascii_dec c c); [exact Hp | congruence].
Qed.

Lemma contains_rstrip_conv (n s : string) :
  ends_solid n = true -> PyStr.contains n s = true -> PyStr.contains n (PyStr.rstrip s) = true.
Proof.
  intros Hn. induction s as [|c s IH]; intros H.
  - apply contains_empty in H. subst n. discriminate.
  - rewrite contains_step in H. apply orb_true_iff in H as [H|H].
    + apply prefix_contains, prefix_rstrip_conv; assumption.
    + specialize (IH H). simpl PyStr.rstrip.
      destruct (String.eqb_spec (PyStr.rstrip s) "") as [E|E].
      * rewrite E in IH. apply contains_empty in IH. subst n. discriminate.
      * simpl. apply contains_cons. exact IH.
Qed.

(** Stripping a text neither adds nor removes an occurrence of a text
    that begins and ends solid. *)
Lemma contains_strip_eq (n s : string) :
  starts_solid n = true -> ends_solid n = true ->
  PyStr.contains n (PyStr.strip s) = PyStr.contains n s.
Proof.
  intros H1 H2. destruct (PyStr.contains n s) eqn:E.
  - apply contains_rstrip_conv; [exact H2|]. apply contains_lstrip_conv; assumption.
  - destruct (PyStr.contains n (PyStr.strip s)) eqn:E'; [|reflexivity].
    apply contains_strip in E'. congruence.
Qed.

(** X6.  [get_interface_status] never raises.  When the listing command
    exits with status 0 the result is read off what it printed: [UP] if
    the text has [state UP], else [DOWN] if it has [state DOWN], else
    [UNKNOWN]; the blanks around the text make no difference.  When the
    command fails the result is [UNKNOWN]. *)
Theorem get_interface_status_reads_state :
  forall St (backend : list string -> St -> option string * St)
         (interface : string) (w : World St),
    fst (get_interface_status backend interface w)
    = Ok match fst (backend ["ip"; "link"; "show"; interface] (sys w)) with
         | Some out =>
             if PyStr.contains "state UP" out then "UP"
             else if PyStr.contains "state DOWN" out then "DOWN"
             else "UNKNOWN"
         | None => "UNKNOWN"
         end.
Proof.
  intros St backend interface w.
  unfold get_interface_status, bind, run_command, ret.
  destruct (backend _ (sys w)) as [[out|] s']; [|reflexivity].
  cbn [fst fmap option_fmap option_map]. f_equal.
  unfold status_of_output.
  rewrite <- (contains_strip_eq "state UP" out) by reflexivity.
  rewrite <- (contains_strip_eq "state DOWN" out) by reflexivity.
  unfold truthy. destruct (String.eqb_spec (PyStr.strip out) "") as [E|E]; [|reflexivity].
  rewrite E. reflexivity.
Qed.

(** ** More on the mutators *)

Lemma or_current_netem_dict (arg : option string) (d j l : string) :
  or_current arg (netem_dict d j l) "delay" = Ok (or_value arg d) /\
  or_current arg (netem_dict d j l) "jitter" = Ok (or_value arg j) /\
  or_current arg (netem_dict d j l) "loss" = Ok (or_value arg l).
Proof.
  unfold or_current, or_value. destruct arg as [a|]; [destruct (truthy (Some a))|];
    repeat split.
Qed.

(** X7.  [set_netem] fills each argument that is [None] or empty with the
    value it has just read: every emulation rule it writes (the in-place
    change, and the rule of the rebuild) carries, field by field, the
    argument when it is given and the value read otherwise.  Called with
    no argument it writes back what it read. *)
Theorem set_netem_fills_from_current :
  forall St (backend : list string -> St -> option string * St)
         (i : string) (d j l : option string) (w w1 : World St) (dc jc lc : string),
    get_netem_params backend i w = (Ok (netem_dict dc jc lc), w1) ->
    let rw := set_netem backend i d j l w in
    Forall (fun x => x = (i, or_value d dc, or_value j jc, or_value l lc))
           (netem_writes (new_events w (snd rw))) /\
    netem_writes (new_events w (snd rw)) <> [].
Proof.
  intros St backend i d j l w w1 dc jc lc Hget rw. subst rw.
  destruct (set_netem backend i d j l w) as [r w'] eqn:Hrun. cbn [snd].
  unfold set_netem in Hrun.
  apply bind_inv in Hrun. rewrite Hget in Hrun.
  destruct Hrun as [(a & wa & [= <- <-] & Hrun) | (? & [=] & _)].
  apply get_netem_params_inv in Hget. destruct Hget as (o1 & Hb1 & Hl1 & Hp1).
  destruct (or_current_netem_dict d dc jc lc) as (Ed & _ & _).
  destruct (or_current_netem_dict j dc jc lc) as (_ & Ej & _).
  destruct (or_current_netem_dict l dc jc lc) as (_ & _ & El).
  rewrite Ed, Ej, El in Hrun.
  step_bind Hrun as d' wb Hm; apply lift_inv in Hm; destruct Hm as [[= <-] ->].
  step_bind Hrun as j' wb Hm; apply lift_inv in Hm; destruct Hm as [[= <-] ->].
  step_bind Hrun as l' wb Hm; apply lift_inv in Hm; destruct Hm as [[= <-] ->].
  step_bind Hrun as changed wc Hm;
    apply run_command_inv in Hm; destruct Hm as (o2 & Hb2 & Ho2 & Hl2); [|discriminate].
  destruct (truthy changed).
  { apply ret_inv in Hrun. destruct Hrun as [-> ->]. events.
    split; [vm_compute; repeat constructor | vm_compute; discriminate]. }
  step_bind Hrun as rate wd Hm;
    apply get_htb_rate_inv in Hm; destruct Hm as (o3 & Hb3 & Hl3 & Hp3).
  2:{ events. split; [vm_compute; repeat constructor | vm_compute; discriminate]. }
  step_bind Hrun as bw we Hm.
  2:{ destruct (String.eqb rate "no limit");
        [apply lift_inv in Hm | apply ret_inv in Hm]; destruct Hm as [_ ->];
        events; (split; [vm_compute; repeat constructor | vm_compute; discriminate]). }
  assert (we = wd) as ->.
  { destruct (String.eqb rate "no limit");
      [apply lift_inv in Hm | apply ret_inv in Hm]; destruct Hm as [_ ->]; reflexivity. }
  destruct (setup_qdiscs_runs backend i bw (or_value d dc) (or_value j jc) (or_value l lc) wd)
    as (q1 & q2 & q3 & q4 & wf & Hq & Hlq).
  rewrite Hrun in Hq. injection Hq as -> <-.
  events. split; [vm_compute; repeat constructor | vm_compute; discriminate].
Qed.

Lemma set_netem_fills_from_current_witness :
  let rw := set_netem (scripted (netem_listing "5ms")) WAN2 (Some "100ms") None (Some "") w0 in
  Forall (fun x => x = (WAN2, or_value (Some "100ms") "30ms", or_value None "5ms",
                        or_value (Some "") "2%"))
         (netem_writes (new_events w0 (snd rw))) /\
  netem_writes (new_events w0 (snd rw)) <> [].
Proof.
  apply (set_netem_fills_from_current unit (scripted (netem_listing "5ms")) WAN2
           (Some "100ms") None (Some "") w0
           (snd (get_netem_params (scripted (netem_listing "5ms")) WAN2 w0))
           "30ms" "5ms" "2%").
  vm_compute. reflexivity.
Defined.

Lemma netem_params_of_output_raises (o : option string) (e : exn) :
  netem_params_of_output o = Raise e -> e = IndexError.
Proof.
  unfold netem_params_of_output. destruct o as [out|]; [|discriminate].
  destruct (truthy (Some out)); [|discriminate].
  intros H. apply (netem_params_of_lines_raises _ _ H).
Qed.

Lemma htb_rate_of_output_raises (o : option string) (e : exn) :
  htb_rate_of_output o = Raise e -> e = IndexError.
Proof.
  unfold htb_rate_of_output. destruct o as [out|]; [|discriminate].
  destruct (truthy (Some out)); [|discriminate].
  intros H. apply (htb_rate_of_lines_raises _ _ H).
Qed.

Lemma or_current_raises (arg : option string) (cur : gmap string string) (key : string) (e : exn) :
  params_wf cur -> key = "delay" \/ key = "jitter" \/ key = "loss" ->
  or_current arg cur key = Raise e -> False.
Proof.
  intros (d & j & l & -> & _) Hkey H.
  destruct (or_current_netem_dict arg d j l) as (E1 & E2 & E3).
  destruct Hkey as [-> | [-> | ->]]; congruence.
Qed.

Lemma default_profiles :
  getitem DEFAULT_PARAMS WAN1 = Ok (profile "100mbit" "0ms" "0ms" "0%") /\
  getitem DEFAULT_PARAMS WAN2 = Ok (profile "50mbit" "30ms" "0ms" "0%").
Proof.
  unfold getitem, DEFAULT_PARAMS. split.
  - rewrite lookup_insert_eq. reflexivity.
  - rewrite lookup_insert_ne by discriminate. rewrite lookup_insert_eq. reflexivity.
Qed.

Lemma getitem_profile (b d j l : string) :
  getitem (profile b d j l) "bandwidth" = Ok b /\
  getitem (profile b d j l) "delay" = Ok d /\
  getitem (profile b d j l) "jitter" = Ok j /\
  getitem (profile b d j l) "loss" = Ok l.
Proof.
  unfold getitem, profile. split; [|split; [|split]].
  - rewrite lookup_insert_eq. reflexivity.
  - rewrite lookup_insert_ne by discriminate. rewrite lookup_insert_eq. reflexivity.
  - do 2 (rewrite lookup_insert_ne by discriminate). rewrite lookup_insert_eq. reflexivity.
  - do 3 (rewrite lookup_insert_ne by discriminate). rewrite lookup_insert_eq. reflexivity.
Qed.

Lemma bind_lift_ok {St A B} (a : A) (k : A -> M St B) : bind (lift (Ok a)) k = k a.
Proof. reflexivity. Qed.

Lemma default_param_key_error (i key : string) :
  key = "bandwidth" \/ key = "delay" \/ key = "jitter" \/ key = "loss" ->
  default_param i key = Raise KeyError -> DEFAULT_PARAMS !! i = None.
Proof.
  intros Hkey. unfold default_param. unfold getitem at 1. unfold DEFAULT_PARAMS.
  rewrite lookup_insert. destruct (decide (WAN1 = i)) as [<-|_].
  { cbn [res_bind].
    destruct (getitem_profile "100mbit" "0ms" "0ms" "0%") as (B & D & J & L).
    destruct Hkey as [-> | [-> | [-> | ->]]]; rewrite ?B, ?D, ?J, ?L; discriminate. }
  rewrite lookup_insert. destruct (decide (WAN2 = i)) as [<-|_].
  { cbn [res_bind].
    destruct (getitem_profile "50mbit" "30ms" "0ms" "0%") as (B & D & J & L).
    destruct Hkey as [-> | [-> | [-> | ->]]]; rewrite ?B, ?D, ?J, ?L; discriminate. }
  rewrite lookup_empty. reflexivity.
Qed.

(** X8.  [set_netem] raises [KeyError] only in one situation: the
    interface has no entry in [DEFAULT_PARAMS], the in-place change
    reported nothing, and the rate then read is the [no limit] sentinel.
    The exception comes right after the class listing, before any command
    of the rebuild.  For [ens19] and [ens20] it cannot happen. *)
Theorem set_netem_key_error :
  forall St (backend : list string -> St -> option string * St)
         (i : string) (d j l : option string) (w w' : World St) (r : res unit),
    set_netem backend i d j l w = (r, w') ->
    r = Raise KeyError ->
    DEFAULT_PARAMS !! i = None /\
    rebuild_starts (new_events w w') = [] /\
    exists o, last (new_events w w') = Some (Ran ["tc"; "class"; "show"; "dev"; i] o) /\
              htb_rate_of_output (PyStr.strip <$> o) = Ok "no limit".
Proof.
  intros St backend i d j l w w' r Hrun Hr.
  unfold set_netem in Hrun.
  step_bind Hrun as cur wa Hm;
    apply get_netem_params_inv in Hm; destruct Hm as (o1 & Hb1 & Hl1 & Hp1).
  2:{ apply netem_params_of_output_raises in Hp1. congruence. }
  pose proof (netem_params_of_output_wf _ _ Hp1) as Hwf.
  step_bind Hrun as d' wb Hm; apply lift_inv in Hm; destruct Hm as [Hd ->].
  2:{ exfalso. apply (or_current_raises d cur "delay" _ Hwf (or_introl eq_refl) Hd). }
  step_bind Hrun as j' wb Hm; apply lift_inv in Hm; destruct Hm as [Hj ->].
  2:{ exfalso.
      apply (or_current_raises j cur "jitter" _ Hwf (or_intror (or_introl eq_refl)) Hj). }
  step_bind Hrun as l' wb Hm; apply lift_inv in Hm; destruct Hm as [Hlo ->].
  2:{ exfalso.
      apply (or_current_raises l cur "loss" _ Hwf (or_intror (or_intror eq_refl)) Hlo). }
  step_bind Hrun as changed wc Hm;
    apply run_command_inv in Hm; destruct Hm as (o2 & Hb2 & Ho2 & Hl2); [|discriminate].
  destruct (truthy changed).
  { apply ret_inv in Hrun. destruct Hrun as [-> ->]. discriminate. }
  step_bind Hrun as rate wd Hm;
    apply get_htb_rate_inv in Hm; destruct Hm as (o3 & Hb3 & Hl3 & Hp3).
  2:{ apply htb_rate_of_output_raises in Hp3. congruence. }
  step_bind Hrun as bw we Hm.
  - destruct (setup_qdiscs_runs backend i bw d' j' l' we) as (q1 & q2 & q3 & q4 & wf & Hq & _).
    rewrite Hrun in Hq. injection Hq as -> _. discriminate.
  - destruct (String.eqb_spec rate "no limit") as [-> | Hne];
      [apply lift_inv in Hm | apply ret_inv in Hm]; destruct Hm as [Hdef ->]; [|discriminate].
    injection Hr as ->.
    split; [apply (default_param_key_error _ "bandwidth"); auto|].
    events. split; [vm_compute; reflexivity|].
    exists o3. split; [reflexivity | exact Hp3].
Qed.

Lemma set_netem_key_error_witness :
  DEFAULT_PARAMS !! "eth0" = None /\
  rebuild_starts (new_events w0 (snd (set_netem failing "eth0" (Some "10ms") None None w0))) = [] /\
  exists o,
    last (new_events w0 (snd (set_netem failing "eth0" (Some "10ms") None None w0)))
      = Some (Ran ["tc"; "class"; "show"; "dev"; "eth0"] o) /\
    htb_rate_of_output (PyStr.strip <$> o) = Ok "no limit".
Proof.
  apply (set_netem_key_error unit failing "eth0" (Some "10ms") None None w0 _ (Raise KeyError)).
  - vm_compute. reflexivity.
  - reflexivity.
Defined.

(** X9.  [set_htb_rate] first issues the class change with the rate it is
    given.  When the change prints something it stops there.  When the
    change fails, or exits with status 0 but prints nothing but white
    space, it goes on to the rebuild, unless the reader raises first.  It
    returns normally or raises [IndexError]; it never raises [KeyError],
    whatever the interface. *)
Theorem set_htb_rate_rebuilds_unless_printed :
  forall St (backend : list string -> St -> option string * St)
         (i rate : string) (w w' : World St) (r : res unit),
    set_htb_rate backend i rate w = (r, w') ->
    exists o rest,
      new_events w w'
        = Ran ["tc"; "class"; "change"; "dev"; i; "parent"; "1:"; "classid"; "1:10";
               "htb"; "rate"; rate] o :: rest /\
      (r = Ok tt \/ r = Raise IndexError) /\
      (truthy (PyStr.strip <$> o) = true -> rest = [] /\ r = Ok tt) /\
      (truthy (PyStr.strip <$> o) = false -> r = Ok tt ->
       length (rebuild_starts rest) = 1 /\ rate_writes rest = [(i, rate)]).
Proof.
  intros St backend i rate w w' r Hrun.
  unfold set_htb_rate in Hrun.
  step_bind Hrun as changed wa Hm;
    apply run_command_inv in Hm; destruct Hm as (o1 & Hb1 & Ho1 & Hl1); [|discriminate].
  injection Ho1 as ->. exists o1.
  destruct (truthy (PyStr.strip <$> o1)) eqn:Htr.
  { apply ret_inv in Hrun. destruct Hrun as [-> ->]. exists []. events.
    repeat split; auto; discriminate. }
  step_bind Hrun as cur wb Hm;
    apply get_netem_params_inv in Hm; destruct Hm as (o2 & Hb2 & Hl2 & Hp2).
  2:{ apply netem_params_of_output_raises in Hp2. subst. eexists. events.
      split; [reflexivity|]. split; [auto|]. split; [discriminate|]. intros _ [=]. }
  destruct (netem_params_of_output_wf _ _ Hp2) as (d & j & l & -> & _).
  step_bind Hrun as d' wc Hm; apply lift_inv in Hm; destruct Hm as [Hd ->];
    vm_compute in Hd; [|discriminate]. injection Hd as <-.
  step_bind Hrun as j' wc Hm; apply lift_inv in Hm; destruct Hm as [Hj ->];
    vm_compute in Hj; [|discriminate]. injection Hj as <-.
  step_bind Hrun as l' wc Hm; apply lift_inv in Hm; destruct Hm as [Hlo ->];
    vm_compute in Hlo; [|discriminate]. injection Hlo as <-.
  destruct (setup_qdiscs_runs backend i rate d j l wb) as (q1 & q2 & q3 & q4 & we & Hq & Hlq).
  rewrite Hrun in Hq. injection Hq as -> <-.
  eexists. events. split; [reflexivity|]. split; [auto|]. split; [discriminate|].
  intros _ _. split; vm_compute; reflexivity.
Qed.

Lemma set_htb_rate_rebuilds_unless_printed_witness :
  exists o rest,
    new_events w0 (snd (set_htb_rate (scripted silent_success) WAN1 "10mbit" w0))
      = Ran ["tc"; "class"; "change"; "dev"; WAN1; "parent"; "1:"; "classid"; "1:10";
             "htb"; "rate"; "10mbit"] o :: rest /\
    (fst (set_htb_rate (scripted silent_success) WAN1 "10mbit" w0) = Ok tt \/
     fst (set_htb_rate (scripted silent_success) WAN1 "10mbit" w0) = Raise IndexError) /\
    (truthy (PyStr.strip <$> o) = true ->
     rest = [] /\ fst (set_htb_rate (scripted silent_success) WAN1 "10mbit" w0) = Ok tt) /\
    (truthy (PyStr.strip <$> o) = false ->
     fst (set_htb_rate (scripted silent_success) WAN1 "10mbit" w0) = Ok tt ->
     length (rebuild_starts rest) = 1 /\ rate_writes rest = [(WAN1, "10mbit")]).
Proof.
  apply (set_htb_rate_rebuilds_unless_printed unit (scripted silent_success) WAN1 "10mbit" w0).
  vm_compute. reflexivity.
Defined.

(** ** What a computation issues, and how it can end *)

Section Composition.

Context {St : Type} (backend : list string -> St -> option string * St).

Lemma bind_emits {A B} (P : event -> Prop) (m : M St A) (k : A -> M St B) :
  emits P m -> (forall a, emits P (k a)) -> emits P (bind m k).
Proof.
  intros Hm Hk w r w' Hrun. apply bind_inv in Hrun.
  destruct Hrun as [(a & w1 & Hm1 & Hk1) | (e & Hm1 & ->)].
  - destruct (Hm _ _ _ Hm1) as (evs1 & Hl1 & Hq1).
    destruct (Hk a _ _ _ Hk1) as (evs2 & Hl2 & Hq2).
    exists (evs1 ++ evs2). rewrite Hl2, Hl1, app_assoc. split; [reflexivity|].
    apply Forall_app. auto.
  - apply (Hm _ _ _ Hm1).
Qed.

Lemma run_command_emits (P : event -> Prop) cmd :
  (forall o, P (Ran cmd o)) -> emits P (run_command backend cmd).
Proof.
  intros HP w r w' H. apply run_command_inv in H. destruct H as (o & _ & _ & Hl).
  exists [Ran cmd o]. split; [exact Hl|]. constructor; [apply HP | constructor].
Qed.

Lemma subprocess_call_emits (P : event -> Prop) cmd :
  (forall o, P (Called cmd o)) -> emits P (subprocess_call backend cmd).
Proof.
  intros HP w r w' H. apply subprocess_call_inv in H. destruct H as (o & _ & _ & Hl).
  exists [Called cmd o]. split; [exact Hl|]. constructor; [apply HP | constructor].
Qed.

Lemma lift_emits {A} (P : event -> Prop) (x : res A) : emits P (lift (St := St) x).
Proof.
  intros w r w' H. apply lift_inv in H. destruct H as [_ ->].
  exists []. rewrite app_nil_r. auto.
Qed.

Lemma ret_emits {A} (P : event -> Prop) (a : A) : emits P (ret (St := St) a).
Proof.
  intros w r w' H. apply ret_inv in H. destruct H as [_ ->].
  exists []. rewrite app_nil_r. auto.
Qed.

Lemma bind_returns {A B} (Q : A -> Prop) (R : B -> Prop) (m : M St A) (k : A -> M St B) :
  returns Q m -> (forall a, Q a -> returns R (k a)) -> returns R (bind m k).
Proof.
  intros Hm Hk w r w' Hrun. apply bind_inv in Hrun.
  destruct Hrun as [(a & w1 & Hm1 & Hk1) | (e & Hm1 & ->)].
  - destruct (Hm _ _ _ Hm1) as (evs1 & Hl1 & Ha).
    destruct (Hk a Ha _ _ _ Hk1) as (evs2 & Hl2 & Hr).
    exists (evs1 ++ evs2). rewrite Hl2, Hl1, app_assoc. split; [reflexivity|].
    destruct r as [b|e]; [exact Hr|].
    destruct Hr as (He & x & Hx & Hq). split; [exact He|].
    exists x. rewrite last_app, Hx. auto.
  - apply (Hm _ _ _ Hm1).
Qed.

Lemma run_command_returns cmd : returns (fun _ => True) (run_command backend cmd).
Proof.
  intros w r w' H. apply run_command_inv in H. destruct H as (o & _ & -> & Hl).
  eexists. split; [exact Hl | exact I].
Qed.

Lemma subprocess_call_returns cmd : returns (fun _ => True) (subprocess_call backend cmd).
Proof.
  intros w r w' H. apply subprocess_call_inv in H. destruct H as (o & _ & -> & Hl).
  eexists. split; [exact Hl | exact I].
Qed.

Lemma ret_returns {A} (Q : A -> Prop) (a : A) : Q a -> returns Q (ret (St := St) a).
Proof.
  intros HQ w r w' H. apply ret_inv in H. destruct H as [-> ->].
  exists []. rewrite app_nil_r. auto.
Qed.

Lemma lift_returns {A} (Q : A -> Prop) (a : A) : Q a -> returns Q (lift (St := St) (Ok a)).
Proof.
  intros HQ w r w' H. apply lift_inv in H. destruct H as [<- ->].
  exists []. rewrite app_nil_r. auto.
Qed.

Lemma returns_weaken {A} (Q R : A -> Prop) (m : M St A) :
  (forall a, Q a -> R a) -> returns Q m -> returns R m.
Proof.
  intros HQR Hm w r w' H. destruct (Hm _ _ _ H) as (evs & Hl & Hr).
  exists evs. split; [exact Hl|]. destruct r; [apply HQR, Hr | exact Hr].
Qed.

Lemma get_netem_params_returns i : returns params_wf (get_netem_params backend i).
Proof.
  intros w r w' H. apply get_netem_params_inv in H. destruct H as (o & _ & Hl & Hp).
  eexists. split; [exact Hl|].
  destruct r as [p|e]; [apply (netem_params_of_output_wf _ _ Hp)|].
  split; [apply (netem_params_of_output_raises _ _ Hp)|].
  eexists. split; reflexivity.
Qed.

Lemma get_htb_rate_returns i : returns (fun _ => True) (get_htb_rate backend i).
Proof.
  intros w r w' H. apply get_htb_rate_inv in H. destruct H as (o & _ & Hl & Hp).
  eexists. split; [exact Hl|].
  destruct r as [p|e]; [exact I|].
  split; [apply (htb_rate_of_output_raises _ _ Hp)|].
  eexists. split; reflexivity.
Qed.

Lemma get_interface_status_returns i :
  returns (fun _ => True) (get_interface_status backend i).
Proof.
  apply (bind_returns (fun _ => True)); [apply run_command_returns|].
  intros a _. apply ret_returns. exact I.
Qed.

Lemma setup_qdiscs_returns i b d j l :
  returns (fun _ => True) (setup_qdiscs backend i b d j l).
Proof.
  intros w r w' H.
  destruct (setup_qdiscs_runs backend i b d j l w) as (q1 & q2 & q3 & q4 & wf & Hq & Hl).
  rewrite H in Hq. injection Hq as -> ->. eexists. split; [exact Hl | exact I].
Qed.

Lemma getitem_params_returns (p : gmap string string) (key : string) :
  params_wf p -> key = "delay" \/ key = "jitter" \/ key = "loss" ->
  returns (fun _ => True) (lift (St := St) (getitem p key)).
Proof.
  intros (d & j & l & -> & _) Hkey.
  destruct (or_current_netem_dict None d j l) as (E1 & E2 & E3).
  unfold or_current in E1, E2, E3.
  destruct Hkey as [-> | [-> | ->]]; rewrite ?E1, ?E2, ?E3; apply lift_returns; exact I.
Qed.

Lemma or_current_returns (arg : option string) (p : gmap string string) (key : string) :
  params_wf p -> key = "delay" \/ key = "jitter" \/ key = "loss" ->
  returns (fun _ => True) (lift (St := St) (or_current arg p key)).
Proof.
  intros (d & j & l & -> & _) Hkey.
  destruct (or_current_netem_dict arg d j l) as (E1 & E2 & E3).
  destruct Hkey as [-> | [-> | ->]]; rewrite ?E1, ?E2, ?E3; apply lift_returns; exact I.
Qed.

Lemma default_param_returns (i key : string) :
  i = WAN1 \/ i = WAN2 ->
  key = "bandwidth" \/ key = "delay" \/ key = "jitter" \/ key = "loss" ->
  returns (fun _ => True) (lift (St := St) (default_param i key)).
Proof.
  intros Hi Hkey.
  assert (exists v, default_param i key = Ok v) as [v ->];
    [|apply lift_returns; exact I].
  destruct Hi as [-> | ->]; destruct Hkey as [-> | [-> | [-> | ->]]];
    eexists; vm_compute; reflexivity.
Qed.

Lemma set_netem_returns i d j l :
  i = WAN1 \/ i = WAN2 -> returns (fun _ => True) (set_netem backend i d j l).
Proof.
  intros Hi. unfold set_netem.
  apply (bind_returns params_wf); [apply get_netem_params_returns | intros cur Hwf].
  apply (bind_returns (fun _ => True));
    [apply or_current_returns; auto | intros d' _].
  apply (bind_returns (fun _ => True));
    [apply or_current_returns; auto | intros j' _].
  apply (bind_returns (fun _ => True));
    [apply or_current_returns; auto | intros l' _].
  apply (bind_returns (fun _ => True)); [apply run_command_returns | intros changed _].
  destruct (truthy changed); [apply ret_returns; exact I|].
  apply (bind_returns (fun _ => True)); [apply get_htb_rate_returns | intros rate _].
  apply (bind_returns (fun _ => True)).
  - destruct (String.eqb rate "no limit"); [|apply ret_returns; exact I].
    apply default_param_returns; auto.
  - intros b _. apply setup_qdiscs_returns.
Qed.

Lemma set_htb_rate_returns i rate : returns (fun _ => True) (set_htb_rate backend i rate).
Proof.
  unfold set_htb_rate.
  apply (bind_returns (fun _ => True)); [apply run_command_returns | intros changed _].
  destruct (truthy changed); [apply ret_returns; exact I|].
  apply (bind_returns params_wf); [apply get_netem_params_returns | intros cur Hwf].
  apply (bind_returns (fun _ => True)); [apply getitem_params_returns; auto | intros d _].
  apply (bind_returns (fun _ => True)); [apply getitem_params_returns; auto | intros j _].
  apply (bind_returns (fun _ => True)); [apply getitem_params_returns; auto | intros l _].
  apply setup_qdiscs_returns.
Qed.

Lemma set_interface_status_returns i state :
  returns (fun _ => True) (set_interface_status backend i state).
Proof.
  unfold set_interface_status.
  apply (bind_returns (fun _ => True)); [apply run_command_returns | intros _ _].
  apply ret_returns. exact I.
Qed.

End Composition.

(** ** Latency and packet-loss toggles *)

(** X10.  The latency toggle of WAN1 writes delay [200ms] when the delay
    read is [0ms] and [0ms] for every other delay read.  Every emulation
    rule it writes has that delay with jitter [0ms] and loss [0%], the
    defaults of WAN1, whatever jitter and loss were in place; a toggle
    that returns has written at least one. *)
Theorem toggle_latency_wan1_spec :
  forall St (backend : list string -> St -> option string * St)
         (w w1 : World St) (cur : gmap string string),
    get_netem_params backend WAN1 w = (Ok cur, w1) ->
    exists d0,
      cur !! "delay" = Some d0 /\
      let target := if String.eqb d0 "0ms" then "200ms" else "0ms" in
      let rw := toggle_latency_wan1 backend w in
      Forall (fun x => x = (WAN1, target, "0ms", "0%")) (netem_writes (new_events w (snd rw))) /\
      (fst rw = Ok tt -> netem_writes (new_events w (snd rw)) <> []).
Proof.
  intros St backend w w1 cur Hget.
  destruct (toggle_latency_wan1 backend w) as [r w'] eqn:Hrun.
  unfold toggle_latency_wan1 in Hrun.
  apply bind_inv in Hrun. rewrite Hget in Hrun.
  destruct Hrun as [(a & w1' & [= <- <-] & Hrun) | (? & [=] & _)].
  destruct (get_netem_params_inv _ _ _ _ _ Hget) as (o & Hb & Hlog & Hparse).
  destruct (netem_params_of_output_wf _ _ Hparse) as (d & j & lo & -> & Hd & Hj & Hsh & Hl).
  clear Hget.
  exists d. split; [reflexivity|].
  cbv zeta. simpl fst. simpl snd.
  minv.
  set (target := if String.eqb d "0ms" then "200ms" else "0ms") in *.
  assert (Ht : truthy (Some target) = true)
    by (subst target; destruct (String.eqb d "0ms"); reflexivity).
  unfold set_netem, or_current in Hrun.
  rewrite Ht in Hrun.
  change (truthy (Some "0ms")) with true in Hrun.
  change (truthy (Some "0%")) with true in Hrun. cbv iota in Hrun.
  apply bind_inv in Hrun.
  destruct Hrun as [(cur2 & w2 & Hget2 & Hrun) | (e & Hget2 & ->)];
    apply get_netem_params_inv in Hget2; destruct Hget2 as (o2 & Hb2 & Hlog2 & Hparse2).
  2:{ events. split; [|discriminate]. vm_compute. constructor. }
  unfold setup_qdiscs, get_htb_rate in Hrun.
  minv; events; (split; [vm_compute; repeat constructor | try discriminate; intros _; vm_compute; discriminate]).
Qed.

Lemma toggle_latency_wan1_witness :
  exists d0,
    netem_dict "30ms" "1ms" "2%" !! "delay" = Some d0 /\
    let target := if String.eqb d0 "0ms" then "200ms" else "0ms" in
    let rw := toggle_latency_wan1 (scripted (netem_listing "1ms")) w0 in
    Forall (fun x => x = (WAN1, target, "0ms", "0%")) (netem_writes (new_events w0 (snd rw))) /\
    (fst rw = Ok tt -> netem_writes (new_events w0 (snd rw)) <> []).
Proof.
  apply (toggle_latency_wan1_spec unit (scripted (netem_listing "1ms")) w0
           (snd (get_netem_params (scripted (netem_listing "1ms")) WAN1 w0))).
  vm_compute. reflexivity.
Defined.

(** X11.  The packet-loss toggle of WAN2 writes loss [5%] when the loss
    read is [0%] and [0%] for every other loss read.  Every emulation rule
    it writes has delay [30ms], the jitter read and that loss; a toggle
    that returns has written at least one. *)
Theorem toggle_packet_loss_wan2_spec :
  forall St (backend : list string -> St -> option string * St)
         (w w1 : World St) (cur : gmap string string),
    get_netem_params backend WAN2 w = (Ok cur, w1) ->
    exists j0 l0,
      cur !! "jitter" = Some j0 /\ cur !! "loss" = Some l0 /\
      let target := if String.eqb l0 "0%" then "5%" else "0%" in
      let rw := toggle_packet_loss_wan2 backend w in
      Forall (fun x => x = (WAN2, "30ms", j0, target)) (netem_writes (new_events w (snd rw))) /\
      (fst rw = Ok tt -> netem_writes (new_events w (snd rw)) <> []).
Proof.
  intros St backend w w1 cur Hget.
  destruct (toggle_packet_loss_wan2 backend w) as [r w'] eqn:Hrun.
  unfold toggle_packet_loss_wan2 in Hrun.
  apply bind_inv in Hrun. rewrite Hget in Hrun.
  destruct Hrun as [(a & w1' & [= <- <-] & Hrun) | (? & [=] & _)].
  destruct (get_netem_params_inv _ _ _ _ _ Hget) as (o & Hb & Hlog & Hparse).
  destruct (netem_params_of_output_wf _ _ Hparse) as (d & j & lo & -> & Hd & Hj & Hsh & Hl).
  clear Hget.
  exists j, lo. split; [reflexivity|]. split; [reflexivity|].
  cbv zeta. simpl fst. simpl snd.
  minv.
  set (target := if String.eqb lo "0%" then "5%" else "0%") in *.
  assert (Ht : truthy (Some target) = true)
    by (subst target; destruct (String.eqb lo "0%"); reflexivity).
  unfold set_netem, or_current in Hrun.
  rewrite Ht, (is_token_nonempty _ Hj) in Hrun.
  change (truthy (Some "30ms")) with true in Hrun. cbv iota in Hrun.
  apply bind_inv in Hrun.
  destruct Hrun as [(cur2 & w2 & Hget2 & Hrun) | (e & Hget2 & ->)];
    apply get_netem_params_inv in Hget2; destruct Hget2 as (o2 & Hb2 & Hlog2 & Hparse2).
  2:{ events. split; [|discriminate]. vm_compute. constructor. }
  unfold setup_qdiscs, get_htb_rate in Hrun.
  minv; events; (split; [vm_compute; repeat constructor | try discriminate; intros _; vm_compute; discriminate]).
Qed.

Lemma toggle_packet_loss_wan2_witness :
  exists j0 l0,
    netem_dict "30ms" "1ms" "2%" !! "jitter" = Some j0 /\
    netem_dict "30ms" "1ms" "2%" !! "loss" = Some l0 /\
    let target := if String.eqb l0 "0%" then "5%" else "0%" in
    let rw := toggle_packet_loss_wan2 (scripted (netem_listing "1ms")) w0 in
    Forall (fun x => x = (WAN2, "30ms", j0, target)) (netem_writes (new_events w0 (snd rw))) /\
    (fst rw = Ok tt -> netem_writes (new_events w0 (snd rw)) <> []).
Proof.
  apply (toggle_packet_loss_wan2_spec unit (scripted (netem_listing "1ms")) w0
           (snd (get_netem_params (scripted (netem_listing "1ms")) WAN2 w0))).
  vm_compute. reflexivity.
Defined.

(** ** The interfaces the script addresses *)

Ltac emits_step :=
  first
    [ apply ret_emits
    | apply lift_emits
    | apply run_command_emits; intros; reflexivity
    | apply subprocess_call_emits; intros; reflexivity
    | match goal with
      | |- emits _ (if ?b then _ else _) => destruct b
      | |- emits _ (bind _ _) => apply bind_emits; [|intros]
      end ].

Section Addressing.

Context {St : Type} (backend : list string -> St -> option string * St).

Lemma emits_weaken {A} (P Q : event -> Prop) (m : M St A) :
  (forall e, P e -> Q e) -> emits P m -> emits Q m.
Proof.
  intros HPQ Hm w r w' H. destruct (Hm _ _ _ H) as (evs & Hl & HF).
  exists evs. split; [exact Hl|]. eapply Forall_impl; eauto.
Qed.

Lemma emits_new_events {A} (P : event -> Prop) (m : M St A) (w : World St) :
  emits P m -> Forall P (new_events w (snd (m w))).
Proof.
  intros Hm. destruct (m w) as [r w'] eqn:H.
  destruct (Hm _ _ _ H) as (evs & Hl & HF).
  simpl. rewrite (new_events_ext _ _ _ Hl). exact HF.
Qed.

Lemma get_netem_params_emits i : emits (on_interface i) (get_netem_params backend i).
Proof. unfold get_netem_params. repeat emits_step. Qed.

Lemma get_htb_rate_emits i : emits (on_interface i) (get_htb_rate backend i).
Proof. unfold get_htb_rate. repeat emits_step. Qed.

Lemma get_interface_status_emits i : emits (on_interface i) (get_interface_status backend i).
Proof. unfold get_interface_status. repeat emits_step. Qed.

Lemma setup_qdiscs_emits i b d j l : emits (on_interface i) (setup_qdiscs backend i b d j l).
Proof. unfold setup_qdiscs. repeat emits_step. Qed.

Lemma set_interface_status_emits i s :
  emits (on_interface i) (set_interface_status backend i s).
Proof. unfold set_interface_status. repeat emits_step. Qed.

Lemma set_netem_emits i d j l : emits (on_interface i) (set_netem backend i d j l).
Proof.
  unfold set_netem.
  apply bind_emits; [apply get_netem_params_emits | intros cur].
  do 3 (apply bind_emits; [apply lift_emits | intros ?]).
  apply bind_emits; [apply run_command_emits; intros; reflexivity | intros changed].
  destruct (truthy changed); [apply ret_emits|].
  apply bind_emits; [apply get_htb_rate_emits | intros rate].
  apply bind_emits; [destruct (String.eqb rate "no limit"); repeat emits_step | intros b].
  apply setup_qdiscs_emits.
Qed.

Lemma set_htb_rate_emits i rate : emits (on_interface i) (set_htb_rate backend i rate).
Proof.
  unfold set_htb_rate.
  apply bind_emits; [apply run_command_emits; intros; reflexivity | intros changed].
  destruct (truthy changed); [apply ret_emits|].
  apply bind_emits; [apply get_netem_params_emits | intros cur].
  do 3 (apply bind_emits; [apply lift_emits | intros ?]).
  apply setup_qdiscs_emits.
Qed.

Lemma toggle_latency_wan1_emits : emits (on_interface WAN1) (toggle_latency_wan1 backend).
Proof.
  unfold toggle_latency_wan1.
  apply bind_emits; [apply get_netem_params_emits | intros cur].
  do 3 (apply bind_emits; [apply lift_emits | intros ?]).
  apply set_netem_emits.
Qed.

Lemma toggle_packet_loss_wan2_emits :
  emits (on_interface WAN2) (toggle_packet_loss_wan2 backend).
Proof.
  unfold toggle_packet_loss_wan2.
  apply bind_emits; [apply get_netem_params_emits | intros cur].
  do 3 (apply bind_emits; [apply lift_emits | intros ?]).
  apply set_netem_emits.
Qed.

Lemma toggle_jitter_wan2_emits : emits (on_interface WAN2) (toggle_jitter_wan2 backend).
Proof.
  unfold toggle_jitter_wan2.
  apply bind_emits; [apply get_netem_params_emits | intros cur].
  do 3 (apply bind_emits; [apply lift_emits | intros ?]).
  apply set_netem_emits.
Qed.

Lemma toggle_bandwidth_wan1_emits : emits (on_interface WAN1) (toggle_bandwidth_wan1 backend).
Proof.
  unfold toggle_bandwidth_wan1.
  apply bind_emits; [apply get_htb_rate_emits | intros rate].
  apply set_htb_rate_emits.
Qed.

Lemma toggle_interface_status_wan2_emits :
  emits (on_interface WAN2) (toggle_interface_status_wan2 backend).
Proof.
  unfold toggle_interface_status_wan2.
  apply bind_emits; [apply get_interface_status_emits | intros st].
  apply set_interface_status_emits.
Qed.

Lemma managed_l {A} (m : M St A) : emits (on_interface WAN1) m -> emits on_managed m.
Proof. apply emits_weaken. intros e H. left. exact H. Qed.

Lemma managed_r {A} (m : M St A) : emits (on_interface WAN2) m -> emits on_managed m.
Proof. apply emits_weaken. intros e H. right. exact H. Qed.

Lemma restore_defaults_emits : emits on_managed (restore_defaults backend).
Proof.
  unfold restore_defaults. cbn [for_each].
  apply bind_emits; [apply managed_l | intros _; apply bind_emits; [apply managed_r | intros _; apply ret_emits]].
  - do 5 (apply bind_emits; [apply lift_emits | intros ?]).
    apply bind_emits; [apply setup_qdiscs_emits | intros _; apply set_interface_status_emits].
  - do 5 (apply bind_emits; [apply lift_emits | intros ?]).
    apply bind_emits; [apply setup_qdiscs_emits | intros _; apply set_interface_status_emits].
Qed.

Lemma clean_up_emits : emits on_managed (clean_up backend).
Proof.
  unfold clean_up. cbn [for_each].
  apply bind_emits; [apply managed_l | intros _; apply bind_emits; [apply managed_r | intros _; apply ret_emits]].
  - apply bind_emits; [apply subprocess_call_emits; intros; reflexivity
                      | intros _; apply set_interface_status_emits].
  - apply bind_emits; [apply subprocess_call_emits; intros; reflexivity
                      | intros _; apply set_interface_status_emits].
Qed.

Lemma show_status_emits : emits on_managed (show_status backend).
Proof.
  unfold show_status.
  apply bind_emits; [apply managed_l, get_interface_status_emits | intros ?].
  apply bind_emits; [apply managed_r, get_interface_status_emits | intros ?].
  apply bind_emits; [apply managed_l, get_htb_rate_emits | intros ?].
  apply bind_emits; [apply managed_r, get_htb_rate_emits | intros ?].
  apply bind_emits; [apply managed_l, get_netem_params_emits | intros ?].
  apply bind_emits; [apply managed_r, get_netem_params_emits | intros ?].
  do 6 (apply bind_emits; [apply lift_emits | intros ?]).
  apply ret_emits.
Qed.

Lemma actions_emits (choice : string) (action : M St unit) :
  actions backend choice = Some action -> emits on_managed action.
Proof.
  unfold actions.
  repeat (match goal with |- context [String.eqb choice ?c] => destruct (String.eqb choice c) end);
    intros [= <-].
  - apply managed_l, toggle_latency_wan1_emits.
  - apply managed_r, toggle_packet_loss_wan2_emits.
  - apply managed_r, toggle_jitter_wan2_emits.
  - apply managed_l, toggle_bandwidth_wan1_emits.
  - apply managed_r, toggle_interface_status_wan2_emits.
  - apply restore_defaults_emits.
  - apply clean_up_emits.
  - apply bind_emits; [apply show_status_emits | intros _; apply ret_emits].
Qed.

Lemma main_loop_emits (P : event -> Prop) :
  (forall choice action, actions backend choice = Some action -> emits P action) ->
  emits P (show_status backend) ->
  forall inputs w, exists evs,
    log (snd (main_loop backend inputs w)) = log w ++ evs /\ Forall P evs.
Proof.
  intros Hact Hshow. induction inputs as [|line rest IH]; intros w; simpl.
  - exists []. rewrite app_nil_r. auto.
  - destruct (String.eqb (PyStr.strip line) "0").
    { exists []. rewrite app_nil_r. auto. }
    destruct (actions backend (PyStr.strip line)) as [action|] eqn:Ha; [|apply IH].
    destruct (action w) as [[[]|e] w1] eqn:Hrun;
      destruct (Hact _ _ Ha _ _ _ Hrun) as (evs1 & Hl1 & HF1); [|exists evs1; auto].
    destruct (negb (String.eqb (PyStr.strip line) "8")).
    + destruct (show_status backend w1) as [[lines|e] w2] eqn:Hs;
        destruct (Hshow _ _ _ Hs) as (evs2 & Hl2 & HF2).
      * destruct (IH w2) as (evs3 & Hl3 & HF3).
        exists (evs1 ++ evs2 ++ evs3). rewrite Hl3, Hl2, Hl1, <- !app_assoc.
        split; [reflexivity|]. rewrite !Forall_app. auto.
      * exists (evs1 ++ evs2). simpl. rewrite Hl2, Hl1, <- !app_assoc.
        split; [reflexivity|]. rewrite !Forall_app. auto.
    + destruct (IH w1) as (evs3 & Hl3 & HF3).
      exists (evs1 ++ evs3). rewrite Hl3, Hl1, <- !app_assoc.
      split; [reflexivity|]. rewrite !Forall_app. auto.
Qed.

End Addressing.

(** X12.  The readers and the mutators address only the interface they
    are given: every command they issue, the rebuild of the fallback
    included, names that interface. *)
Theorem operations_address_own_interface :
  forall St (backend : list string -> St -> option string * St) (w : World St)
         (interface : string),
    Forall (on_interface interface)
      (new_events w (snd (get_netem_params backend interface w))) /\
    Forall (on_interface interface)
      (new_events w (snd (get_htb_rate backend interface w))) /\
    Forall (on_interface interface)
      (new_events w (snd (get_interface_status backend interface w))) /\
    (forall b d j l, Forall (on_interface interface)
      (new_events w (snd (setup_qdiscs backend interface b d j l w)))) /\
    (forall d j l, Forall (on_interface interface)
      (new_events w (snd (set_netem backend interface d j l w)))) /\
    (forall rate, Forall (on_interface interface)
      (new_events w (snd (set_htb_rate backend interface rate w)))) /\
    (forall state, Forall (on_interface interface)
      (new_events w (snd (set_interface_status backend interface state w)))).
Proof.
  intros St backend w i.
  repeat split; intros; apply emits_new_events.
  - apply get_netem_params_emits.
  - apply get_htb_rate_emits.
  - apply get_interface_status_emits.
  - apply setup_qdiscs_emits.
  - apply set_netem_emits.
  - apply set_htb_rate_emits.
  - apply set_interface_status_emits.
Qed.

(** X13.  Each toggle touches one interface only: the latency and
    bandwidth toggles issue commands for WAN1 alone, the packet-loss,
    jitter and link-state toggles for WAN2 alone. *)
Theorem toggles_address_one_interface :
  forall St (backend : list string -> St -> option string * St) (w : World St),
    Forall (on_interface WAN1) (new_events w (snd (toggle_latency_wan1 backend w))) /\
    Forall (on_interface WAN2) (new_events w (snd (toggle_packet_loss_wan2 backend w))) /\
    Forall (on_interface WAN2) (new_events w (snd (toggle_jitter_wan2 backend w))) /\
    Forall (on_interface WAN1) (new_events w (snd (toggle_bandwidth_wan1 backend w))) /\
    Forall (on_interface WAN2) (new_events w (snd (toggle_interface_status_wan2 backend w))).
Proof.
  intros St backend w.
  repeat split; apply emits_new_events.
  - apply toggle_latency_wan1_emits.
  - apply toggle_packet_loss_wan2_emits.
  - apply toggle_jitter_wan2_emits.
  - apply toggle_bandwidth_wan1_emits.
  - apply toggle_interface_status_wan2_emits.
Qed.

(** X14.  A whole session, whatever the operator types and whatever the
    tools answer, issues commands for the two managed interfaces only. *)
Theorem main_addresses_managed_interfaces :
  forall St (backend : list string -> St -> option string * St)
         (euid : nat) (inputs : list string) (w : World St),
    Forall on_managed (new_events w (snd (main backend euid inputs w))).
Proof.
  intros St backend euid inputs w. unfold main.
  destruct (negb (euid =? 0)).
  - simpl. unfold new_events. rewrite drop_all. constructor.
  - destruct (main_loop_emits backend on_managed (actions_emits backend)
                (show_status_emits backend) inputs w) as (evs & Hl & HF).
    rewrite (new_events_ext _ _ _ Hl). exact HF.
Qed.

(** ** The status table *)

Example show_status_table :
  fst (show_status Ref.backend shaped_world)
  = Ok ["Values          WAN1            WAN2           ";
        "Status          UP              UP             ";
        "Bandwidth       no limit        50mbit         ";
        "Packet loss     0%              0%             ";
        "Latency         0ms             30ms           ";
        "Jitter          0ms             0ms            "].
Proof. vm_compute. reflexivity. Qed.

Lemma get_interface_status_inv {St} (backend : list string -> St -> option string * St)
    i w r w1 :
  get_interface_status backend i w = (r, w1) ->
  exists o, log w1 = log w ++ [Ran ["ip"; "link"; "show"; i] o] /\
            r = Ok (status_of_output (PyStr.strip <$> o)).
Proof. unfold get_interface_status. intros H. minv; eauto. Qed.

Lemma show_status_runs {St} (backend : list string -> St -> option string * St)
    (w w' : World St) (r : res (list string)) :
  show_status backend w = (r, w') ->
  map event_cmd (new_events w w') `prefix_of` status_queries /\
  Forall (fun e => is_query e = true) (new_events w w') /\
  match r with
  | Ok lines => map event_cmd (new_events w w') = status_queries /\ length lines = 6
  | Raise e => e = IndexError
  end.
Proof.
  intros H. unfold show_status in H.
  step_bind H as s1 v1 H1; apply get_interface_status_inv in H1;
    destruct H1 as (o1 & Hl1 & Hr1); [|discriminate].
  step_bind H as s2 v2 H2; apply get_interface_status_inv in H2;
    destruct H2 as (o2 & Hl2 & Hr2); [|discriminate].
  step_bind H as b1 v3 H3; apply get_htb_rate_inv in H3; destruct H3 as (o3 & _ & Hl3 & Hp3).
  2:{ events. rewrite (htb_rate_of_output_raises _ _ Hp3).
      split; [eexists; reflexivity|]. split; [repeat constructor | reflexivity]. }
  step_bind H as b2 v4 H4; apply get_htb_rate_inv in H4; destruct H4 as (o4 & _ & Hl4 & Hp4).
  2:{ events. rewrite (htb_rate_of_output_raises _ _ Hp4).
      split; [eexists; reflexivity|]. split; [repeat constructor | reflexivity]. }
  step_bind H as n1 v5 H5; apply get_netem_params_inv in H5;
    destruct H5 as (o5 & _ & Hl5 & Hp5).
  2:{ events. rewrite (netem_params_of_output_raises _ _ Hp5).
      split; [eexists; reflexivity|]. split; [repeat constructor | reflexivity]. }
  step_bind H as n2 v6 H6; apply get_netem_params_inv in H6;
    destruct H6 as (o6 & _ & Hl6 & Hp6).
  2:{ events. rewrite (netem_params_of_output_raises _ _ Hp6).
      split; [eexists; reflexivity|]. split; [repeat constructor | reflexivity]. }
  destruct (netem_params_of_output_wf _ _ Hp5) as (d1 & j1 & l1 & -> & _).
  destruct (netem_params_of_output_wf _ _ Hp6) as (d2 & j2 & l2 & -> & _).
  clear Hr1 Hr2 Hp3 Hp4 Hp5 Hp6.
  minv. events.
  split; [exists []; reflexivity|]. split; [repeat constructor | split; reflexivity].
Qed.

(** X15.  [show_status] only asks: it issues the six listing commands in
    a fixed order (link state, class, queueing discipline, WAN1 before
    WAN2) and stops at the first reader that raises; it never issues a
    command that changes anything.  When it returns it has issued all six
    and printed six lines; when it raises, the exception is
    [IndexError]. *)
Theorem show_status_read_only :
  forall St (backend : list string -> St -> option string * St) (w : World St),
    let rw := show_status backend w in
    map event_cmd (new_events w (snd rw)) `prefix_of` status_queries /\
    Forall (fun e => is_query e = true) (new_events w (snd rw)) /\
    match fst rw with
    | Ok lines => map event_cmd (new_events w (snd rw)) = status_queries /\ length lines = 6
    | Raise e => e = IndexError
    end.
Proof.
  intros St backend w rw. subst rw.
  destruct (show_status backend w) as [r w'] eqn:H.
  apply (show_status_runs backend w w' r H).
Qed.

(** ** Restoring the defaults and cleaning up *)

(** The body of the loop of [restore_defaults], the profile looked up. *)
Lemma rebuild_and_up_runs {St} (backend : list string -> St -> option string * St)
    (i b d j l : string) (w w' : World St) (r : res unit) :
  (setup_qdiscs backend i b d j l ;; set_interface_status backend i "up") w = (r, w') ->
  r = Ok tt /\
  exists evs, log w' = log w ++ evs /\
    map event_cmd evs = rebuild_commands i b d j l ++ [["ip"; "link"; "set"; i; "up"]].
Proof.
  intros H.
  destruct (setup_qdiscs_runs backend i b d j l w) as (o1 & o2 & o3 & o4 & w1 & Hs & Hl1).
  unfold bind in H. rewrite Hs in H.
  unfold set_interface_status in H. minv.
  split; [reflexivity|]. eexists. split.
  - repeat (match goal with Hl : log ?x = _ |- context [log ?x] => rewrite Hl end).
    rewrite <- !app_assoc. reflexivity.
  - reflexivity.
Qed.

Lemma restore_defaults_runs {St} (backend : list string -> St -> option string * St)
    (w w' : World St) (r : res unit) :
  restore_defaults backend w = (r, w') ->
  r = Ok tt /\
  map event_cmd (new_events w w')
  = rebuild_commands WAN1 "100mbit" "0ms" "0ms" "0%" ++ [["ip"; "link"; "set"; WAN1; "up"]]
    ++ rebuild_commands WAN2 "50mbit" "30ms" "0ms" "0%" ++ [["ip"; "link"; "set"; WAN2; "up"]].
Proof.
  intros H. unfold restore_defaults in H. cbn [for_each] in H.
  destruct default_profiles as [E1 E2]. rewrite E1, E2 in H. clear E1 E2.
  rewrite !bind_lift_ok in H. cbv beta in H.
  destruct (getitem_profile "100mbit" "0ms" "0ms" "0%") as (B1 & D1 & J1 & L1).
  destruct (getitem_profile "50mbit" "30ms" "0ms" "0%") as (B2 & D2 & J2 & L2).
  rewrite B1, B2 in H. rewrite !bind_lift_ok in H. cbv beta in H.
  rewrite D1, D2 in H. rewrite !bind_lift_ok in H. cbv beta in H.
  rewrite J1, J2 in H. rewrite !bind_lift_ok in H. cbv beta in H.
  rewrite L1, L2 in H. rewrite !bind_lift_ok in H. cbv beta in H.
  clear B1 D1 J1 L1 B2 D2 J2 L2.
  step_bind H as u1 v1 H1; apply rebuild_and_up_runs in H1;
    destruct H1 as (Hr1 & evs1 & Hl1 & Hc1); [|discriminate].
  step_bind H as u2 v2 H2; apply rebuild_and_up_runs in H2;
    destruct H2 as (Hr2 & evs2 & Hl2 & Hc2); [|discriminate].
  apply ret_inv in H. destruct H as [-> ->].
  split; [reflexivity|].
  rewrite (new_events_ext w v2 (evs1 ++ evs2)) by (rewrite Hl2, Hl1, app_assoc; reflexivity).
  rewrite map_app, Hc1, Hc2, <- !app_assoc. reflexivity.
Qed.

Lemma clean_up_runs {St} (backend : list string -> St -> option string * St)
    (w w' : World St) (r : res unit) :
  clean_up backend w = (r, w') ->
  r = Ok tt /\
  exists o1 o2 o3 o4,
    new_events w w' =
      [Called ["tc"; "qdisc"; "del"; "dev"; WAN1; "root"] o1;
       Ran ["ip"; "link"; "set"; WAN1; "up"] o2;
       Called ["tc"; "qdisc"; "del"; "dev"; WAN2; "root"] o3;
       Ran ["ip"; "link"; "set"; WAN2; "up"] o4].
Proof.
  intros H. unfold clean_up in H. cbn [for_each] in H.
  unfold set_interface_status in H.
  minv; events; split; try reflexivity.
  do 4 eexists. reflexivity.
Qed.

(** X16.  [restore_defaults] reads nothing and cannot fail: whatever the
    tools answer it returns normally after the same ten commands, the
    rebuild of WAN1 with its default profile, WAN1 up, the rebuild of
    WAN2 with its default profile, WAN2 up. *)
Theorem restore_defaults_commands :
  forall St (backend : list string -> St -> option string * St) (w : World St),
    let rw := restore_defaults backend w in
    fst rw = Ok tt /\
    map event_cmd (new_events w (snd rw))
    = rebuild_commands WAN1 "100mbit" "0ms" "0ms" "0%" ++ [["ip"; "link"; "set"; WAN1; "up"]]
      ++ rebuild_commands WAN2 "50mbit" "30ms" "0ms" "0%" ++ [["ip"; "link"; "set"; WAN2; "up"]].
Proof.
  intros St backend w rw. subst rw.
  destruct (restore_defaults backend w) as [r w'] eqn:H.
  apply (restore_defaults_runs backend w w' r H).
Qed.

(** X17.  [clean_up] cannot fail either: per interface, WAN1 first, it
    deletes the root queueing discipline through [subprocess.call], its
    outcome unseen, and brings the link up.  It installs nothing: no [add]
    or [change] command is issued. *)
Theorem clean_up_commands :
  forall St (backend : list string -> St -> option string * St) (w : World St),
    let rw := clean_up backend w in
    fst rw = Ok tt /\
    (exists o1 o2 o3 o4,
       new_events w (snd rw) =
         [Called ["tc"; "qdisc"; "del"; "dev"; WAN1; "root"] o1;
          Ran ["ip"; "link"; "set"; WAN1; "up"] o2;
          Called ["tc"; "qdisc"; "del"; "dev"; WAN2; "root"] o3;
          Ran ["ip"; "link"; "set"; WAN2; "up"] o4]) /\
    netem_writes (new_events w (snd rw)) = [] /\
    rate_writes (new_events w (snd rw)) = [].
Proof.
  intros St backend w rw. subst rw.
  destruct (clean_up backend w) as [r w'] eqn:H.
  destruct (clean_up_runs backend w w' r H) as (Hr & o1 & o2 & o3 & o4 & Hev).
  simpl. split; [exact Hr|]. rewrite Hev. split; [do 4 eexists; reflexivity|].
  split; reflexivity.
Qed.

(** ** The menu loop *)

Section Session.

Context {St : Type} (backend : list string -> St -> option string * St).

Lemma toggle_latency_wan1_returns : returns (fun _ => True) (toggle_latency_wan1 backend).
Proof.
  unfold toggle_latency_wan1.
  apply (bind_returns params_wf); [apply get_netem_params_returns | intros cur Hwf].
  apply (bind_returns (fun _ => True)); [apply getitem_params_returns; auto | intros d _].
  apply (bind_returns (fun _ => True)); [apply default_param_returns; auto | intros j _].
  apply (bind_returns (fun _ => True)); [apply default_param_returns; auto | intros l _].
  apply set_netem_returns. auto.
Qed.

Lemma toggle_packet_loss_wan2_returns :
  returns (fun _ => True) (toggle_packet_loss_wan2 backend).
Proof.
  unfold toggle_packet_loss_wan2.
  apply (bind_returns params_wf); [apply get_netem_params_returns | intros cur Hwf].
  apply (bind_returns (fun _ => True)); [apply getitem_params_returns; auto | intros l _].
  apply (bind_returns (fun _ => True)); [apply default_param_returns; auto | intros d _].
  apply (bind_returns (fun _ => True)); [apply getitem_params_returns; auto | intros j _].
  apply set_netem_returns. auto.
Qed.

Lemma toggle_jitter_wan2_returns : returns (fun _ => True) (toggle_jitter_wan2 backend).
Proof.
  unfold toggle_jitter_wan2.
  apply (bind_returns params_wf); [apply get_netem_params_returns | intros cur Hwf].
  apply (bind_returns (fun _ => True)); [apply getitem_params_returns; auto | intros j _].
  apply (bind_returns (fun _ => True)); [apply default_param_returns; auto | intros d _].
  apply (bind_returns (fun _ => True)); [apply getitem_params_returns; auto | intros l _].
  apply set_netem_returns. auto.
Qed.

Lemma toggle_bandwidth_wan1_returns :
  returns (fun _ => True) (toggle_bandwidth_wan1 backend).
Proof.
  unfold toggle_bandwidth_wan1.
  apply (bind_returns (fun _ => True)); [apply get_htb_rate_returns | intros rate _].
  apply set_htb_rate_returns.
Qed.

Lemma toggle_interface_status_wan2_returns :
  returns (fun _ => True) (toggle_interface_status_wan2 backend).
Proof.
  unfold toggle_interface_status_wan2.
  apply (bind_returns (fun _ => True)); [apply get_interface_status_returns | intros st _].
  apply set_interface_status_returns.
Qed.

Lemma restore_defaults_returns : returns (fun _ => True) (restore_defaults backend).
Proof.
  intros w r w' H.
  destruct (restore_defaults_emits backend _ _ _ H) as (evs & Hl & _).
  destruct (restore_defaults_runs backend _ _ _ H) as [-> _].
  exists evs. split; [exact Hl | exact I].
Qed.

Lemma clean_up_returns : returns (fun _ => True) (clean_up backend).
Proof.
  intros w r w' H.
  destruct (clean_up_emits backend _ _ _ H) as (evs & Hl & _).
  destruct (clean_up_runs backend _ _ _ H) as [-> _].
  exists evs. split; [exact Hl | exact I].
Qed.

Lemma show_status_returns : returns (fun _ => True) (show_status backend).
Proof.
  unfold show_status.
  apply (bind_returns (fun _ => True)); [apply get_interface_status_returns | intros s1 _].
  apply (bind_returns (fun _ => True)); [apply get_interface_status_returns | intros s2 _].
  apply (bind_returns (fun _ => True)); [apply get_htb_rate_returns | intros b1 _].
  apply (bind_returns (fun _ => True)); [apply get_htb_rate_returns | intros b2 _].
  apply (bind_returns params_wf); [apply get_netem_params_returns | intros n1 Hwf1].
  apply (bind_returns params_wf); [apply get_netem_params_returns | intros n2 Hwf2].
  do 6 (apply (bind_returns (fun _ => True));
        [apply getitem_params_returns; auto | intros ? _]).
  apply ret_returns. exact I.
Qed.

Lemma actions_returns (choice : string) (action : M St unit) :
  actions backend choice = Some action -> returns (fun _ => True) action.
Proof.
  unfold actions.
  repeat (match goal with |- context [String.eqb choice ?c] => destruct (String.eqb choice c) end);
    intros [= <-].
  - apply toggle_latency_wan1_returns.
  - apply toggle_packet_loss_wan2_returns.
  - apply toggle_jitter_wan2_returns.
  - apply toggle_bandwidth_wan1_returns.
  - apply toggle_interface_status_wan2_returns.
  - apply restore_defaults_returns.
  - apply clean_up_returns.
  - apply (bind_returns (fun _ => True)); [apply show_status_returns | intros _ _].
    apply ret_returns. exact I.
Qed.

Lemma main_loop_crash (inputs : list string) (w : World St) (e : exn) :
  fst (main_loop backend inputs w) = Crashed e ->
  e = IndexError /\
  exists x, last (log (snd (main_loop backend inputs w))) = Some x /\ is_query x = true.
Proof.
  revert w. induction inputs as [|line rest IH]; intros w; simpl; [discriminate|].
  destruct (String.eqb (PyStr.strip line) "0"); [discriminate|].
  destruct (actions backend (PyStr.strip line)) as [action|] eqn:Ha; [|apply IH].
  destruct (action w) as [[[]|e1] w1] eqn:Hrun;
    destruct (actions_returns _ _ Ha _ _ _ Hrun) as (evs1 & Hl1 & Hr1).
  2:{ simpl. intros [= <-]. destruct Hr1 as (-> & x & Hx & Hq). split; [reflexivity|].
      exists x. rewrite Hl1, last_app, Hx. auto. }
  destruct (negb (String.eqb (PyStr.strip line) "8")); [|apply IH].
  destruct (show_status backend w1) as [[lines|e2] w2] eqn:Hs; [apply IH|].
  destruct (show_status_returns _ _ _ Hs) as (evs2 & Hl2 & -> & x & Hx & Hq).
  simpl. intros [= <-]. split; [reflexivity|].
  exists x. rewrite Hl2, last_app, Hx. auto.
Qed.

Lemma main_loop_idle (inputs : list string) (w : World St) :
  Forall (fun line => actions backend (PyStr.strip line) = None) inputs ->
  main_loop backend inputs w
  = (if existsb (fun line => String.eqb (PyStr.strip line) "0") inputs
     then Exited else InputExhausted, w).
Proof.
  induction 1 as [|line rest Hline Hrest IH]; simpl; [reflexivity|].
  destruct (String.eqb (PyStr.strip line) "0"); [reflexivity|].
  rewrite Hline. exact IH.
Qed.

Lemma main_loop_stops (inputs : list string) (w : World St) :
  match fst (main_loop backend inputs w) with
  | NotRoot => False
  | Exited => exists line, In line inputs /\ PyStr.strip line = "0"
  | InputExhausted => Forall (fun line => PyStr.strip line <> "0") inputs
  | Crashed _ => True
  end.
Proof.
  revert w. induction inputs as [|line rest IH]; intros w; simpl; [constructor|].
  assert (Hrest : forall w1,
            String.eqb (PyStr.strip line) "0" = false ->
            match fst (main_loop backend rest w1) with
            | NotRoot => False
            | Exited => exists l, (line = l \/ In l rest) /\ PyStr.strip l = "0"
            | InputExhausted => Forall (fun l => PyStr.strip l <> "0") (line :: rest)
            | Crashed _ => True
            end).
  { intros w1 Hz. specialize (IH w1).
    destruct (fst (main_loop backend rest w1)); auto.
    - destruct IH as (l & Hin & Hl). exists l. auto.
    - constructor; [|exact IH]. apply String.eqb_neq. exact Hz. }
  destruct (String.eqb (PyStr.strip line) "0") eqn:Hz.
  { simpl. exists line. split; [auto|]. apply String.eqb_eq. exact Hz. }
  destruct (actions backend (PyStr.strip line)) as [action|]; [|apply Hrest; reflexivity].
  destruct (action w) as [[[]|e1] w1]; [|exact I].
  destruct (negb (String.eqb (PyStr.strip line) "8")); [|apply Hrest; reflexivity].
  destruct (show_status backend w1) as [[lines|e2] w2]; [apply Hrest; reflexivity | exact I].
Qed.

End Session.

(** A session on the reference backend: a toggle, the table, a line that
    is no choice, the exit; the line after it is not read. *)
Example session_exits :
  fst (main Ref.backend 0 ["1"; " 8 "; "x"; "0"; "2"] (mkWorld Ref.fresh [])) = Exited.
Proof. vm_compute. reflexivity. Qed.

(** A backend that answers every listing with a line cut short. *)
Example truncated_session :
  fst (main (scripted truncated_listing) 0 ["x"; " 4"; "0"] w0) = Crashed IndexError.
Proof. vm_compute. reflexivity. Qed.

(** The typed lines run out before any [0]: [input] raises [EOFError],
    which nothing catches. *)
Example session_runs_out_of_input :
  fst (main Ref.backend 0 ["5"; "8"; "zero"] (mkWorld Ref.fresh [])) = InputExhausted.
Proof. vm_compute. reflexivity. Qed.

(** X18.  A session ends in one of four ways, and each tells how it came
    about.  Without root privilege it ends at the check, nothing issued.
    With it, it ends by a typed line that is [0] once stripped; or, when
    the lines run out and none was [0], by the [EOFError] of [input], which
    nothing catches; or by an uncaught [IndexError], raised by a reader on
    the listing it has just asked for.  These two are the only exceptions
    that end a session: no menu action raises [KeyError], both managed
    interfaces having a default profile and the dicts of the readers all
    three keys. *)
Theorem main_ends_in_four_ways :
  forall St (backend : list string -> St -> option string * St)
         (euid : nat) (inputs : list string) (w : World St),
    match fst (main backend euid inputs w) with
    | NotRoot => euid <> 0 /\ snd (main backend euid inputs w) = w
    | Exited => euid = 0 /\ exists line, In line inputs /\ PyStr.strip line = "0"
    | InputExhausted =>
        euid = 0 /\ Forall (fun line => PyStr.strip line <> "0") inputs
    | Crashed e =>
        euid = 0 /\ e = IndexError /\
        exists x, last (log (snd (main backend euid inputs w))) = Some x /\
                  is_query x = true
    end.
Proof.
  intros St backend euid inputs w. unfold main.
  destruct (Nat.eqb_spec euid 0) as [-> | Hne]; simpl; [|auto].
  pose proof (main_loop_stops backend inputs w) as Hs.
  pose proof (main_loop_crash backend inputs w) as Hc.
  destruct (fst (main_loop backend inputs w)) as [| |e|].
  - contradiction.
  - auto.
  - destruct (Hc e eq_refl) as [He Hx]. auto.
  - auto.
Qed.

(** X19.  Without root privilege, or when nothing typed is one of the
    choices [1] to [8] (surrounding blanks apart), no command is issued
    and the state is untouched.  The session then ends at the privilege
    check when not root; otherwise by [0] if some line is [0] once
    stripped, and if none is, when the lines run out, by the uncaught
    [EOFError] of [input]. *)
Theorem main_idle_session :
  forall St (backend : list string -> St -> option string * St)
         (euid : nat) (inputs : list string) (w : World St),
    euid <> 0 \/ Forall (fun line => actions backend (PyStr.strip line) = None) inputs ->
    main backend euid inputs w
    = (if negb (euid =? 0) then NotRoot
       else if existsb (fun line => String.eqb (PyStr.strip line) "0") inputs
            then Exited else InputExhausted,
       w).
Proof.
  intros St backend euid inputs w H. unfold main.
  destruct (Nat.eqb_spec euid 0) as [-> | Hne]; simpl; [|reflexivity].
  destruct H as [H | H]; [congruence|].
  apply main_loop_idle. exact H.
Qed.

Lemma main_idle_session_witness :
  main failing 0 ["x"; "12"; ""; "9"] w0
  = (if negb (0 =? 0) then NotRoot
     else if existsb (fun line => String.eqb (PyStr.strip line) "0") ["x"; "12"; ""; "9"]
          then Exited else InputExhausted,
     w0).
Proof.
  apply (main_idle_session unit failing 0 ["x"; "12"; ""; "9"] w0).
  right. repeat constructor.
Defined.

(** ** The fallback of the mutating operations *)

Section Fallback.

Context {St : Type} (backend : list string -> St -> option string * St).














End Fallback.



(** The shape is tight: a run that does nothing, a run whose silent
    change is not followed by anything, and a run with two changes do not
    have it. *)
Example fallback_trace_rejects :
  let c := Ran ["tc"; "class"; "change"; "dev"; WAN1; "parent"; "1:"; "classid"; "1:10";
                "htb"; "rate"; "10mbit"] None in
  ~ fallback_trace WAN1 (Ok tt) [] /\
  ~ fallback_trace WAN1 (Ok tt) [c] /\
  ~ fallback_trace WAN1 (Ok tt) [c; c].
Proof.
  cbv zeta. split; [|split]; intros (reads1 & Hq & H);
    (destruct H as [((e & He) & _) | (c' & Hc & H)]; [discriminate|]);
    (destruct H as [(Hs & _ & H) | (Hs & reads2 & Hq2 & H)];
     [|destruct H as [((e & He) & _) | (_ & rb & Hrb & H)]; [discriminate|];
       destruct Hrb as (b & d & j & l & o1 & o2 & o3 & o4 & ->);
       apply (f_equal length) in H; rewrite length_app in H; simpl in H;
       rewrite length_app in H; simpl in H; lia]).
  - destruct reads1; discriminate.
  - destruct reads1 as [|x reads1]; simpl in H.
    + injection H as <-. vm_compute in Hs. discriminate.
    + injection H as _ H. destruct reads1; discriminate.
  - destruct reads1 as [|x reads1]; simpl in H; [discriminate|].
    injection H as <- _. apply Forall_cons in Hq as [Hq _].
    vm_compute in Hq. discriminate.
Qed.
